(** * timetracker: the project registry and the countdown of [src/App.tsx]

    The [App] component keeps all of its state in React hooks.  The
    development below embeds that state as a record, every handler as a
    function on it, the timer effect as one step of a transition function
    iterated until it changes nothing, and the view's conditional rendering
    as the enabledness of the controls.

    Conventions of the embedding:
    - JavaScript numbers are binary64: every number the component
      computes is an integer ([parseInt(..)], [.. * 60], [prev - 1], an
      array index), NaN or an infinity, so a number is an integer that is a
      double, NaN or a signed infinity, and each operation rounds its exact
      result to the nearest double, ties to even ([double]); the two zeros
      are one, since nothing the component does tells them apart;
    - strings are sequences of ASCII characters;
    - [Math.random()] is the environment's: a generated id is an argument
      of the handler that draws it, a random colour is named by the serial
      number of its draw;
    - reading a property of [undefined] ends the handler in a TypeError,
      which the component does not recover from (it has no error boundary);
    - the two refs are mounted whenever a handler runs, and the browser
      grants a fullscreen request at once. *)

From Stdlib Require Import ZArith List String Ascii Bool Lia.
From Stdlib Require Import DecimalString DecimalZ DecimalPos.
Import ListNotations.

Local Open Scope string_scope.
Local Open Scope list_scope.
Local Open Scope Z_scope.

(** ** JavaScript numbers *)

Inductive number : Type :=
| Int (z : Z)
| NaN
| Infinity (negative : bool).

(** From 2^53 on a double has 53 significant bits: [ulp a] is the weight of
    the last of them for a magnitude [a >= 2^53]. *)
Definition ulp (a : Z) : Z := 2 ^ (Z.log2 a - 52).

(** the multiple of [ulp a] nearest to [a]; half way between two, the even
    multiple *)
Definition nearest (a : Z) : Z :=
  let u := ulp a in
  let q := a / u in
  let r := a mod u in
  if (u <? 2 * r) || ((u =? 2 * r) && Z.odd q) then (q + 1) * u else q * u.

(** The double nearest to the integer [w], ties to even.  Below 2^53 every
    integer is a double; a magnitude that rounds to 2^1024 is an
    infinity. *)
Definition double (w : Z) : number :=
  let a := Z.abs w in
  if a <? 2 ^ 53 then Int w
  else if 2 ^ 1024 <=? nearest a then Infinity (w <? 0)
  else Int (Z.sgn w * nearest a).

(** [x * 60] *)
Definition times60 (x : number) : number :=
  match x with
  | Int z => double (z * 60)
  | NaN => NaN
  | Infinity s => Infinity s
  end.

(** [prev - 1] *)
Definition pred1 (x : number) : number :=
  match x with
  | Int z => double (z - 1)
  | NaN => NaN
  | Infinity s => Infinity s
  end.

(** [x > 0]; every comparison with NaN is false *)
Definition gt0 (x : number) : bool :=
  match x with
  | Int z => 0 <? z
  | NaN => false
  | Infinity s => negb s
  end.

(** [x === 0] *)
Definition eq0 (x : number) : bool :=
  match x with
  | Int z => z =? 0
  | NaN => false
  | Infinity _ => false
  end.

(** ** Strings: truthiness, [parseInt], [String] *)

(** [!s] on a string: only the empty string is falsy *)
Definition falsy (s : string) : bool :=
  match s with
  | EmptyString => true
  | String _ _ => false
  end.

(** ASCII members of the StrWhiteSpaceChar production: TAB, LF, VT, FF, CR, SP *)
Definition isWhiteSpace (c : ascii) : bool :=
  let n := Z.of_nat (nat_of_ascii c) in
  ((9 <=? n) && (n <=? 13)) || (n =? 32).

Fixpoint trimStart (s : string) : string :=
  match s with
  | String c rest => if isWhiteSpace c then trimStart rest else s
  | EmptyString => EmptyString
  end.

(** value of a character as a digit: 0-9, then a-z and A-Z for 10..35 *)
Definition digitValue (c : ascii) : option Z :=
  let n := Z.of_nat (nat_of_ascii c) in
  if (48 <=? n) && (n <=? 57) then Some (n - 48)
  else if (97 <=? n) && (n <=? 122) then Some (n - 87)
  else if (65 <=? n) && (n <=? 90) then Some (n - 55)
  else None.

Definition radixDigit (R : Z) (c : ascii) : option Z :=
  match digitValue c with
  | Some v => if v <? R then Some v else None
  | None => None
  end.

(** The longest prefix of radix-[R] digits, read most significant first.
    [acc] is [None] until a digit has been seen. *)
Fixpoint parseDigits (R : Z) (s : string) (acc : option Z) : option Z :=
  match s with
  | String c rest =>
      match radixDigit R c with
      | Some v =>
          parseDigits R rest
            (Some (R * match acc with Some a => a | None => 0 end + v))
      | None => acc
      end
  | EmptyString => acc
  end.

(** [parseInt(s)] with no radix argument (ECMA-262, 19.2.5): leading white
    space is dropped, then an optional sign, then an optional [0x]/[0X]
    prefix selecting radix 16; the digits that follow are read up to the
    first character that is not one, and no digit at all gives NaN.  The
    result is the double nearest to the integer the digits denote.  (For a
    decimal numeral of more than 20 significant digits the standard lets
    an implementation read the digits after the 20th as zeros; no numeral
    that long is used below.) *)
Definition parseInt (s : string) : number :=
  let S0 := trimStart s in
  let '(sign, S1) :=
    match S0 with
    | String "-" rest => (-1, rest)
    | String "+" rest => (1, rest)
    | _ => (1, S0)
    end in
  let '(R, S2) :=
    match S1 with
    | String "0" (String "x" rest) => (16, rest)
    | String "0" (String "X" rest) => (16, rest)
    | _ => (10, S1)
    end in
  match parseDigits R S2 None with
  | Some m => double (sign * m)
  | None => NaN
  end.

(** The decimal numeral of an integer, with a leading [-]: what a user
    types for it, and what [String(n)] prints when [n] is an integer of
    magnitude at most 2^53 (from there on [String] prints the shortest
    digits that identify the double, and an exponent from 1e21). *)
Definition decimal (z : Z) : string :=
  NilZero.string_of_int (Z.to_int z).

(** ** Projects *)

Record Project : Type := mkProject {
  id : string;
  name : string;
  duration : number (* in seconds *)
}.

(** [projects[i]]: [undefined] (here [None]) outside [0 .. length-1] *)
Definition projectAt (ps : list Project) (i : Z) : option Project :=
  if i <? 0 then None else nth_error ps (Z.to_nat i).

(** [project.id === id] *)
Definition sameId (p : Project) (i : string) : bool := String.eqb (id p) i.

(** ** Component state *)

(** [backgroundColor]: ['#ffffff'], or the string built by
    [generateRandomColor].  The hue of a random colour is
    [Math.floor(Math.random() * 360)]; the component never reads it back, so
    a random colour is identified by the serial number of the call of
    [generateRandomColor] that produced it. *)
Inductive Color : Type :=
| White
| Hsl (draw : nat).

Record State : Type := mkState {
  projects : list Project;
  currentProject : Z;
  isRunning : bool;
  isPaused : bool;
  timeLeft : number;
  backgroundColor : Color;
  newProjectName : string;
  newProjectDuration : string;
  editingProject : option string;
  isFullscreen : bool;
  (** [document.fullscreenElement] is not null *)
  fullscreenElement : bool;
  (** calls of [generateRandomColor] so far *)
  draws : nat
}.

(** [useState] initial values *)
Definition initial : State :=
  mkState [] (-1) false false (Int 0) White "" "" None false false 0.

Definition setProjects (v : list Project) (s : State) : State :=
  mkState v (currentProject s) (isRunning s) (isPaused s) (timeLeft s)
    (backgroundColor s) (newProjectName s) (newProjectDuration s)
    (editingProject s) (isFullscreen s) (fullscreenElement s) (draws s).

Definition setCurrentProject (v : Z) (s : State) : State :=
  mkState (projects s) v (isRunning s) (isPaused s) (timeLeft s)
    (backgroundColor s) (newProjectName s) (newProjectDuration s)
    (editingProject s) (isFullscreen s) (fullscreenElement s) (draws s).

Definition setIsRunning (v : bool) (s : State) : State :=
  mkState (projects s) (currentProject s) v (isPaused s) (timeLeft s)
    (backgroundColor s) (newProjectName s) (newProjectDuration s)
    (editingProject s) (isFullscreen s) (fullscreenElement s) (draws s).

Definition setIsPaused (v : bool) (s : State) : State :=
  mkState (projects s) (currentProject s) (isRunning s) v (timeLeft s)
    (backgroundColor s) (newProjectName s) (newProjectDuration s)
    (editingProject s) (isFullscreen s) (fullscreenElement s) (draws s).

Definition setTimeLeft (v : number) (s : State) : State :=
  mkState (projects s) (currentProject s) (isRunning s) (isPaused s) v
    (backgroundColor s) (newProjectName s) (newProjectDuration s)
    (editingProject s) (isFullscreen s) (fullscreenElement s) (draws s).

Definition setBackgroundColor (v : Color) (s : State) : State :=
  mkState (projects s) (currentProject s) (isRunning s) (isPaused s)
    (timeLeft s) v (newProjectName s) (newProjectDuration s)
    (editingProject s) (isFullscreen s) (fullscreenElement s) (draws s).

Definition setNewProjectName (v : string) (s : State) : State :=
  mkState (projects s) (currentProject s) (isRunning s) (isPaused s)
    (timeLeft s) (backgroundColor s) v (newProjectDuration s)
    (editingProject s) (isFullscreen s) (fullscreenElement s) (draws s).

Definition setNewProjectDuration (v : string) (s : State) : State :=
  mkState (projects s) (currentProject s) (isRunning s) (isPaused s)
    (timeLeft s) (backgroundColor s) (newProjectName s) v
    (editingProject s) (isFullscreen s) (fullscreenElement s) (draws s).

Definition setEditingProject (v : option string) (s : State) : State :=
  mkState (projects s) (currentProject s) (isRunning s) (isPaused s)
    (timeLeft s) (backgroundColor s) (newProjectName s)
    (newProjectDuration s) v (isFullscreen s) (fullscreenElement s) (draws s).

Definition setIsFullscreen (v : bool) (s : State) : State :=
  mkState (projects s) (currentProject s) (isRunning s) (isPaused s)
    (timeLeft s) (backgroundColor s) (newProjectName s)
    (newProjectDuration s) (editingProject s) v (fullscreenElement s)
    (draws s).

(** the browser entering or leaving fullscreen *)
Definition setFullscreenElement (v : bool) (s : State) : State :=
  mkState (projects s) (currentProject s) (isRunning s) (isPaused s)
    (timeLeft s) (backgroundColor s) (newProjectName s)
    (newProjectDuration s) (editingProject s) (isFullscreen s) v (draws s).

Definition setDraws (v : nat) (s : State) : State :=
  mkState (projects s) (currentProject s) (isRunning s) (isPaused s)
    (timeLeft s) (backgroundColor s) (newProjectName s)
    (newProjectDuration s) (editingProject s) (isFullscreen s)
    (fullscreenElement s) v.

(** ** What the presentation layer observes *)

(** The calls a handler or the timer effect makes towards the page:
    [playAlarm()] (which rewinds and plays the audio element),
    [setBackgroundColor(..)], and the two fullscreen requests of
    [toggleFullscreen]. *)
Inductive Effect : Type :=
| PlayAlarm
| SetBackgroundColor (c : Color)
| RequestFullscreen
| ExitFullscreen.

(** The signals of the specification, read off the calls: [onAlarm] is
    [playAlarm()], [onProjectChanged] is a random background colour,
    [onRunComplete] is the reset of the background to white. *)
Definition isAlarm (e : Effect) : bool :=
  match e with PlayAlarm => true | _ => false end.

Definition isProjectChanged (e : Effect) : bool :=
  match e with SetBackgroundColor (Hsl _) => true | _ => false end.

Definition isRunComplete (e : Effect) : bool :=
  match e with SetBackgroundColor White => true | _ => false end.

Definition count (f : Effect -> bool) (out : list Effect) : nat :=
  List.length (filter f out).

(** A handler ends normally with the next state and the calls it made, or
    with the TypeError of reading a property of [undefined].  [Pending] is
    the result of cutting the re-runs of the timer effect short; [settle]
    below never returns it. *)
Inductive Outcome : Type :=
| Ok (st : State) (out : list Effect)
| TypeError
| Pending.

Definition andThen (o : Outcome) (k : State -> Outcome) : Outcome :=
  match o with
  | Ok st out =>
      match k st with
      | Ok st' out' => Ok st' (out ++ out')
      | TypeError => TypeError
      | Pending => Pending
      end
  | TypeError => TypeError
  | Pending => Pending
  end.

Notation "o >>= k" := (andThen o k) (at level 50, left associativity).

(** ** Registry handlers *)

(** [addProject] (lines 36-49).  [randomId] is the value of
    [Math.random().toString(36).substr(2, 9)] at this call. *)
Definition addProject (randomId : string) (st : State) : State :=
  if falsy (newProjectName st) || falsy (newProjectDuration st) then st
  else
    let duration := times60 (parseInt (newProjectDuration st)) in
    let newProject := mkProject randomId (newProjectName st) duration in
    setNewProjectDuration ""
      (setNewProjectName ""
         (setProjects (projects st ++ [newProject]) st)).

(** [deleteProject] (lines 51-53) *)
Definition deleteProject (i : string) (st : State) : State :=
  setProjects (filter (fun project => negb (sameId project i)) (projects st))
    st.

(** [String(project.duration / 60)].  When the duration is a whole number
    of minutes and the quotient an integer of magnitude at most 2^53, the
    division is exact and the text is the decimal numeral.  For any other
    finite duration the quotient is a fraction, or a number that is
    rounded or printed with its shortest digits or an exponent: the text is
    the runtime's, [rendering]. *)
Definition minutesText (rendering : string) (d : number) : string :=
  match d with
  | NaN => "NaN"
  | Infinity false => "Infinity"
  | Infinity true => "-Infinity"
  | Int z =>
      if (z mod 60 =? 0) && (Z.abs (z / 60) <=? 2 ^ 53)
      then decimal (z / 60)
      else rendering
  end.

(** [startEditing] (lines 55-59) *)
Definition startEditing (rendering : string) (project : Project)
  (st : State) : State :=
  setNewProjectDuration (minutesText rendering (duration project))
    (setNewProjectName (name project)
       (setEditingProject (Some (id project)) st)).

(** [saveEdit] (lines 61-72) *)
Definition saveEdit (i : string) (st : State) : State :=
  if falsy (newProjectName st) || falsy (newProjectDuration st) then st
  else
    setNewProjectDuration ""
      (setNewProjectName ""
         (setEditingProject None
            (setProjects
               (map (fun project =>
                       if sameId project i
                       then mkProject (id project) (newProjectName st)
                              (times60 (parseInt (newProjectDuration st)))
                       else project)
                    (projects st))
               st))).

(** The registry operations of the specification take the name and the
    minutes as arguments; in the component they are typed into the two
    inputs first.  [list()] is the [projects] field. *)
Definition add (nameText minutesTyped randomId : string) (st : State)
  : State :=
  addProject randomId
    (setNewProjectDuration minutesTyped (setNewProjectName nameText st)).

Definition edit (i nameText minutesTyped : string) (st : State) : State :=
  saveEdit i
    (setNewProjectDuration minutesTyped (setNewProjectName nameText st)).

(** ** Countdown handlers *)

(** [toggleFullscreen] (lines 105-115).  [fullscreenRef.current] is the root
    element, which is mounted whenever a handler runs; the browser grants
    the request at once. *)
Definition toggleFullscreen (st : State) : State * list Effect :=
  if negb (fullscreenElement st)
  then (setIsFullscreen true (setFullscreenElement true st),
        [RequestFullscreen])
  else (setIsFullscreen false (setFullscreenElement false st),
        [ExitFullscreen]).

(** [if (isFullscreen) { toggleFullscreen(); }] *)
Definition leaveFullscreen (st : State) : State * list Effect :=
  if isFullscreen st then toggleFullscreen st else (st, []).

(** [startTracking] (lines 74-82).  The read [projects[startIndex].duration]
    throws when the index is outside the array; the three setters called
    before it do not save the component, whose next render reads
    [projects[currentProject].name]. *)
Definition startTracking (startIndex : Z) (st : State) : Outcome :=
  if (Z.of_nat (List.length (projects st)) =? 0) then Ok st []
  else
    match projectAt (projects st) startIndex with
    | None => TypeError
    | Some p =>
        let c := Hsl (draws st) in
        Ok (setDraws (S (draws st))
              (setBackgroundColor c
                 (setTimeLeft (duration p)
                    (setCurrentProject startIndex
                       (setIsPaused false (setIsRunning true st))))))
           [SetBackgroundColor c]
    end.

(** [togglePause] (lines 84-86) *)
Definition togglePause (st : State) : State :=
  setIsPaused (negb (isPaused st)) st.

(** [returnToPlanning] (lines 88-96) *)
Definition returnToPlanning (st : State) : State * list Effect :=
  let st1 :=
    setBackgroundColor White
      (setCurrentProject (-1) (setIsPaused false (setIsRunning false st))) in
  let '(st2, out) := leaveFullscreen st1 in
  (st2, SetBackgroundColor White :: out).

(** The [onClick] of the first navigation button (lines 318-322) *)
Definition navigateBack (st : State) : Outcome :=
  match projectAt (projects st) (currentProject st - 1) with
  | None => TypeError
  | Some p =>
      let c := Hsl (draws st) in
      Ok (setDraws (S (draws st))
            (setBackgroundColor c
               (setTimeLeft (duration p)
                  (setCurrentProject (currentProject st - 1) st))))
         [SetBackgroundColor c]
  end.

(** The [onClick] of the second navigation button (lines 330-334) *)
Definition navigateForward (st : State) : Outcome :=
  match projectAt (projects st) (currentProject st + 1) with
  | None => TypeError
  | Some p =>
      let c := Hsl (draws st) in
      Ok (setDraws (S (draws st))
            (setBackgroundColor c
               (setTimeLeft (duration p)
                  (setCurrentProject (currentProject st + 1) st))))
         [SetBackgroundColor c]
  end.

(** ** The timer effect (lines 126-151) *)

(** the condition under which the effect installs the one-second interval *)
Definition timerArmed (st : State) : bool :=
  isRunning st && negb (isPaused st) && gt0 (timeLeft st).

(** the interval's callback, [setTimeLeft(prev => prev - 1)] *)
Definition intervalCallback (st : State) : State :=
  setTimeLeft (pred1 (timeLeft st)) st.

(** One run of the effect body.  [None]: no state is set (the interval is
    installed, or neither branch applies), so nothing is rendered again. *)
Definition timerEffect (st : State) : option Outcome :=
  if timerArmed st then None
  else if isRunning st && eq0 (timeLeft st) then
    if currentProject st <? Z.of_nat (List.length (projects st)) - 1 then
      match projectAt (projects st) (currentProject st + 1) with
      | None => Some TypeError
      | Some p =>
          let c := Hsl (draws st) in
          Some (Ok (setDraws (S (draws st))
                      (setBackgroundColor c
                         (setTimeLeft (duration p)
                            (setCurrentProject (currentProject st + 1) st))))
                   [PlayAlarm; SetBackgroundColor c])
      end
    else
      let st1 :=
        setBackgroundColor White
          (setCurrentProject (-1) (setIsRunning false st)) in
      let '(st2, out) := leaveFullscreen st1 in
      Some (Ok st2 (PlayAlarm :: SetBackgroundColor White :: out))
  else None.

(** React runs the effect again after every render in which one of its
    dependencies changed, so a state the effect has changed is handed back
    to it until it changes nothing. *)
Fixpoint settleFuel (fuel : nat) (st : State) : Outcome :=
  match timerEffect st with
  | None => Ok st []
  | Some (Ok st' out) =>
      match fuel with
      | O => Pending
      | S fuel' => Ok st' out >>= settleFuel fuel'
      end
  | Some TypeError => TypeError
  | Some Pending => Pending
  end.

(** Each re-run moves [currentProject] one step towards the end of the list,
    and the last one leaves the run: one more than the number of projects
    is enough (lemma [settle_not_pending]). *)
Definition settle (st : State) : Outcome :=
  settleFuel (S (List.length (projects st))) st.

(** ** The view: which controls exist, and what they call *)

(** Everything that can happen to the mounted component: a change or click
    event of a control of the JSX (lines 153-350), the interval firing, and
    the user leaving fullscreen through the browser (the [fullscreenchange]
    listener of lines 117-124). *)
Inductive Event : Type :=
| ChangeName (value : string)
| ChangeDuration (value : string)
| ClickAdd (randomId : string)
| ClickPlay (index : nat)
| ClickEdit (index : nat) (rendering : string)
| ClickDelete (index : nat)
| ClickSave (index : nat)
| ClickStart
| ClickFullscreen
| ClickPause
| ClickReturn
| ClickPrev
| ClickNext
| IntervalFired
| FullscreenLeft.

(** [editingProject === project.id] for the row at [index] *)
Definition rowEdited (st : State) (index : nat) : option bool :=
  match nth_error (projects st) index with
  | None => None
  | Some p =>
      Some match editingProject st with
           | Some i => sameId p i
           | None => false
           end
  end.

(** The planning view is rendered when [!isRunning], the countdown view
    otherwise; a row shows either its Save button or its Play, Edit and
    Delete buttons; the Start button needs a project; each navigation
    button has its own bound check. *)
Definition enabled (st : State) (e : Event) : bool :=
  match e with
  | ChangeName _ | ChangeDuration _ | ClickAdd _ => negb (isRunning st)
  | ClickPlay index | ClickEdit index _ | ClickDelete index =>
      negb (isRunning st) &&
      match rowEdited st index with Some b => negb b | None => false end
  | ClickSave index =>
      negb (isRunning st) &&
      match rowEdited st index with Some b => b | None => false end
  | ClickStart =>
      negb (isRunning st) && (0 <? Z.of_nat (List.length (projects st)))
  | ClickFullscreen | ClickPause | ClickReturn => isRunning st
  | ClickPrev => isRunning st && (0 <? currentProject st)
  | ClickNext =>
      isRunning st &&
      (currentProject st <? Z.of_nat (List.length (projects st)) - 1)
  | IntervalFired => timerArmed st
  | FullscreenLeft => fullscreenElement st
  end.

Definition pure (r : State * list Effect) : Outcome := Ok (fst r) (snd r).

Definition onRow (st : State) (index : nat) (k : Project -> Outcome)
  : Outcome :=
  match nth_error (projects st) index with
  | Some p => k p
  | None => Ok st []
  end.

Definition handler (e : Event) (st : State) : Outcome :=
  match e with
  | ChangeName v => Ok (setNewProjectName v st) []
  | ChangeDuration v => Ok (setNewProjectDuration v st) []
  | ClickAdd randomId => Ok (addProject randomId st) []
  | ClickPlay index => startTracking (Z.of_nat index) st
  | ClickEdit index rendering =>
      onRow st index (fun p => Ok (startEditing rendering p st) [])
  | ClickDelete index =>
      onRow st index (fun p => Ok (deleteProject (id p) st) [])
  | ClickSave index => onRow st index (fun p => Ok (saveEdit (id p) st) [])
  | ClickStart => startTracking 0 st
  | ClickFullscreen => pure (toggleFullscreen st)
  | ClickPause => Ok (togglePause st) []
  | ClickReturn => pure (returnToPlanning st)
  | ClickPrev => navigateBack st
  | ClickNext => navigateForward st
  | IntervalFired => Ok (intervalCallback st) []
  | FullscreenLeft =>
      Ok (setIsFullscreen false (setFullscreenElement false st)) []
  end.

(** An event on a control that is not rendered cannot occur: nothing
    happens.  Otherwise its handler runs, the component renders, and the
    timer effect runs until it rests. *)
Definition dispatch (e : Event) (st : State) : Outcome :=
  if enabled st e then handler e st >>= settle else Ok st [].

Fixpoint run (es : list Event) (st : State) : Outcome :=
  match es with
  | [] => Ok st []
  | e :: es' => dispatch e st >>= run es'
  end.

(** ** The operations of the countdown engine *)

Inductive Direction : Type := forward | backward.

Inductive Phase : Type := Idle | Running | Paused.

Definition phase (st : State) : Phase :=
  if isRunning st then (if isPaused st then Paused else Running) else Idle.

(** [start(sequence, startIndex)]: the registry's list is the sequence *)
Definition start (startIndex : Z) (st : State) : Outcome :=
  startTracking startIndex st >>= settle.

(** [tick()]: one firing of the interval, when there is one *)
Definition tick (st : State) : Outcome := dispatch IntervalFired st.

Fixpoint ticks (n : nat) (st : State) : Outcome :=
  match n with
  | O => Ok st []
  | S n' => tick st >>= ticks n'
  end.

Definition navigateEvent (d : Direction) : Event :=
  match d with
  | backward => ClickPrev
  | forward => ClickNext
  end.


(** [exit()] *)
Definition exit (st : State) : Outcome := dispatch ClickReturn st.

(** States a session can be in *)
Inductive reachable : State -> Prop :=
| reachable_initial : reachable initial
| reachable_step st e st' out :
    reachable st -> dispatch e st = Ok st' out -> reachable st'.

(** the seconds of a finite duration *)
Definition seconds (n : number) : Z :=
  match n with Int z => z | NaN => 0 | Infinity _ => 0 end.

(** sum of the durations from position [k] on, in seconds *)
Definition totalFrom (k : nat) (ps : list Project) : Z :=
  fold_right (fun p acc => seconds (duration p) + acc) 0 (skipn k ps).

Definition positiveDuration (p : Project) : Prop :=
  exists d, duration p = Int d /\ 0 < d.

(** a duration the interval can count down: every integer from it down to
    zero is a double *)
Definition countableDuration (p : Project) : Prop :=
  exists d, duration p = Int d /\ 0 < d <= 2 ^ 53.

(** ** Properties of states *)

(** the timer effect has nothing left to do *)
Definition rested (st : State) : Prop := timerEffect st = None.

(** [currentProject] indexes the list while a run is active *)
Definition indexInRange (st : State) : Prop :=
  isRunning st = true ->
  0 <= currentProject st < Z.of_nat (List.length (projects st)).

(** [isFullscreen] mirrors the document *)
Definition mirrored (st : State) : Prop :=
  isFullscreen st = fullscreenElement st.

(** the countdown view reads [projects[currentProject].name] (line 309) *)
Definition viewRenders (st : State) : bool :=
  if isRunning st then
    match projectAt (projects st) (currentProject st) with
    | Some _ => true
    | None => false
    end
  else true.

Definition allPositive (st : State) : Prop :=
  Forall positiveDuration (projects st).

Definition allCountable (st : State) : Prop :=
  Forall countableDuration (projects st).

(** the state a run is left in: [returnToPlanning], and the last branch of
    the timer effect, up to [isPaused] *)
Definition planning (st : State) : State :=
  setBackgroundColor White
    (setCurrentProject (-1) (setIsPaused false (setIsRunning false st))).

(** ** A sample session *)

(** two projects typed in and added, then the Start button *)
Definition planningSession : list Event :=
  [ChangeName "Draft"; ChangeDuration "1"; ClickAdd "k3x9q2m1z";
   ChangeName "Review"; ChangeDuration "2"; ClickAdd "w8r5t0b4c"].

Definition planned : State :=
  mkState
    [mkProject "k3x9q2m1z" "Draft" (Int 60);
     mkProject "w8r5t0b4c" "Review" (Int 120)]
    (-1) false false (Int 0) White "" "" None false false 0.

Definition started : State :=
  mkState (projects planned) 0 true false (Int 60) (Hsl 0) "" "" None
    false false 1.

(** the sequence of the specification's scenario: 60 and 30 seconds *)
Definition draftReview : State :=
  setProjects
    [mkProject "k3x9q2m1z" "Draft" (Int 60);
     mkProject "w8r5t0b4c" "Review" (Int 30)]
    initial.

Definition solo : State :=
  setProjects [mkProject "k3x9q2m1z" "Solo" (Int 5)] initial.

(** ** The display of a time *)

Fixpoint repeatChar (n : nat) (c : ascii) : string :=
  match n with
  | O => EmptyString
  | S n' => String c (repeatChar n' c)
  end.

(** [s.padStart(targetLength, c)] with a pad string of one character *)
Definition padStart (targetLength : nat) (c : ascii) (s : string) : string :=
  String.append (repeatChar (targetLength - String.length s) c) s.

(** [Math.floor(seconds / 60).toString()].  Below 2^53 seconds the quotient
    is under 2^48, where two doubles are at most 1/32 apart, and a quotient
    is never closer than 1/60 to the integer above it: rounding the
    division does not change its floor, and the text is a plain numeral.
    For a larger finite time the text is the runtime's, [large]. *)
Definition minutesField (large : string) (seconds : number) : string :=
  match seconds with
  | Int z => if Z.abs z <? 2 ^ 53 then decimal (z / 60) else large
  | NaN => "NaN"
  | Infinity false => "Infinity"
  | Infinity true => "-Infinity"
  end.

(** [(seconds % 60).toString()]: the remainder has the sign of the
    dividend and is exact; that of an infinity is NaN *)
Definition secondsField (seconds : number) : string :=
  match seconds with
  | Int z => decimal (Z.rem z 60)
  | NaN => "NaN"
  | Infinity _ => "NaN"
  end.

(** [formatTime] (lines 30-34) *)
Definition formatTime (large : string) (seconds : number) : string :=
  let mins := minutesField large seconds in
  let secs := secondsField seconds in
  String.append (padStart 2 "0" mins)
    (String.append ":" (padStart 2 "0" secs)).

(** ** Further properties of states *)

(** a duration as [addProject] and [saveEdit] write it, [parseInt(..) * 60]:
    NaN, an infinity, or the double nearest to 60 times a double *)
Definition wholeMinutes (d : number) : Prop :=
  match d with
  | Int z => exists m, double m = Int m /\ double (m * 60) = Int z
  | NaN => True
  | Infinity _ => True
  end.

(** a duration that the edit form gives back: NaN, or whole minutes below
    2^53 seconds *)
Definition readsBack (d : number) : Prop :=
  match d with
  | Int z => z mod 60 = 0 /\ Z.abs z < 2 ^ 53
  | NaN => True
  | Infinity _ => False
  end.

(** a number is a double *)
Definition isDouble (x : number) : Prop :=
  match x with
  | Int z => double z = Int z
  | NaN => True
  | Infinity _ => True
  end.

(** while a run is active, [timeLeft] is the duration of the current
    project or a positive number of seconds below it *)
Definition withinDuration (st : State) : Prop :=
  isRunning st = true ->
  exists p,
    projectAt (projects st) (currentProject st) = Some p /\
    (timeLeft st = duration p \/
     exists t d, timeLeft st = Int t /\ duration p = Int d /\ 0 < t < d).

(** a project with a negative duration, and one whose minutes did not parse *)
Definition oddities : State :=
  mkState
    [mkProject "k3x9q2m1z" "Late" (Int (-300));
     mkProject "w8r5t0b4c" "Blank" NaN;
     mkProject "h2j7d4s9a" "Nothing" (Int 0);
     mkProject "p6f1v3n8e" "Last" (Int 60)]
    (-1) false false (Int 0) White "" "" None false false 0.

(** a paused run on the last project of [oddities] *)
Definition pausedOnLast : State :=
  mkState (projects oddities) 3 true true (Int 42) (Hsl 0) "" "" None
    false false 1.

(** ** Rounding to the nearest double *)

Lemma pow53 : 2 ^ 53 = 9007199254740992.
Proof. reflexivity. Qed.

(** the binade of a magnitude from 2^53 on *)
Lemma ulp_bounds (a : Z) :
  2 ^ 53 <= a ->
  2 <= ulp a /\ 2 ^ 52 * ulp a <= a < 2 ^ 53 * ulp a /\
  2 ^ 53 * ulp a = 2 ^ (Z.log2 a + 1) /\ 53 <= Z.log2 a.
Proof.
  intro Ha. unfold ulp.
  assert (Hpos : 0 < a) by (rewrite pow53 in Ha; lia).
  assert (HL : 53 <= Z.log2 a).
  { apply Z.log2_le_pow2; [exact Hpos|exact Ha]. }
  destruct (Z.log2_spec a Hpos) as [Hlo Hhi].
  assert (E52 : 2 ^ Z.log2 a = 2 ^ 52 * 2 ^ (Z.log2 a - 52)).
  { rewrite <- Z.pow_add_r by lia. f_equal. lia. }
  assert (E53 : 2 ^ (Z.log2 a + 1) = 2 ^ 53 * 2 ^ (Z.log2 a - 52)).
  { rewrite <- Z.pow_add_r by lia. f_equal. lia. }
  assert (Hu : 2 ^ 1 <= 2 ^ (Z.log2 a - 52))
    by (apply Z.pow_le_mono_r; lia).
  change (2 ^ 1) with 2 in Hu.
  replace (Z.succ (Z.log2 a)) with (Z.log2 a + 1) in Hhi by lia.
  repeat split; try lia.
Qed.

Lemma nearest_cases (a : Z) :
  2 ^ 53 <= a ->
  let u := ulp a in
  let q := a / u in
  let r := a mod u in
  a = q * u + r /\ 0 <= r < u /\ 2 ^ 52 <= q < 2 ^ 53 /\
  ((nearest a = q * u /\ (2 * r < u \/ (2 * r = u /\ Z.odd q = false))) \/
   (nearest a = (q + 1) * u /\ (u < 2 * r \/ (2 * r = u /\ Z.odd q = true)))).
Proof.
  intro Ha. cbv zeta.
  destruct (ulp_bounds a Ha) as (Hu & [Hlo Hhi] & _ & _).
  pose proof (Z.div_mod a (ulp a) ltac:(lia)) as Hdm.
  pose proof (Z.mod_pos_bound a (ulp a) ltac:(lia)) as Hr.
  assert (Hq : 2 ^ 52 <= a / ulp a < 2 ^ 53).
  { split.
    - apply Z.div_le_lower_bound; lia.
    - apply Z.div_lt_upper_bound; lia. }
  split; [lia|]. split; [exact Hr|]. split; [exact Hq|].
  unfold nearest.
  destruct (ulp a <? 2 * (a mod ulp a)) eqn:E1; cbn [orb].
  - right. apply Z.ltb_lt in E1. split; [reflexivity|left; exact E1].
  - apply Z.ltb_ge in E1.
    destruct (ulp a =? 2 * (a mod ulp a)) eqn:E2; cbn [andb].
    + apply Z.eqb_eq in E2. destruct (Z.odd (a / ulp a)) eqn:E3.
      * right. split; [reflexivity|right; split; [lia|reflexivity]].
      * left. split; [reflexivity|right; split; [lia|reflexivity]].
    + apply Z.eqb_neq in E2. left. split; [reflexivity|left; lia].
Qed.

Lemma nearest_bounds (a : Z) :
  2 ^ 53 <= a ->
  2 ^ 52 * ulp a <= nearest a <= 2 ^ 53 * ulp a /\
  exists k, nearest a = k * ulp a /\ 2 ^ 52 <= k <= 2 ^ 53.
Proof.
  intro Ha. destruct (ulp_bounds a Ha) as (Hu & _ & _ & _).
  destruct (nearest_cases a Ha) as (_ & _ & Hq & [[-> _]|[-> _]]).
  - split; [nia|]. exists (a / ulp a). split; [reflexivity|lia].
  - split; [nia|]. exists (a / ulp a + 1). split; [reflexivity|lia].
Qed.

Lemma nearest_mono (a b : Z) :
  2 ^ 53 <= a -> a <= b -> nearest a <= nearest b.
Proof.
  intros Ha Hab.
  assert (Hb : 2 ^ 53 <= b) by lia.
  destruct (ulp_bounds a Ha) as (Hua & _ & Ea & HLa).
  destruct (ulp_bounds b Hb) as (Hub & _ & Eb & HLb).
  destruct (nearest_bounds a Ha) as ([_ Hna] & _).
  destruct (nearest_bounds b Hb) as ([Hnb _] & _).
  assert (HL : Z.log2 a <= Z.log2 b) by (apply Z.log2_le_mono; exact Hab).
  destruct (Z.eq_dec (Z.log2 a) (Z.log2 b)) as [Heq|Hne].
  - assert (Hu : ulp b = ulp a) by (unfold ulp; rewrite Heq; reflexivity).
    destruct (nearest_cases a Ha) as (Eqa & Hra & Hqa & Hca).
    destruct (nearest_cases b Hb) as (Eqb & Hrb & Hqb & Hcb).
    cbv zeta in *. rewrite Hu in *.
    set (u := ulp a) in *. set (qa := a / u) in *. set (qb := b / u) in *.
    set (ra := a mod u) in *. set (rb := b mod u) in *.
    assert (Hqle : qa <= qb) by (apply Z.div_le_mono; lia).
    destruct (Z.eq_dec qa qb) as [Hq|Hq].
    + assert (Hr : ra <= rb) by nia.
      destruct Hca as [[-> _]|[-> Hupa]];
        destruct Hcb as [[-> Hdnb]|[-> _]]; rewrite ?Hq in *; try nia.
      exfalso. destruct Hupa as [?|[? ?]], Hdnb as [?|[? ?]]; try lia.
      congruence.
    + assert (qa + 1 <= qb) by lia.
      destruct Hca as [[-> _]|[-> _]]; destruct Hcb as [[-> _]|[-> _]]; nia.
  - assert (Hstep : 2 ^ (Z.log2 a + 1) <= 2 ^ Z.log2 b)
      by (apply Z.pow_le_mono_r; lia).
    assert (E52 : 2 ^ Z.log2 b = 2 ^ 52 * ulp b).
    { unfold ulp. rewrite <- Z.pow_add_r by lia. f_equal. lia. }
    lia.
Qed.

Lemma nearest_exact (m : Z) :
  2 ^ 53 <= m -> m mod ulp m = 0 -> nearest m = m.
Proof.
  intros Hm Hmod. destruct (ulp_bounds m Hm) as (Hu & _).
  unfold nearest. rewrite Hmod.
  replace (ulp m <? 2 * 0) with false by (symmetry; apply Z.ltb_ge; lia).
  replace (ulp m =? 2 * 0) with false by (symmetry; apply Z.eqb_neq; lia).
  cbn [orb andb].
  pose proof (Z.div_mod m (ulp m) ltac:(lia)). lia.
Qed.

Lemma nearest_fixed (a : Z) :
  2 ^ 53 <= a -> nearest (nearest a) = nearest a.
Proof.
  intro Ha.
  destruct (ulp_bounds a Ha) as (Hu & _ & E53 & HL).
  destruct (nearest_bounds a Ha) as (_ & k & Hk & Hkb).
  assert (E52 : 2 ^ Z.log2 a = 2 ^ 52 * ulp a).
  { unfold ulp. rewrite <- Z.pow_add_r by lia. f_equal. lia. }
  assert (Hm : 2 ^ 53 <= nearest a) by (rewrite Hk; nia).
  apply nearest_exact; [exact Hm|].
  destruct (Z.eq_dec k (2 ^ 53)) as [->|Hne].
  - assert (Hlog : Z.log2 (nearest a) = Z.log2 a + 1).
    { rewrite Hk, E53. apply Z.log2_pow2. lia. }
    assert (Hulp : ulp (nearest a) = ulp a * 2).
    { unfold ulp. rewrite Hlog.
      replace (Z.log2 a + 1 - 52) with (Z.log2 a - 52 + 1) by lia.
      rewrite Z.pow_add_r by lia. reflexivity. }
    rewrite Hulp, Hk.
    replace (2 ^ 53 * ulp a) with (2 ^ 52 * (ulp a * 2))
      by (change (2 ^ 53) with (2 ^ 52 * 2); ring).
    apply Z.mod_mul. lia.
  - assert (Hlog : Z.log2 (nearest a) = Z.log2 a).
    { apply Z.log2_unique; [lia|].
      replace (Z.succ (Z.log2 a)) with (Z.log2 a + 1) by lia.
      rewrite Hk. nia. }
    assert (Hulp : ulp (nearest a) = ulp a)
      by (unfold ulp; rewrite Hlog; reflexivity).
    rewrite Hulp, Hk. apply Z.mod_mul. lia.
Qed.

(** ** [double] *)

Lemma double_small (w : Z) : Z.abs w < 2 ^ 53 -> double w = Int w.
Proof.
  intro H. unfold double. apply Z.ltb_lt in H. rewrite H. reflexivity.
Qed.

(** a rounded magnitude stays at or above 2^53, on the side of its sign *)
Lemma double_large (w z : Z) :
  2 ^ 53 <= Z.abs w -> double w = Int z ->
  2 ^ 53 <= Z.abs z /\ Z.sgn z = Z.sgn w /\ Z.abs z = nearest (Z.abs w).
Proof.
  intros Hw. unfold double.
  destruct (Z.abs w <? 2 ^ 53) eqn:E; [apply Z.ltb_lt in E; lia|].
  destruct (2 ^ 1024 <=? nearest (Z.abs w)); [discriminate|].
  intro H. injection H as <-.
  destruct (ulp_bounds _ Hw) as (Hu & _).
  destruct (nearest_bounds _ Hw) as ([Hn _] & _).
  assert (Hpos : 2 ^ 53 <= nearest (Z.abs w)) by nia.
  rewrite pow53 in *.
  destruct (Z.sgn_spec w) as [[? ->]|[[? ->]|[? ->]]]; lia.
Qed.

Lemma double_Int_inv (w z : Z) :
  double w = Int z -> Z.abs z < 2 ^ 53 -> z = w.
Proof.
  intros Hd Hz. destruct (Z_lt_le_dec (Z.abs w) (2 ^ 53)) as [Hs|Hl].
  - rewrite (double_small w Hs) in Hd. congruence.
  - destruct (double_large w z Hl Hd) as (Hbig & _). lia.
Qed.

Lemma double_zero (w : Z) : double w = Int 0 -> w = 0.
Proof.
  intro H. symmetry. apply (double_Int_inv w 0 H). reflexivity.
Qed.

(** what [double] returns is a double *)
Lemma double_fixed (w z : Z) : double w = Int z -> double z = Int z.
Proof.
  intro Hd. destruct (Z_lt_le_dec (Z.abs z) (2 ^ 53)) as [Hs|Hl].
  - apply double_small. exact Hs.
  - destruct (Z_lt_le_dec (Z.abs w) (2 ^ 53)) as [Hws|Hwl].
    + rewrite (double_small w Hws) in Hd. injection Hd as <-. lia.
    + destruct (double_large w z Hwl Hd) as (_ & Hsgn & Habs).
      pose proof Hd as Hd'. unfold double in Hd'.
      destruct (Z.abs w <? 2 ^ 53) eqn:E; [apply Z.ltb_lt in E; lia|].
      destruct (2 ^ 1024 <=? nearest (Z.abs w)) eqn:Eo; [discriminate|].
      unfold double.
      destruct (Z.abs z <? 2 ^ 53) eqn:E'; [apply Z.ltb_lt in E'; lia|].
      rewrite Habs, nearest_fixed, Eo by exact Hwl.
      f_equal. rewrite <- Habs. pose proof (Z.abs_sgn z). lia.
Qed.

(** counting down from a double never goes up *)
Lemma double_pred (t : Z) :
  0 < t -> double t = Int t ->
  exists t', double (t - 1) = Int t' /\ 0 <= t' <= t.
Proof.
  intros Hpos Hfix.
  destruct (Z_lt_le_dec (t - 1) (2 ^ 53)) as [Hs|Hl].
  - exists (t - 1). split; [apply double_small|]; lia.
  - assert (Ht : 2 ^ 53 <= Z.abs t) by lia.
    destruct (double_large t t Ht Hfix) as (_ & _ & Habs).
    rewrite Z.abs_eq in Habs by lia.
    pose proof (nearest_mono (t - 1) t Hl ltac:(lia)) as Hmono.
    pose proof Hfix as Hd. unfold double in Hd.
    destruct (Z.abs t <? 2 ^ 53) eqn:E; [apply Z.ltb_lt in E; lia|].
    rewrite Z.abs_eq in Hd by lia.
    destruct (2 ^ 1024 <=? nearest t) eqn:Eo; [discriminate|].
    apply Z.leb_gt in Eo.
    destruct (ulp_bounds _ Hl) as (Hu & _).
    destruct (nearest_bounds _ Hl) as ([Hn _] & _).
    exists (nearest (t - 1)). split.
    + unfold double. rewrite Z.abs_eq by lia.
      destruct (t - 1 <? 2 ^ 53) eqn:E1; [apply Z.ltb_lt in E1; lia|].
      replace (2 ^ 1024 <=? nearest (t - 1)) with false
        by (symmetry; apply Z.leb_gt; lia).
      f_equal. rewrite Z.sgn_pos by lia. lia.
    + split; [nia|lia].
Qed.

(** the rounding at work: a tie down and a tie up to the even neighbour,
    a product of minutes by 60, a subtraction that is lost, an overflow *)
Example double_samples :
  double (2 ^ 53 + 1) = Int (2 ^ 53) /\
  double (2 ^ 53 + 3) = Int (2 ^ 53 + 4) /\
  double (9007199254740994 * 60) = Int 540431955284459648 /\
  double (6000000000000000000 - 1) = Int 6000000000000000000 /\
  double (2 ^ 1024 - 2 ^ 970 - 1) = Int (2 ^ 1024 - 2 ^ 971) /\
  double (2 ^ 1024 - 2 ^ 970) = Infinity false /\
  double (- 10 ^ 400) = Infinity true.
Proof. repeat split; vm_compute; reflexivity. Qed.

(** from 2^53 on every double is even *)
Lemma double_even (w z : Z) :
  2 ^ 53 <= Z.abs w -> double w = Int z -> exists k, z = 2 * k.
Proof.
  intros Hw Hz.
  destruct (double_large w z Hw Hz) as (_ & _ & Habs).
  destruct (nearest_bounds (Z.abs w) Hw) as (_ & k & Hk & _).
  destruct (ulp_bounds (Z.abs w) Hw) as (_ & _ & _ & Hlog).
  assert (Hu : ulp (Z.abs w) = 2 * 2 ^ (Z.log2 (Z.abs w) - 53)).
  { unfold ulp. rewrite <- Z.pow_succ_r by lia. f_equal. lia. }
  exists (Z.sgn z * (k * 2 ^ (Z.log2 (Z.abs w) - 53))).
  pose proof (Z.abs_sgn z) as Hs. rewrite Habs, Hk, Hu in Hs. lia.
Qed.

(** ** [parseInt] reads back the decimal numeral of an integer *)

(** evaluate the tests on the literal characters of a numeral *)
Ltac eval_digits :=
  repeat match goal with
    | |- context [radixDigit 10 ?c] =>
        let v := eval vm_compute in (radixDigit 10 c) in
        change (radixDigit 10 c) with v
    end;
  cbv beta iota.

Ltac eval_whiteSpace :=
  repeat match goal with
    | |- context [isWhiteSpace ?c] =>
        let v := eval vm_compute in (isWhiteSpace c) in
        change (isWhiteSpace c) with v
    end;
  cbv beta iota zeta.

Lemma parseDigits_acc (d : Decimal.uint) (acc : positive) :
  parseDigits 10 (NilEmpty.string_of_uint d) (Some (Z.pos acc))
  = Some (Z.pos (Pos.of_uint_acc d acc)).
Proof.
  revert acc.
  induction d; intro acc;
    cbn [NilEmpty.string_of_uint parseDigits Pos.of_uint_acc];
    try reflexivity; eval_digits;
    rewrite <- IHd; f_equal; f_equal; lia.
Qed.

Lemma parseDigits_zero (d : Decimal.uint) :
  parseDigits 10 (NilEmpty.string_of_uint d) (Some 0)
  = Some (Z.of_N (Pos.of_uint d)).
Proof.
  induction d; cbn [NilEmpty.string_of_uint parseDigits Pos.of_uint];
    try reflexivity; eval_digits.
  - exact IHd.
  - apply (parseDigits_acc d 1).
  - apply (parseDigits_acc d 2).
  - apply (parseDigits_acc d 3).
  - apply (parseDigits_acc d 4).
  - apply (parseDigits_acc d 5).
  - apply (parseDigits_acc d 6).
  - apply (parseDigits_acc d 7).
  - apply (parseDigits_acc d 8).
  - apply (parseDigits_acc d 9).
Qed.

(** a numeral is not empty, starts with a digit, and has no [x] in second
    place: [parseInt] goes straight to its digits *)
Lemma parseInt_numeral (d : Decimal.uint) :
  d <> Decimal.Nil ->
  parseInt (NilEmpty.string_of_uint d) = double (Z.of_N (Pos.of_uint d)) /\
  parseInt (String "-" (NilEmpty.string_of_uint d))
  = double (- Z.of_N (Pos.of_uint d)).
Proof.
  intro Hd.
  destruct d as [|d|d|d|d|d|d|d|d|d|d]; [congruence|..];
    (destruct d; [split; reflexivity|..]).
  all: cbn [NilEmpty.string_of_uint Pos.of_uint Z.of_N];
    unfold parseInt; cbn [trimStart]; eval_whiteSpace;
    cbn [parseDigits]; eval_digits;
    match goal with
    | |- context [parseDigits 10 _ (Some ?e)] =>
        let v := eval vm_compute in e in change e with v
    end;
    first [rewrite parseDigits_zero | rewrite parseDigits_acc];
    split; f_equal; lia.
Qed.

(** [parseInt] of the numeral of [z] is the double nearest to [z] *)
Lemma parseInt_decimal (z : Z) : parseInt (decimal z) = double z.
Proof.
  unfold decimal.
  destruct z as [|p|p]; [reflexivity| |];
    cbn [Z.to_int NilZero.string_of_int];
    pose proof (Unsigned.to_uint_nonnil p) as Hnil;
    destruct (parseInt_numeral _ Hnil) as [Hpos Hneg];
    rewrite Unsigned.of_to in Hpos, Hneg;
    unfold NilZero.string_of_uint;
    destruct (Pos.to_uint p); try congruence; assumption.
Qed.

Lemma parseInt_decimal_small (z : Z) :
  Z.abs z < 2 ^ 53 -> parseInt (decimal z) = Int z.
Proof. intro H. rewrite parseInt_decimal. apply double_small, H. Qed.

Lemma decimal_nonempty (z : Z) : decimal z <> "".
Proof.
  unfold decimal.
  destruct z as [|p|p]; cbn [Z.to_int NilZero.string_of_int];
    [discriminate| |discriminate].
  pose proof (Unsigned.to_uint_nonnil p) as Hnil.
  unfold NilZero.string_of_uint.
  destruct (Pos.to_uint p); try congruence; discriminate.
Qed.


(** ** The registry *)

Lemma falsy_empty (s : string) : falsy s = true <-> s = "".
Proof. destruct s; simpl; split; congruence. Qed.

Lemma falsy_decimal (z : Z) : falsy (decimal z) = false.
Proof.
  destruct (decimal z) eqn:E; [|reflexivity].
  destruct (decimal_nonempty z E).
Qed.

Lemma sameId_true (p : Project) (i : string) : sameId p i = true <-> id p = i.
Proof. unfold sameId. apply String.eqb_eq. Qed.

Lemma sameId_false (p : Project) (i : string) :
  sameId p i = false <-> id p <> i.
Proof. unfold sameId. apply String.eqb_neq. Qed.

Lemma saveEdit_unchecked (i : string) (st : State) :
  falsy (newProjectName st) || falsy (newProjectDuration st) = true ->
  saveEdit i st = st.
Proof. unfold saveEdit. intros ->. reflexivity. Qed.

Lemma saveEdit_nth (i : string) (st : State) (k : nat) :
  falsy (newProjectName st) || falsy (newProjectDuration st) = false ->
  nth_error (projects (saveEdit i st)) k
  = option_map
      (fun p => if sameId p i
                then mkProject (id p) (newProjectName st)
                       (times60 (parseInt (newProjectDuration st)))
                else p)
      (nth_error (projects st) k).
Proof.
  unfold saveEdit. intros ->. cbn [projects setNewProjectDuration
    setNewProjectName setEditingProject setProjects].
  apply nth_error_map.
Qed.

Lemma saveEdit_ids (i : string) (st : State) :
  map id (projects (saveEdit i st)) = map id (projects st).
Proof.
  unfold saveEdit.
  destruct (falsy (newProjectName st) || falsy (newProjectDuration st));
    [reflexivity|].
  cbn [projects setNewProjectDuration setNewProjectName setEditingProject
       setProjects].
  rewrite map_map. apply map_ext.
  intro p. destruct (sameId p i); reflexivity.
Qed.

Lemma saveEdit_absent (i : string) (st : State) :
  ~ In i (map id (projects st)) -> projects (saveEdit i st) = projects st.
Proof.
  unfold saveEdit.
  destruct (falsy (newProjectName st) || falsy (newProjectDuration st));
    [reflexivity|].
  cbn [projects setNewProjectDuration setNewProjectName setEditingProject
       setProjects].
  induction (projects st) as [|p ps IH]; intro Hnot; [reflexivity|].
  cbn [map] in *. rewrite IH by (cbn in Hnot; tauto).
  destruct (sameId p i) eqn:E; [|reflexivity].
  apply sameId_true in E. cbn in Hnot. tauto.
Qed.

Lemma nth_error_id_unique (ps : list Project) (j k : nat) (p q : Project) :
  NoDup (map id ps) ->
  nth_error ps j = Some p -> nth_error ps k = Some q -> id p = id q -> j = k.
Proof.
  intros Hnd Hj Hk Hid.
  apply (proj1 (NoDup_nth_error (map id ps)) Hnd).
  - apply nth_error_Some. rewrite nth_error_map, Hj. discriminate.
  - rewrite !nth_error_map, Hj, Hk. cbn. congruence.
Qed.

Lemma addProject_projects (randomId : string) (st : State) :
  projects (addProject randomId st)
  = if falsy (newProjectName st) || falsy (newProjectDuration st)
    then projects st
    else projects st ++
         [mkProject randomId (newProjectName st)
            (times60 (parseInt (newProjectDuration st)))].
Proof.
  unfold addProject.
  destruct (falsy (newProjectName st) || falsy (newProjectDuration st));
    reflexivity.
Qed.

Lemma times60_parseInt_decimal (minutes : Z) :
  (Z.abs minutes < 2 ^ 53 ->
   times60 (parseInt (decimal minutes)) = double (minutes * 60)) /\
  (Z.abs (minutes * 60) < 2 ^ 53 ->
   times60 (parseInt (decimal minutes)) = Int (minutes * 60)).
Proof.
  split; intro H.
  - rewrite parseInt_decimal_small by exact H. reflexivity.
  - rewrite parseInt_decimal_small by lia. apply double_small, H.
Qed.

(** C2, where the code departs from it: [add("X", 0)] is not a no-op.  The
    duration input holds the text "0", a non-empty string, which passes
    [!newProjectDuration]: on the empty registry a project of zero seconds
    is appended, and the list is no longer what it was.  The text "-5"
    passes as well and stores -300 seconds.  The same happens when the
    three events are sent to the mounted component. *)
Lemma add_zero_minutes_appends :
  let st' := add "X" "0" "k3x9q2m1z" initial in
  projects initial = [] /\
  projects st' = [mkProject "k3x9q2m1z" "X" (Int 0)] /\
  projects st' <> projects initial /\
  projects (add "X" "-5" "k3x9q2m1z" initial)
  = [mkProject "k3x9q2m1z" "X" (Int (-300))] /\
  run [ChangeName "X"; ChangeDuration "0"; ClickAdd "k3x9q2m1z"] initial
  = Ok st' [].
Proof. cbv zeta. repeat split. discriminate. Qed.

(** X18: [add(name, minutes)] leaves the list of the registry unchanged
    exactly when the name or the text of the duration input is empty (so
    [add("", 10)] changes nothing); otherwise it appends, after all earlier
    projects, one project with the given name and the duration
    [parseInt(text) * 60].  With the decimal numeral of the integer
    [minutes] typed, that is the double nearest to [minutes * 60] when
    [minutes] is below 2^53 in magnitude, and [minutes * 60] itself when
    the product is: zero and negative minutes are stored like any other. *)
Theorem add_checks_presence_only (st : State)
  (nameText minutesTyped randomId : string) (c : ascii) (rest : string)
  (minutes : Z) :
  projects (add nameText minutesTyped randomId st)
  = (if falsy nameText || falsy minutesTyped then projects st
     else projects st ++
          [mkProject randomId nameText (times60 (parseInt minutesTyped))])
  /\ projects (add "" (decimal 10) randomId st) = projects st
  /\ (Z.abs minutes < 2 ^ 53 ->
      projects (add (String c rest) (decimal minutes) randomId st)
      = projects st ++
        [mkProject randomId (String c rest) (double (minutes * 60))])
  /\ (Z.abs (minutes * 60) < 2 ^ 53 ->
      projects (add (String c rest) (decimal minutes) randomId st)
      = projects st ++
        [mkProject randomId (String c rest) (Int (minutes * 60))]).
Proof.
  unfold add. rewrite !addProject_projects.
  cbn [newProjectName newProjectDuration projects setNewProjectDuration
       setNewProjectName falsy orb].
  rewrite falsy_decimal.
  destruct (times60_parseInt_decimal minutes) as [Hd Hi].
  repeat split; intro H; [rewrite Hd by exact H|rewrite Hi by exact H];
    reflexivity.
Qed.

(** X19: editing with a name and a duration text that pass the check of
    [saveEdit] (both non-empty) keeps every id in place, rewrites name and
    duration of the project carrying the id at the position where it
    stands, and leaves every project with another id (with unique ids:
    every other position) as it was; with the numeral of [minutes] typed
    the new duration is [minutes * 60] when that is below 2^53 in
    magnitude.  When the id is absent, or when the name or the duration
    text is empty, the list is unchanged. *)
Theorem edit_round_trip (st : State) (i nameText minutesTyped : string) :
  let ps := projects st in
  let ps' := projects (edit i nameText minutesTyped st) in
  (falsy nameText || falsy minutesTyped = false ->
     map id ps' = map id ps /\
     (forall k p, nth_error ps k = Some p -> id p = i ->
        nth_error ps' k
        = Some (mkProject i nameText (times60 (parseInt minutesTyped)))) /\
     (forall k p, nth_error ps k = Some p -> id p <> i ->
        nth_error ps' k = Some p) /\
     (forall k p, NoDup (map id ps) -> nth_error ps k = Some p -> id p = i ->
        forall j, j <> k -> nth_error ps' j = nth_error ps j)) /\
  (forall (c : ascii) (rest : string) (minutes : Z) k p,
     nth_error ps k = Some p -> id p = i ->
     Z.abs (minutes * 60) < 2 ^ 53 ->
     nth_error (projects (edit i (String c rest) (decimal minutes) st)) k
     = Some (mkProject i (String c rest) (Int (minutes * 60)))) /\
  (~ In i (map id ps) -> ps' = ps) /\
  (falsy nameText || falsy minutesTyped = true -> ps' = ps).
Proof.
  cbv zeta.
  assert (Hnth : forall nameT minutesT k,
    falsy nameT || falsy minutesT = false ->
    nth_error (projects (edit i nameT minutesT st)) k
    = option_map
        (fun p => if sameId p i
                  then mkProject (id p) nameT (times60 (parseInt minutesT))
                  else p)
        (nth_error (projects st) k)).
  { intros nameT minutesT k Hv. unfold edit. rewrite saveEdit_nth by exact Hv.
    reflexivity. }
  split; [|split; [|split]].
  - intro Hv. split; [|split; [|split]].
    + unfold edit. rewrite saveEdit_ids. reflexivity.
    + intros k p Hk Hid. rewrite Hnth, Hk by exact Hv. cbn [option_map].
      apply sameId_true in Hid as Hs. rewrite Hs, Hid. reflexivity.
    + intros k p Hk Hid. rewrite Hnth, Hk by exact Hv. cbn [option_map].
      apply sameId_false in Hid. rewrite Hid. reflexivity.
    + intros k p Hnd Hk Hid j Hj. rewrite Hnth by exact Hv.
      destruct (nth_error (projects st) j) as [q|] eqn:Hq; [|reflexivity].
      cbn [option_map]. destruct (sameId q i) eqn:Hs; [|reflexivity].
      apply sameId_true in Hs. exfalso. apply Hj.
      eapply nth_error_id_unique; [exact Hnd|exact Hq|exact Hk|congruence].
  - intros c rest minutes k p Hk Hid Hm.
    rewrite Hnth, Hk by (cbn [falsy orb]; apply falsy_decimal).
    cbn [option_map]. apply sameId_true in Hid as Hs.
    rewrite Hs, Hid, (proj2 (times60_parseInt_decimal minutes) Hm).
    reflexivity.
  - intro Hnot. unfold edit. rewrite saveEdit_absent; [reflexivity|exact Hnot].
  - intro Hv. unfold edit. rewrite saveEdit_unchecked; [reflexivity|exact Hv].
Qed.

(** C8, where the code departs from it: [edit] with a duration that is not
    a positive integer is not a no-op.  [saveEdit] has the check of
    [addProject], on the two texts only: in the registry of Draft (60 s)
    and Review (120 s), [edit] of Review with the text "0" stores a project
    of zero seconds in its row, and with "-5" one of -300 seconds.  The
    same happens when the Edit button of the row, the change of the input
    and the Save button are sent to the mounted component. *)
Lemma edit_zero_minutes_rewrites :
  let st' := edit "w8r5t0b4c" "Review" "0" planned in
  projects planned
  = [mkProject "k3x9q2m1z" "Draft" (Int 60);
     mkProject "w8r5t0b4c" "Review" (Int 120)] /\
  projects st'
  = [mkProject "k3x9q2m1z" "Draft" (Int 60);
     mkProject "w8r5t0b4c" "Review" (Int 0)] /\
  projects st' <> projects planned /\
  projects (edit "w8r5t0b4c" "Review" "-5" planned)
  = [mkProject "k3x9q2m1z" "Draft" (Int 60);
     mkProject "w8r5t0b4c" "Review" (Int (-300))] /\
  (forall rendering,
     run [ClickEdit 1 rendering; ChangeDuration "0"; ClickSave 1] planned
     = Ok st' []).
Proof. cbv zeta. repeat split. discriminate. Qed.

(** ** Reading the list by index *)

Lemma projectAt_Some (ps : list Project) (i : Z) :
  0 <= i < Z.of_nat (List.length ps) -> exists p, projectAt ps i = Some p.
Proof.
  intros [Hlo Hhi]. unfold projectAt.
  destruct (i <? 0) eqn:E; [apply Z.ltb_lt in E; lia|].
  destruct (nth_error ps (Z.to_nat i)) as [p|] eqn:Hn; [eauto|].
  apply nth_error_None in Hn. lia.
Qed.

Lemma projectAt_None (ps : list Project) (i : Z) :
  i < 0 \/ Z.of_nat (List.length ps) <= i -> projectAt ps i = None.
Proof.
  intros H. unfold projectAt.
  destruct (i <? 0) eqn:E; [reflexivity|].
  apply Z.ltb_ge in E. apply nth_error_None. lia.
Qed.

Lemma projectAt_inv (ps : list Project) (i : Z) (p : Project) :
  projectAt ps i = Some p ->
  0 <= i < Z.of_nat (List.length ps) /\ nth_error ps (Z.to_nat i) = Some p.
Proof.
  unfold projectAt. destruct (i <? 0) eqn:E; [discriminate|].
  apply Z.ltb_ge in E. intro Hn. split; [|exact Hn].
  assert (Z.to_nat i < List.length ps)%nat
    by (apply nth_error_Some; congruence).
  lia.
Qed.

(** ** One run of the timer effect *)

Lemma timerEffect_idle (st : State) :
  isRunning st = false -> timerEffect st = None.
Proof. unfold timerEffect, timerArmed. intros ->. reflexivity. Qed.

Lemma timerEffect_armed (st : State) :
  timerArmed st = true -> timerEffect st = None.
Proof. unfold timerEffect. intros ->. reflexivity. Qed.

Lemma timerEffect_nonzero (st : State) :
  eq0 (timeLeft st) = false -> timerEffect st = None.
Proof.
  unfold timerEffect. intros ->. rewrite andb_false_r.
  destruct (timerArmed st); reflexivity.
Qed.

Lemma eq0_gt0 (x : number) : eq0 x = true -> gt0 x = false.
Proof.
  destruct x as [z| |s]; cbn; try discriminate.
  intro H. apply Z.eqb_eq in H. subst z. reflexivity.
Qed.

Lemma eq0_Int (x : number) : eq0 x = true <-> x = Int 0.
Proof.
  destruct x as [z| |s]; cbn; split; try discriminate.
  - intro H. apply Z.eqb_eq in H. congruence.
  - intro H. injection H as ->. reflexivity.
Qed.

(** what the effect did, when it did something *)
Lemma timerEffect_inv (st : State) (o : Outcome) :
  timerEffect st = Some o ->
  isRunning st = true /\ timeLeft st = Int 0 /\
  ((currentProject st < Z.of_nat (List.length (projects st)) - 1 /\
    match projectAt (projects st) (currentProject st + 1) with
    | None => o = TypeError
    | Some p =>
        o = Ok (setDraws (S (draws st))
                  (setBackgroundColor (Hsl (draws st))
                     (setTimeLeft (duration p)
                        (setCurrentProject (currentProject st + 1) st))))
               [PlayAlarm; SetBackgroundColor (Hsl (draws st))]
    end)
   \/
   (Z.of_nat (List.length (projects st)) - 1 <= currentProject st /\
    o = Ok (fst (leaveFullscreen
                   (setBackgroundColor White
                      (setCurrentProject (-1) (setIsRunning false st)))))
           (PlayAlarm :: SetBackgroundColor White ::
            snd (leaveFullscreen
                   (setBackgroundColor White
                      (setCurrentProject (-1) (setIsRunning false st))))))).
Proof.
  unfold timerEffect.
  destruct (timerArmed st); [discriminate|].
  destruct (isRunning st) eqn:Hr; [|discriminate].
  destruct (eq0 (timeLeft st)) eqn:Hz; [|discriminate].
  cbn [andb]. apply eq0_Int in Hz.
  destruct (currentProject st <? Z.of_nat (List.length (projects st)) - 1)
    eqn:Hlt.
  - apply Z.ltb_lt in Hlt. intro H. repeat split; try assumption.
    left. split; [exact Hlt|].
    destruct (projectAt (projects st) (currentProject st + 1));
      congruence.
  - apply Z.ltb_ge in Hlt. intro H. repeat split; try assumption.
    right. split; [exact Hlt|].
    destruct (leaveFullscreen _) as [st2 out]. cbn [fst snd]. congruence.
Qed.

Lemma leaveFullscreen_fields (st : State) :
  let st' := fst (leaveFullscreen st) in
  projects st' = projects st /\ currentProject st' = currentProject st /\
  isRunning st' = isRunning st /\ isPaused st' = isPaused st /\
  timeLeft st' = timeLeft st /\ backgroundColor st' = backgroundColor st /\
  draws st' = draws st.
Proof.
  unfold leaveFullscreen, toggleFullscreen.
  destruct (isFullscreen st), (fullscreenElement st); cbn; repeat split.
Qed.

Lemma leaveFullscreen_silent (st : State) :
  count isAlarm (snd (leaveFullscreen st)) = 0%nat /\
  count isRunComplete (snd (leaveFullscreen st)) = 0%nat /\
  count isProjectChanged (snd (leaveFullscreen st)) = 0%nat.
Proof.
  unfold leaveFullscreen, toggleFullscreen.
  destruct (isFullscreen st), (fullscreenElement st); cbn; repeat split.
Qed.

Lemma leaveFullscreen_mirrored (st : State) :
  mirrored st ->
  isFullscreen (fst (leaveFullscreen st)) = false /\
  fullscreenElement (fst (leaveFullscreen st)) = false /\
  snd (leaveFullscreen st)
  = if isFullscreen st then [ExitFullscreen] else [].
Proof.
  unfold mirrored, leaveFullscreen, toggleFullscreen. intro H.
  destruct (isFullscreen st) eqn:Hf; rewrite <- ?H; cbn; rewrite <- ?H;
    repeat split; assumption.
Qed.

(** ** Re-running the effect until it rests *)

Lemma andThen_Ok_inv (o : Outcome) (k : State -> Outcome) (st' : State)
  (out : list Effect) :
  o >>= k = Ok st' out ->
  exists st1 out1 out2,
    o = Ok st1 out1 /\ k st1 = Ok st' out2 /\ out = out1 ++ out2.
Proof.
  destruct o as [st1 out1| |]; cbn; try discriminate.
  destruct (k st1) as [st2 out2| |] eqn:Hk; try discriminate.
  intro H. injection H as <- <-. eauto 6.
Qed.

Lemma andThen_rested (st : State) (out : list Effect) :
  rested st -> Ok st out >>= settle = Ok st out.
Proof.
  unfold rested, settle. intro H. cbn. rewrite H.
  rewrite app_nil_r. reflexivity.
Qed.

Lemma settle_rested (st : State) : rested st -> settle st = Ok st [].
Proof. unfold rested, settle. intro H. cbn. rewrite H. reflexivity. Qed.

Lemma settleFuel_not_pending (fuel : nat) :
  forall st,
    (1 <= fuel)%nat ->
    Z.of_nat (List.length (projects st)) - currentProject st
      <= Z.of_nat fuel ->
    settleFuel fuel st <> Pending.
Proof.
  induction fuel as [|fuel IH]; intros st Hone Hfuel; [lia|].
  cbn [settleFuel].
  destruct (timerEffect st) as [o|] eqn:He; [|discriminate].
  apply timerEffect_inv in He.
  destruct He as (Hr & Ht & [[Hlt Hadv]|[Hge ->]]).
  - destruct (projectAt (projects st) (currentProject st + 1)) as [p|];
      subst o; [|discriminate].
    cbn [andThen].
    match goal with |- context [settleFuel fuel ?s] =>
      specialize (IH s) end.
    cbn [projects currentProject setDraws setBackgroundColor setTimeLeft
         setCurrentProject] in IH.
    destruct (settleFuel fuel _); [discriminate|discriminate|].
    exfalso. apply IH; [lia|lia|reflexivity].
  - cbn [andThen].
    match goal with |- context [settleFuel fuel ?s] =>
      assert (Hs : timerEffect s = None) end.
    { apply timerEffect_idle.
      destruct (leaveFullscreen_fields
                  (setBackgroundColor White
                     (setCurrentProject (-1) (setIsRunning false st))))
        as (_ & _ & H & _).
      rewrite H. reflexivity. }
    destruct fuel; cbn [settleFuel]; rewrite Hs; discriminate.
Qed.

(** the effect always comes to rest, or stops on a TypeError *)
Lemma settle_not_pending (st : State) : settle st <> Pending.
Proof.
  unfold settle.
  destruct (Z_lt_le_dec (currentProject st) (-1)) as [Hlow|Hok].
  - cbn [settleFuel].
    destruct (timerEffect st) as [o|] eqn:He; [|discriminate].
    apply timerEffect_inv in He.
    destruct He as (_ & _ & [[_ Hadv]|[Hge _]]); [|lia].
    rewrite projectAt_None in Hadv by lia. subst o. discriminate.
  - apply settleFuel_not_pending; lia.
Qed.

Lemma settleFuel_Ok_rested (fuel : nat) :
  forall st st' out, settleFuel fuel st = Ok st' out -> rested st'.
Proof.
  induction fuel as [|fuel IH]; intros st st' out; cbn [settleFuel];
    destruct (timerEffect st) as [[st1 out1| |]|] eqn:He; try discriminate.
  - intro H. injection H as <- <-. exact He.
  - intro H. apply andThen_Ok_inv in H.
    destruct H as (s1 & o1 & o2 & Heq & Hk & _).
    injection Heq as <- <-. eapply IH. exact Hk.
  - intro H. injection H as <- <-. exact He.
Qed.

Lemma settle_Ok_rested (st st' : State) (out : list Effect) :
  settle st = Ok st' out -> rested st'.
Proof. apply settleFuel_Ok_rested. Qed.

(** ** Starting a run *)

Lemma startTracking_found (st : State) (i : Z) (p : Project) :
  projectAt (projects st) i = Some p ->
  startTracking i st
  = Ok (setDraws (S (draws st))
          (setBackgroundColor (Hsl (draws st))
             (setTimeLeft (duration p)
                (setCurrentProject i
                   (setIsPaused false (setIsRunning true st))))))
       [SetBackgroundColor (Hsl (draws st))].
Proof.
  intro Hp. unfold startTracking. rewrite Hp.
  pose proof (projectAt_inv _ _ _ Hp) as [Hin _].
  destruct (Z.of_nat (List.length (projects st)) =? 0) eqn:E;
    [apply Z.eqb_eq in E; lia|reflexivity].
Qed.

(** C10: [startTracking] returns at once on an empty list and has no other
    guard.  With [0 <= startIndex < projects.length] the read
    [projects[startIndex]] finds a project and the run starts on it; on a
    non-empty list with the index outside that range the read finds
    nothing and the handler ends in a TypeError. *)
Theorem startTracking_guard (st : State) (startIndex : Z) :
  (projects st = [] -> startTracking startIndex st = Ok st []) /\
  (0 <= startIndex < Z.of_nat (List.length (projects st)) ->
   exists p,
     projectAt (projects st) startIndex = Some p /\
     startTracking startIndex st
     = Ok (setDraws (S (draws st))
             (setBackgroundColor (Hsl (draws st))
                (setTimeLeft (duration p)
                   (setCurrentProject startIndex
                      (setIsPaused false (setIsRunning true st))))))
          [SetBackgroundColor (Hsl (draws st))]) /\
  (projects st <> [] ->
   startIndex < 0 \/ Z.of_nat (List.length (projects st)) <= startIndex ->
   projectAt (projects st) startIndex = None /\
   startTracking startIndex st = TypeError).
Proof.
  split; [|split].
  - unfold startTracking. intros ->. reflexivity.
  - intro Hin. destruct (projectAt_Some (projects st) _ Hin) as [p Hp].
    exists p. split; [exact Hp|]. exact (startTracking_found st _ p Hp).
  - unfold startTracking. intros Hne Hout. rewrite (projectAt_None (projects st) _ Hout).
    split; [reflexivity|].
    destruct (Z.of_nat (List.length (projects st)) =? 0) eqn:E; [|reflexivity].
    apply Z.eqb_eq in E. destruct (projects st); [congruence|cbn in E; lia].
Qed.

(** ** Pausing *)

Lemma phase_Running (st : State) :
  phase st = Running <-> isRunning st = true /\ isPaused st = false.
Proof.
  unfold phase. destruct (isRunning st), (isPaused st); split;
    try discriminate; try tauto; intros [? ?]; discriminate.
Qed.

Lemma phase_Paused (st : State) :
  phase st = Paused <-> isRunning st = true /\ isPaused st = true.
Proof.
  unfold phase. destruct (isRunning st), (isPaused st); split;
    try discriminate; try tauto; intros [? ?]; discriminate.
Qed.

Lemma phase_Idle (st : State) : phase st = Idle <-> isRunning st = false.
Proof.
  unfold phase. destruct (isRunning st), (isPaused st); split;
    try discriminate; tauto.
Qed.

(** a rested run has not run out: its [timeLeft] is not zero *)
Lemma rested_running_nonzero (st : State) :
  rested st -> isRunning st = true -> eq0 (timeLeft st) = false.
Proof.
  unfold rested, timerEffect. intros Hrest Hr. rewrite Hr in Hrest.
  destruct (eq0 (timeLeft st)) eqn:Hz; [|reflexivity].
  unfold timerArmed in Hrest. rewrite Hr, (eq0_gt0 _ Hz) in Hrest.
  rewrite andb_false_r in Hrest. cbn [andb] in Hrest.
  destruct (currentProject st <? _);
    [destruct (projectAt _ _)|destruct (leaveFullscreen _)]; discriminate.
Qed.

Lemma setIsPaused_rested (b : bool) (st : State) :
  rested st -> rested (setIsPaused b st).
Proof.
  intro Hrest. destruct (isRunning st) eqn:Hr.
  - apply timerEffect_nonzero. exact (rested_running_nonzero _ Hrest Hr).
  - apply timerEffect_idle. exact Hr.
Qed.

Lemma setIsPaused_same (st : State) : setIsPaused (isPaused st) st = st.
Proof. destruct st; reflexivity. Qed.

Lemma setIsPaused_twice (a b : bool) (st : State) :
  setIsPaused a (setIsPaused b st) = setIsPaused a st.
Proof. reflexivity. Qed.

Lemma dispatch_ClickPause (st : State) :
  rested st -> isRunning st = true ->
  dispatch ClickPause st = Ok (setIsPaused (negb (isPaused st)) st) [].
Proof.
  intros Hrest Hr. unfold dispatch. cbn [enabled handler]. rewrite Hr.
  unfold togglePause. apply andThen_rested.
  apply setIsPaused_rested. exact Hrest.
Qed.

(** C6: in a run the pause button turns Running into Paused and Paused into
    Running, touching nothing but [isPaused]; in Idle the button is not
    part of the view, the state stays as it is, and the handler by itself
    would leave the phase Idle. *)
Theorem togglePause_flips (st : State) :
  rested st ->
  match phase st with
  | Running =>
      dispatch ClickPause st = Ok (setIsPaused true st) [] /\
      phase (setIsPaused true st) = Paused
  | Paused =>
      dispatch ClickPause st = Ok (setIsPaused false st) [] /\
      phase (setIsPaused false st) = Running
  | Idle =>
      dispatch ClickPause st = Ok st [] /\ phase (togglePause st) = Idle
  end.
Proof.
  intro Hrest. destruct (phase st) eqn:Hp.
  - apply phase_Idle in Hp. unfold dispatch. cbn [enabled]. rewrite Hp.
    split; [reflexivity|]. apply phase_Idle. exact Hp.
  - apply phase_Running in Hp. destruct Hp as [Hr Hu].
    rewrite (dispatch_ClickPause _ Hrest Hr), Hu. split; [reflexivity|].
    apply phase_Paused. split; [exact Hr|reflexivity].
  - apply phase_Paused in Hp. destruct Hp as [Hr Hu].
    rewrite (dispatch_ClickPause _ Hrest Hr), Hu. split; [reflexivity|].
    apply phase_Running. split; [exact Hr|reflexivity].
Qed.

Lemma tick_unarmed (st : State) : timerArmed st = false -> tick st = Ok st [].
Proof. unfold tick, dispatch. cbn [enabled]. intros ->. reflexivity. Qed.

Lemma ticks_unarmed (n : nat) (st : State) :
  timerArmed st = false -> ticks n st = Ok st [].
Proof.
  intro H. induction n as [|n IH]; [reflexivity|].
  cbn [ticks]. rewrite (tick_unarmed _ H). cbn [andThen]. rewrite IH.
  reflexivity.
Qed.

(** C7: pausing a running countdown leaves [timeLeft] where it is, and no
    number of ticks moves the paused state: the interval only exists while
    [!isPaused].  The next click on the pause button gives back the state
    the run was paused in. *)
Theorem paused_ticks_hold (st : State) (n : nat) :
  phase st = Running -> rested st ->
  exists st1,
    dispatch ClickPause st = Ok st1 [] /\
    phase st1 = Paused /\
    timeLeft st1 = timeLeft st /\
    ticks n st1 = Ok st1 [] /\
    dispatch ClickPause st1 = Ok st [].
Proof.
  intros Hp Hrest. apply phase_Running in Hp. destruct Hp as [Hr Hu].
  exists (setIsPaused true st).
  rewrite (dispatch_ClickPause _ Hrest Hr), Hu.
  split; [reflexivity|]. split; [apply phase_Paused; split; [exact Hr|reflexivity]|].
  split; [reflexivity|]. split.
  - apply ticks_unarmed. unfold timerArmed. cbn. rewrite andb_false_r.
    reflexivity.
  - rewrite dispatch_ClickPause;
      [|apply setIsPaused_rested; exact Hrest|exact Hr].
    cbn [isPaused setIsPaused negb]. rewrite setIsPaused_twice, <- Hu.
    rewrite setIsPaused_same. reflexivity.
Qed.

(** ** Manual navigation *)

Lemma rested_iff (st : State) :
  rested st <-> isRunning st && eq0 (timeLeft st) = false.
Proof.
  unfold rested, timerEffect, timerArmed.
  destruct (isRunning st); cbn [andb]; [|tauto].
  destruct (eq0 (timeLeft st)) eqn:Hz.
  - rewrite (eq0_gt0 _ Hz), andb_false_r. split; [|discriminate].
    destruct (currentProject st <? _);
      [destruct (projectAt _ _)|destruct (leaveFullscreen _)]; discriminate.
  - destruct (negb (isPaused st) && gt0 (timeLeft st)); tauto.
Qed.

Lemma positive_nonzero (p : Project) :
  positiveDuration p -> eq0 (duration p) = false /\ gt0 (duration p) = true.
Proof.
  intros (d & -> & Hd). cbn. split; [apply Z.eqb_neq|apply Z.ltb_lt]; lia.
Qed.

Lemma allPositive_at (st : State) (i : Z) (p : Project) :
  allPositive st -> projectAt (projects st) i = Some p -> positiveDuration p.
Proof.
  intros Hall Hp. apply projectAt_inv in Hp. destruct Hp as [_ Hn].
  apply nth_error_In in Hn.
  exact (proj1 (Forall_forall _ _) Hall p Hn).
Qed.

(** the state after a navigation onto the project [p] at index [target] *)
Lemma navigate_step (d : Direction) (st : State) :
  let target := match d with
                | forward => currentProject st + 1
                | backward => currentProject st - 1
                end in
  isRunning st = true ->
  0 <= target < Z.of_nat (List.length (projects st)) ->
  exists p,
    projectAt (projects st) target = Some p /\
    enabled st (navigateEvent d) = true /\
    handler (navigateEvent d) st
    = Ok (setDraws (S (draws st))
            (setBackgroundColor (Hsl (draws st))
               (setTimeLeft (duration p) (setCurrentProject target st))))
         [SetBackgroundColor (Hsl (draws st))].
Proof.
  cbv zeta. intros Hr Hin.
  destruct (projectAt_Some (projects st) _ Hin) as [p Hp]. exists p.
  split; [exact Hp|].
  destruct d; cbn [navigateEvent enabled handler]; rewrite Hr; cbn [andb].
  - split; [apply Z.ltb_lt; lia|].
    unfold navigateForward. rewrite Hp. reflexivity.
  - split; [apply Z.ltb_lt; lia|].
    unfold navigateBack. rewrite Hp. reflexivity.
Qed.


(** ** Leaving a run *)

Lemma returnToPlanning_eq (st : State) :
  returnToPlanning st
  = (fst (leaveFullscreen (planning st)),
     SetBackgroundColor White :: snd (leaveFullscreen (planning st))).
Proof.
  unfold returnToPlanning. fold (planning st).
  destruct (leaveFullscreen (planning st)); reflexivity.
Qed.

(** C9: from any state of a run, whatever its index and time left, the
    return button ends in Idle with [currentProject] cleared, the
    background white and the document out of fullscreen; no alarm is
    played.  The time left is not carried anywhere: no interval is left to
    count it down, and the next start loads [timeLeft] from the list. *)
Theorem exit_returns_to_idle (st : State) :
  isRunning st = true -> mirrored st ->
  exists st' out,
    exit st = Ok st' out /\
    phase st' = Idle /\
    currentProject st' = -1 /\
    backgroundColor st' = White /\
    isFullscreen st' = false /\ fullscreenElement st' = false /\
    projects st' = projects st /\
    out = SetBackgroundColor White ::
          (if isFullscreen st then [ExitFullscreen] else []) /\
    count isRunComplete out = 1%nat /\
    count isAlarm out = 0%nat /\
    (forall n, ticks n st' = Ok st' []) /\
    (forall i p, projectAt (projects st') i = Some p ->
       exists st2 out2,
         startTracking i st' = Ok st2 out2 /\ timeLeft st2 = duration p).
Proof.
  intros Hr Hm.
  assert (Hpm : mirrored (planning st)) by exact Hm.
  destruct (leaveFullscreen_mirrored _ Hpm) as (Hf & Hfe & Hout).
  destruct (leaveFullscreen_fields (planning st))
    as (Hps & Hcur & Hrun & _ & _ & Hbg & _).
  cbv zeta in *.
  set (st' := fst (leaveFullscreen (planning st))) in *.
  assert (Hidle : isRunning st' = false) by (rewrite Hrun; reflexivity).
  exists st', (SetBackgroundColor White :: snd (leaveFullscreen (planning st))).
  split.
  { unfold exit, dispatch. cbn [enabled handler]. rewrite Hr.
    rewrite returnToPlanning_eq. unfold pure. cbn [fst snd].
    apply andThen_rested. apply timerEffect_idle. exact Hidle. }
  split; [apply phase_Idle; exact Hidle|].
  split; [rewrite Hcur; reflexivity|].
  split; [rewrite Hbg; reflexivity|].
  split; [exact Hf|]. split; [exact Hfe|].
  split; [rewrite Hps; reflexivity|].
  split; [rewrite Hout; reflexivity|].
  split; [rewrite Hout; cbn [planning isFullscreen setBackgroundColor
            setCurrentProject setIsPaused setIsRunning];
          destruct (isFullscreen st); reflexivity|].
  split; [rewrite Hout; cbn [planning isFullscreen setBackgroundColor
            setCurrentProject setIsPaused setIsRunning];
          destruct (isFullscreen st); reflexivity|].
  split.
  - intro n. apply ticks_unarmed. unfold timerArmed. rewrite Hidle.
    reflexivity.
  - intros i p Hp.
    rewrite (startTracking_found st' i p Hp).
    do 2 eexists. split; reflexivity.
Qed.

(** ** Invariants of a session *)

Lemma settleFuel_invariant (P : State -> Prop) :
  (forall st st' out, P st -> timerEffect st = Some (Ok st' out) -> P st') ->
  forall fuel st st' out, P st -> settleFuel fuel st = Ok st' out -> P st'.
Proof.
  intros Hstep fuel.
  induction fuel as [|fuel IH]; intros st st' out HP; cbn [settleFuel];
    destruct (timerEffect st) as [[st1 out1| |]|] eqn:He; try discriminate.
  - intro H. injection H as <- <-. exact HP.
  - intro H. apply andThen_Ok_inv in H.
    destruct H as (s1 & o1 & o2 & Heq & Hk & _). injection Heq as <- <-.
    apply (IH _ _ _ (Hstep _ _ _ HP He) Hk).
  - intro H. injection H as <- <-. exact HP.
Qed.

Lemma timerEffect_indexInRange (st st' : State) (out : list Effect) :
  indexInRange st -> timerEffect st = Some (Ok st' out) -> indexInRange st'.
Proof.
  intros _ He. apply timerEffect_inv in He.
  destruct He as (Hr & _ & [[_ Hadv]|[_ Heq]]).
  - destruct (projectAt (projects st) (currentProject st + 1)) as [p|] eqn:Hp;
      [|discriminate].
    injection Hadv as -> _. intros _. cbn. exact (proj1 (projectAt_inv _ _ _ Hp)).
  - injection Heq as -> _. intro Hrun.
    destruct (leaveFullscreen_fields
                (setBackgroundColor White
                   (setCurrentProject (-1) (setIsRunning false st))))
      as (_ & _ & H & _).
    rewrite H in Hrun. discriminate.
Qed.

Lemma timerEffect_mirrored (st st' : State) (out : list Effect) :
  mirrored st -> timerEffect st = Some (Ok st' out) -> mirrored st'.
Proof.
  intros Hm He. apply timerEffect_inv in He.
  destruct He as (Hr & _ & [[_ Hadv]|[_ Heq]]).
  - destruct (projectAt (projects st) (currentProject st + 1)) as [p|];
      [|discriminate].
    injection Hadv as -> _. exact Hm.
  - injection Heq as -> _.
    assert (Hpm : mirrored (setBackgroundColor White
                   (setCurrentProject (-1) (setIsRunning false st))))
      by exact Hm.
    destruct (leaveFullscreen_mirrored _ Hpm) as (Hf & Hfe & _).
    unfold mirrored. rewrite Hf, Hfe. reflexivity.
Qed.

Lemma timerEffect_projects (st st' : State) (out : list Effect) :
  timerEffect st = Some (Ok st' out) -> projects st' = projects st.
Proof.
  intros He. apply timerEffect_inv in He.
  destruct He as (Hr & _ & [[_ Hadv]|[_ Heq]]).
  - destruct (projectAt (projects st) (currentProject st + 1)) as [p|];
      [|discriminate].
    injection Hadv as -> _. reflexivity.
  - injection Heq as -> _.
    destruct (leaveFullscreen_fields
                (setBackgroundColor White
                   (setCurrentProject (-1) (setIsRunning false st))))
      as (H & _).
    rewrite H. reflexivity.
Qed.

Lemma settle_indexInRange (st st' : State) (out : list Effect) :
  indexInRange st -> settle st = Ok st' out -> indexInRange st'.
Proof.
  apply (settleFuel_invariant indexInRange timerEffect_indexInRange).
Qed.

Lemma settle_mirrored (st st' : State) (out : list Effect) :
  mirrored st -> settle st = Ok st' out -> mirrored st'.
Proof. apply (settleFuel_invariant mirrored timerEffect_mirrored). Qed.

Lemma settle_projects (st st' : State) (out : list Effect) :
  settle st = Ok st' out -> projects st' = projects st.
Proof.
  intro H.
  apply (settleFuel_invariant (fun s => projects s = projects st)) in H;
    [exact H| |reflexivity].
  intros s s' o Hs He. rewrite (timerEffect_projects _ _ _ He). exact Hs.
Qed.

(** a handler of the planning view leaves [isRunning] false *)
Lemma addProject_isRunning (r : string) (st : State) :
  isRunning (addProject r st) = isRunning st.
Proof.
  unfold addProject.
  destruct (falsy (newProjectName st) || falsy (newProjectDuration st));
    reflexivity.
Qed.

Lemma saveEdit_isRunning (i : string) (st : State) :
  isRunning (saveEdit i st) = isRunning st.
Proof.
  unfold saveEdit.
  destruct (falsy (newProjectName st) || falsy (newProjectDuration st));
    reflexivity.
Qed.

Lemma addProject_mirrored (r : string) (st : State) :
  mirrored st -> mirrored (addProject r st).
Proof.
  unfold addProject.
  destruct (falsy (newProjectName st) || falsy (newProjectDuration st));
    intro H; exact H.
Qed.

Lemma saveEdit_mirrored (i : string) (st : State) :
  mirrored st -> mirrored (saveEdit i st).
Proof.
  unfold saveEdit.
  destruct (falsy (newProjectName st) || falsy (newProjectDuration st));
    intro H; exact H.
Qed.

Lemma startTracking_inv (i : Z) (st st' : State) (out : list Effect) :
  startTracking i st = Ok st' out ->
  (projects st = [] /\ st' = st /\ out = []) \/
  (exists p,
     projectAt (projects st) i = Some p /\
     st' = setDraws (S (draws st))
             (setBackgroundColor (Hsl (draws st))
                (setTimeLeft (duration p)
                   (setCurrentProject i
                      (setIsPaused false (setIsRunning true st))))) /\
     out = [SetBackgroundColor (Hsl (draws st))]).
Proof.
  unfold startTracking.
  destruct (Z.of_nat (List.length (projects st)) =? 0) eqn:E.
  - intro H. injection H as <- <-. left.
    apply Z.eqb_eq in E. destruct (projects st); [auto|cbn in E; lia].
  - destruct (projectAt (projects st) i) as [p|]; [|discriminate].
    intro H. injection H as <- <-. right. exists p. auto.
Qed.

Lemma navigate_inv (d : Direction) (st st' : State) (out : list Effect) :
  handler (navigateEvent d) st = Ok st' out ->
  exists target p,
    projectAt (projects st) target = Some p /\
    st' = setDraws (S (draws st))
            (setBackgroundColor (Hsl (draws st))
               (setTimeLeft (duration p) (setCurrentProject target st))) /\
    out = [SetBackgroundColor (Hsl (draws st))].
Proof.
  destruct d; cbn [navigateEvent handler];
    unfold navigateForward, navigateBack;
    match goal with |- context [projectAt ?ps ?t] =>
      destruct (projectAt ps t) as [p|] eqn:Hp; [|discriminate];
      intro H; injection H as <- <-; exists t, p; auto
    end.
Qed.

Lemma handler_indexInRange (e : Event) (st st' : State) (out : list Effect) :
  indexInRange st -> enabled st e = true -> handler e st = Ok st' out ->
  indexInRange st'.
Proof.
  intros Hinv Hen Hh.
  assert (Hidle : forall s, isRunning s = false -> indexInRange s)
    by (intros s Hs Hrun; congruence).
  assert (Hstart : forall i, startTracking i st = Ok st' out ->
                             indexInRange st').
  { intros i Hs. apply startTracking_inv in Hs.
    destruct Hs as [(_ & -> & _)|(p & Hp & -> & _)]; [exact Hinv|].
    intros _. cbn. exact (proj1 (projectAt_inv _ _ _ Hp)). }
  assert (Hnav : forall d, handler (navigateEvent d) st = Ok st' out ->
                           indexInRange st').
  { intros d Hn. apply navigate_inv in Hn.
    destruct Hn as (t & p & Hp & -> & _).
    intros _. cbn. exact (proj1 (projectAt_inv _ _ _ Hp)). }
  destruct e; cbn [enabled handler] in Hen, Hh;
    try (apply (Hnav backward); exact Hh);
    try (apply (Hnav forward); exact Hh);
    try (eapply Hstart; exact Hh);
    try (unfold onRow in Hh; destruct (nth_error (projects st) index));
    try (unfold pure in Hh);
    injection Hh as <- <-;
    try exact Hinv;
    try (apply andb_prop in Hen; destruct Hen as [Hen _]);
    try (apply Hidle; rewrite ?addProject_isRunning, ?saveEdit_isRunning;
         cbn; destruct (isRunning st); [discriminate|reflexivity]).
  - (* ClickFullscreen *)
    unfold toggleFullscreen. destruct (negb (fullscreenElement st)); exact Hinv.
  - (* ClickReturn *)
    rewrite returnToPlanning_eq. cbn [fst]. apply Hidle.
    destruct (leaveFullscreen_fields (planning st)) as (_ & _ & H & _).
    rewrite H. reflexivity.
Qed.

Lemma dispatch_inv (e : Event) (st st' : State) (out : list Effect) :
  dispatch e st = Ok st' out ->
  (enabled st e = false /\ st' = st /\ out = []) \/
  (enabled st e = true /\
   exists st1 out1 out2,
     handler e st = Ok st1 out1 /\ settle st1 = Ok st' out2 /\
     out = out1 ++ out2).
Proof.
  unfold dispatch. destruct (enabled st e).
  - intro H. right. split; [reflexivity|]. apply andThen_Ok_inv in H.
    destruct H as (s1 & o1 & o2 & H1 & H2 & H3). eauto 8.
  - intro H. injection H as <- <-. left. auto.
Qed.

Lemma settleFuel_no_TypeError (fuel : nat) :
  forall st, indexInRange st -> settleFuel fuel st <> TypeError.
Proof.
  induction fuel as [|fuel IH]; intros st Hinv; cbn [settleFuel];
    destruct (timerEffect st) as [o|] eqn:He; try discriminate;
    pose proof (timerEffect_inv _ _ He) as (Hr & _ & [[Hlt Hadv]|[_ ->]]);
    try discriminate;
    try (destruct (projectAt_Some (projects st) (currentProject st + 1))
           as [p Hp]; [specialize (Hinv Hr); lia|];
         rewrite Hp in Hadv; subst o).
  - discriminate.
  - cbn [andThen].
    match goal with |- context [settleFuel fuel ?s] =>
      pose proof (IH s) as IHs; destruct (settleFuel fuel s)
    end; try discriminate.
    exfalso. apply IHs; [|reflexivity].
    eapply timerEffect_indexInRange; [exact Hinv|].
    rewrite He. reflexivity.
  - cbn [andThen].
    match goal with |- context [settleFuel fuel ?s] =>
      pose proof (IH s) as IHs; destruct (settleFuel fuel s)
    end; try discriminate.
    exfalso. apply IHs; [|reflexivity].
    eapply timerEffect_indexInRange; [exact Hinv|exact He].
Qed.

(** from a state with its index in range the effect comes to rest *)
Lemma settle_total (st : State) :
  indexInRange st -> exists st' out, settle st = Ok st' out.
Proof.
  intro Hinv. pose proof (settle_not_pending st) as Hp.
  pose proof (settleFuel_no_TypeError (S (List.length (projects st))) st Hinv)
    as Ht.
  fold (settle st) in Ht. destruct (settle st); [eauto|congruence|congruence].
Qed.

Lemma rowEdited_index (st : State) (index : nat) (b : bool) :
  rowEdited st index = Some b ->
  exists p, nth_error (projects st) index = Some p /\
            projectAt (projects st) (Z.of_nat index) = Some p.
Proof.
  unfold rowEdited, projectAt.
  destruct (nth_error (projects st) index) as [p|] eqn:Hn; [|discriminate].
  intros _. exists p. split; [reflexivity|].
  destruct (Z.of_nat index <? 0) eqn:E; [apply Z.ltb_lt in E; lia|].
  rewrite Nat2Z.id. exact Hn.
Qed.

(** no handler reads outside the list when its control is rendered *)
Lemma handler_total (e : Event) (st : State) :
  indexInRange st -> enabled st e = true ->
  exists st1 out1, handler e st = Ok st1 out1.
Proof.
  intros Hinv Hen.
  destruct e; cbn [enabled handler] in Hen |- *;
    try match goal with
        | |- context [onRow] =>
            unfold onRow; destruct (nth_error (projects st) index)
        end;
    try (unfold pure); eauto.
  - (* ClickPlay *)
    apply andb_prop in Hen. destruct Hen as [_ Hrow].
    destruct (rowEdited st index) as [b|] eqn:Hb; [|discriminate].
    destruct (rowEdited_index _ _ _ Hb) as (p0 & _ & Hp).
    rewrite (startTracking_found st _ p0 Hp). eauto.
  - (* ClickStart *)
    apply andb_prop in Hen. destruct Hen as [_ Hlen]. apply Z.ltb_lt in Hlen.
    destruct (projectAt_Some (projects st) 0) as [q Hq]; [lia|].
    rewrite (startTracking_found st 0 q Hq). eauto.
  - (* ClickPrev *)
    apply andb_prop in Hen. destruct Hen as [Hr Hlo]. apply Z.ltb_lt in Hlo.
    specialize (Hinv Hr).
    destruct (navigate_step backward st Hr) as (p & _ & _ & Hh); [lia|].
    cbn [navigateEvent handler] in Hh. rewrite Hh. eauto.
  - (* ClickNext *)
    apply andb_prop in Hen. destruct Hen as [Hr Hhi]. apply Z.ltb_lt in Hhi.
    specialize (Hinv Hr).
    destruct (navigate_step forward st Hr) as (p & _ & _ & Hh); [lia|].
    cbn [navigateEvent handler] in Hh. rewrite Hh. eauto.
Qed.

Lemma dispatch_total (e : Event) (st : State) :
  indexInRange st ->
  exists st' out, dispatch e st = Ok st' out /\ indexInRange st'.
Proof.
  intro Hinv. unfold dispatch. destruct (enabled st e) eqn:Hen; [|eauto].
  destruct (handler_total e st Hinv Hen) as (st1 & out1 & Hh). rewrite Hh.
  pose proof (handler_indexInRange e _ _ _ Hinv Hen Hh) as Hinv1.
  destruct (settle_total _ Hinv1) as (st' & out2 & Hs).
  exists st', (out1 ++ out2). cbn [andThen]. rewrite Hs.
  split; [reflexivity|]. exact (settle_indexInRange _ _ _ Hinv1 Hs).
Qed.

Lemma dispatch_indexInRange (e : Event) (st st' : State) (out : list Effect) :
  indexInRange st -> dispatch e st = Ok st' out -> indexInRange st'.
Proof.
  intros Hinv Hd. destruct (dispatch_total e st Hinv) as (s & o & Hs & Hi).
  rewrite Hd in Hs. injection Hs as <- <-. exact Hi.
Qed.

Lemma initial_indexInRange : indexInRange initial.
Proof. intro H. discriminate H. Qed.

Lemma reachable_indexInRange (st : State) : reachable st -> indexInRange st.
Proof.
  induction 1 as [|st e st' out _ IH Hd]; [exact initial_indexInRange|].
  exact (dispatch_indexInRange e _ _ _ IH Hd).
Qed.

(** C3: in every state a session can reach, a running or paused run has
    [0 <= currentProject < projects.length]; and from any state with that
    property every event -- starting at a row or at the top, the interval
    firing, pause, the two navigation buttons, return -- ends normally in a
    state that has it again.  [start] with any index, when it does not
    throw, keeps it too. *)
Theorem currentProject_in_range :
  (forall st, reachable st ->
     phase st <> Idle ->
     0 <= currentProject st < Z.of_nat (List.length (projects st))) /\
  (forall st e, indexInRange st ->
     exists st' out, dispatch e st = Ok st' out /\ indexInRange st') /\
  (forall st i st' out, indexInRange st ->
     start i st = Ok st' out -> indexInRange st').
Proof.
  split; [|split].
  - intros st Hreach Hactive. apply (reachable_indexInRange _ Hreach).
    destruct (isRunning st) eqn:Hr; [reflexivity|].
    exfalso. apply Hactive. apply phase_Idle. exact Hr.
  - intros st e Hinv. exact (dispatch_total e st Hinv).
  - intros st i st' out Hinv Hs. unfold start in Hs.
    apply andThen_Ok_inv in Hs. destruct Hs as (s1 & o1 & o2 & H1 & H2 & _).
    apply (fun H => settle_indexInRange s1 _ _ H H2).
    apply startTracking_inv in H1.
    destruct H1 as [(_ & -> & _)|(p & Hp & -> & _)]; [exact Hinv|].
    intros _. cbn. exact (proj1 (projectAt_inv _ _ _ Hp)).
Qed.

(** ** When the alarm plays *)

Lemma rested_fields (st st' : State) :
  isRunning st' = isRunning st -> timeLeft st' = timeLeft st ->
  rested st -> rested st'.
Proof. intros Hr Ht. rewrite !rested_iff, Hr, Ht. tauto. Qed.

Lemma rested_idle (st : State) : isRunning st = false -> rested st.
Proof. apply timerEffect_idle. Qed.

Lemma rested_loaded (st : State) (p : Project) :
  positiveDuration p -> timeLeft st = duration p -> rested st.
Proof.
  intros Hp Ht. apply rested_iff. rewrite Ht, (proj1 (positive_nonzero _ Hp)).
  apply andb_false_r.
Qed.

(** every handler but the interval's callback leaves the effect at rest and
    plays no alarm, when no project has a zero duration *)
Lemma handler_quiet (e : Event) (st st1 : State) (out1 : list Effect) :
  allPositive st -> rested st -> enabled st e = true ->
  handler e st = Ok st1 out1 -> e <> IntervalFired ->
  rested st1 /\ count isAlarm out1 = 0%nat.
Proof.
  intros Hall Hrest Hen Hh Hne.
  assert (Hstart : forall i, startTracking i st = Ok st1 out1 ->
                             rested st1 /\ count isAlarm out1 = 0%nat).
  { intros i Hs. apply startTracking_inv in Hs.
    destruct Hs as [(_ & -> & ->)|(p & Hp & -> & ->)]; [auto|].
    split; [|reflexivity].
    apply (rested_loaded _ p); [|reflexivity].
    exact (allPositive_at _ _ _ Hall Hp). }
  assert (Hnav : forall d, handler (navigateEvent d) st = Ok st1 out1 ->
                           rested st1 /\ count isAlarm out1 = 0%nat).
  { intros d Hn. apply navigate_inv in Hn.
    destruct Hn as (t & p & Hp & -> & ->). split; [|reflexivity].
    apply (rested_loaded _ p); [|reflexivity].
    exact (allPositive_at _ _ _ Hall Hp). }
  destruct e; cbn [enabled handler] in Hen, Hh;
    try congruence;
    try (apply (Hnav backward); exact Hh);
    try (apply (Hnav forward); exact Hh);
    try (eapply Hstart; exact Hh);
    try match type of Hh with
        | context [onRow] =>
            unfold onRow in Hh; destruct (nth_error (projects st) index)
        end;
    try (unfold pure in Hh);
    injection Hh as <- <-;
    try (split; [|reflexivity]);
    try exact Hrest;
    try (apply andb_prop in Hen; destruct Hen as [Hen _]);
    try (apply rested_idle; rewrite ?addProject_isRunning, ?saveEdit_isRunning;
         cbn; destruct (isRunning st); [discriminate|reflexivity]).
  - (* ClickFullscreen *)
    unfold toggleFullscreen.
    destruct (negb (fullscreenElement st)); split; try reflexivity;
      (apply (rested_fields st); [reflexivity|reflexivity|exact Hrest]).
  - (* ClickPause *)
    apply setIsPaused_rested. exact Hrest.
  - (* ClickReturn *)
    rewrite returnToPlanning_eq. cbn [fst snd].
    destruct (leaveFullscreen_fields (planning st)) as (_ & _ & H & _).
    destruct (leaveFullscreen_silent (planning st)) as (Hs & _).
    split; [apply rested_idle; rewrite H; reflexivity|exact Hs].
  - (* FullscreenLeft *)
    apply (rested_fields st); [reflexivity|reflexivity|exact Hrest].
Qed.

Lemma timerArmed_inv (st : State) :
  timerArmed st = true ->
  isRunning st = true /\ isPaused st = false /\ gt0 (timeLeft st) = true.
Proof.
  unfold timerArmed. intro H.
  apply andb_prop in H. destruct H as [H Hgt].
  apply andb_prop in H. destruct H as [Hr Hp].
  split; [exact Hr|]. split; [destruct (isPaused st); [discriminate|reflexivity]|].
  exact Hgt.
Qed.

(** [prev - 1] is zero only for [prev] = 1 *)
Lemma pred1_zero (x : number) : eq0 (pred1 x) = true -> x = Int 1.
Proof.
  intro H. apply eq0_Int in H. destruct x as [z| |s]; cbn [pred1] in H;
    try discriminate.
  apply double_zero in H. f_equal. lia.
Qed.

(** a tick that does not bring [timeLeft] to zero only replaces it by
    [timeLeft - 1] *)
Lemma tick_step (st : State) :
  timerArmed st = true -> eq0 (pred1 (timeLeft st)) = false ->
  tick st = Ok (setTimeLeft (pred1 (timeLeft st)) st) [].
Proof.
  intros Harm Hnz. unfold tick, dispatch. cbn [enabled handler].
  rewrite Harm. unfold intervalCallback.
  apply andThen_rested. apply timerEffect_nonzero. exact Hnz.
Qed.

(** below 2^53 the subtraction is exact *)
Lemma tick_decrement (st : State) (t : Z) :
  isRunning st = true -> isPaused st = false -> timeLeft st = Int t ->
  1 < t <= 2 ^ 53 -> tick st = Ok (setTimeLeft (Int (t - 1)) st) [].
Proof.
  intros Hr Hp Ht Hgt.
  assert (Hpred : pred1 (timeLeft st) = Int (t - 1)).
  { rewrite Ht. cbn [pred1]. apply double_small. lia. }
  rewrite <- Hpred. apply tick_step.
  - unfold timerArmed. rewrite Hr, Hp, Ht. cbn [negb andb gt0].
    apply Z.ltb_lt. lia.
  - rewrite Hpred. cbn [eq0]. apply Z.eqb_neq. lia.
Qed.

(** the tick that brings [timeLeft] to zero on a project that is not the
    last: the alarm, then the next project *)
Lemma tick_advance (st : State) (p : Project) :
  isRunning st = true -> isPaused st = false -> timeLeft st = Int 1 ->
  currentProject st < Z.of_nat (List.length (projects st)) - 1 ->
  projectAt (projects st) (currentProject st + 1) = Some p ->
  positiveDuration p ->
  tick st
  = Ok (setDraws (S (draws st))
          (setBackgroundColor (Hsl (draws st))
             (setTimeLeft (duration p)
                (setCurrentProject (currentProject st + 1) st))))
       [PlayAlarm; SetBackgroundColor (Hsl (draws st))].
Proof.
  intros Hr Hp Ht Hlt Hnext Hpos. unfold tick, dispatch. cbn [enabled handler].
  unfold timerArmed, intervalCallback. rewrite Hr, Hp, Ht.
  change (pred1 (Int 1)) with (Int 0).
  cbn [negb andb gt0 Z.ltb Z.compare].
  cbn [andThen]. unfold settle. cbn [settleFuel].
  unfold timerEffect at 1. unfold timerArmed.
  cbn [isRunning isPaused timeLeft setTimeLeft projects currentProject draws].
  rewrite Hr, Hp. cbn [negb andb gt0 eq0 Z.ltb Z.eqb Z.compare].
  apply Z.ltb_lt in Hlt. rewrite Hlt, Hnext. cbn [andThen].
  match goal with |- context [settleFuel _ ?s] =>
    assert (Hs : timerEffect s = None)
  end.
  { apply (rested_loaded _ p); [exact Hpos|reflexivity]. }
  destruct (List.length (projects st)); cbn [settleFuel]; rewrite Hs;
    reflexivity.
Qed.

(** the tick that brings [timeLeft] to zero on the last project: the alarm,
    then the end of the run *)
Lemma tick_complete (st : State) :
  isRunning st = true -> isPaused st = false -> timeLeft st = Int 1 ->
  Z.of_nat (List.length (projects st)) - 1 <= currentProject st ->
  tick st
  = Ok (fst (leaveFullscreen
               (setBackgroundColor White
                  (setCurrentProject (-1)
                     (setIsRunning false (setTimeLeft (Int 0) st))))))
       (PlayAlarm :: SetBackgroundColor White ::
        snd (leaveFullscreen
               (setBackgroundColor White
                  (setCurrentProject (-1)
                     (setIsRunning false (setTimeLeft (Int 0) st)))))).
Proof.
  intros Hr Hp Ht Hge. unfold tick, dispatch. cbn [enabled handler].
  unfold timerArmed, intervalCallback. rewrite Hr, Hp, Ht.
  change (pred1 (Int 1)) with (Int 0).
  cbn [negb andb gt0 Z.ltb Z.compare].
  cbn [andThen]. unfold settle. cbn [settleFuel].
  unfold timerEffect at 1. unfold timerArmed.
  cbn [isRunning isPaused timeLeft setTimeLeft projects currentProject draws].
  rewrite Hr, Hp. cbn [negb andb gt0 eq0 Z.ltb Z.eqb Z.compare].
  apply Z.ltb_ge in Hge. rewrite Hge.
  match goal with |- context [leaveFullscreen ?s] =>
    destruct (leaveFullscreen_fields s) as (_ & _ & Hidle & _);
    destruct (leaveFullscreen s) as [s2 o2]
  end.
  cbn [fst snd] in *. cbn [andThen].
  assert (Hs : timerEffect s2 = None) by (apply timerEffect_idle; exact Hidle).
  destruct (List.length (projects st)); cbn [settleFuel]; rewrite Hs;
    rewrite app_nil_r; reflexivity.
Qed.

Lemma count_app (f : Effect -> bool) (a b : list Effect) :
  count f (a ++ b) = (count f a + count f b)%nat.
Proof. unfold count. rewrite filter_app, length_app. reflexivity. Qed.

Lemma Event_IntervalFired_dec (e : Event) :
  e = IntervalFired \/ e <> IntervalFired.
Proof. destruct e; (left; reflexivity) || (right; discriminate). Qed.

(** the alarm of a tick that brings [timeLeft] to zero *)
Lemma tick_expire (st : State) :
  allPositive st -> indexInRange st ->
  timerArmed st = true -> timeLeft st = Int 1 ->
  exists st' out,
    tick st = Ok st' out /\ count isAlarm out = 1%nat /\
    (currentProject st < Z.of_nat (List.length (projects st)) - 1 ->
     isRunning st' = true /\ count isRunComplete out = 0%nat) /\
    (Z.of_nat (List.length (projects st)) - 1 <= currentProject st ->
     isRunning st' = false /\ count isRunComplete out = 1%nat).
Proof.
  intros Hall Hinv Harm Ht.
  destruct (timerArmed_inv _ Harm) as (Hr & Hp & _).
  specialize (Hinv Hr).
  destruct (Z_lt_le_dec (currentProject st)
              (Z.of_nat (List.length (projects st)) - 1)) as [Hlt|Hge].
  - destruct (projectAt_Some (projects st) (currentProject st + 1))
      as [p Hnext]; [lia|].
    pose proof (allPositive_at _ _ _ Hall Hnext) as Hpos.
    rewrite (tick_advance st p Hr Hp Ht Hlt Hnext Hpos).
    do 2 eexists. split; [reflexivity|]. split; [reflexivity|].
    split; [intros _; split; [exact Hr|reflexivity]|lia].
  - rewrite (tick_complete st Hr Hp Ht Hge).
    match goal with |- context [leaveFullscreen ?s] =>
      destruct (leaveFullscreen_fields s) as (_ & _ & Hidle & _);
      destruct (leaveFullscreen_silent s) as (Hsa & Hsc & _)
    end.
    do 2 eexists. split; [reflexivity|].
    change (count isAlarm (PlayAlarm :: SetBackgroundColor White :: ?l))
      with (S (count isAlarm l)).
    change (count isRunComplete (PlayAlarm :: SetBackgroundColor White :: ?l))
      with (S (count isRunComplete l)).
    rewrite Hsa, Hsc. split; [reflexivity|]. split; [lia|].
    intros _. split; [exact Hidle|reflexivity].
Qed.

(** With every duration positive, in a state with its index in range and
    the effect at rest: the navigation buttons play no alarm, an event that
    plays the alarm is the interval firing with one second left, and that
    tick plays it once. *)
Lemma alarm_sources (st : State) :
  allPositive st -> indexInRange st -> rested st ->
  (forall d,
     exists st' out,
       dispatch (navigateEvent d) st = Ok st' out /\
       count isAlarm out = 0%nat) /\
  (forall e st' out,
     dispatch e st = Ok st' out -> count isAlarm out <> 0%nat ->
     e = IntervalFired /\ timerArmed st = true /\ timeLeft st = Int 1) /\
  (timerArmed st = true -> timeLeft st = Int 1 ->
   exists st' out, tick st = Ok st' out /\ count isAlarm out = 1%nat).
Proof.
  intros Hall Hinv Hrest.
  assert (Hquiet : forall e st' out,
            e <> IntervalFired -> dispatch e st = Ok st' out ->
            count isAlarm out = 0%nat).
  { intros e st' out Hne Hd. apply dispatch_inv in Hd.
    destruct Hd as [(_ & _ & ->)|(Hen & st1 & out1 & out2 & Hh & Hs & ->)];
      [reflexivity|].
    destruct (handler_quiet e st st1 out1 Hall Hrest Hen Hh Hne) as [Hr1 Hc].
    rewrite (settle_rested _ Hr1) in Hs. injection Hs as _ <-.
    rewrite app_nil_r. exact Hc. }
  split; [|split].
  - intros d. destruct (dispatch_total (navigateEvent d) st Hinv)
      as (st' & out & Hd & _).
    exists st', out. split; [exact Hd|].
    apply (Hquiet (navigateEvent d) st' out); [destruct d; discriminate|].
    exact Hd.
  - intros e st' out Hd Hc.
    destruct (Event_IntervalFired_dec e) as [->|Hne];
      [|exfalso; apply Hc; exact (Hquiet e st' out Hne Hd)].
    split; [reflexivity|].
    destruct (enabled st IntervalFired) eqn:Hen.
    + cbn [enabled] in Hen. split; [exact Hen|].
      destruct (eq0 (pred1 (timeLeft st))) eqn:Hz;
        [apply pred1_zero; exact Hz|].
      exfalso. apply Hc.
      pose proof (tick_step st Hen Hz) as Htick.
      unfold tick in Htick. rewrite Htick in Hd. injection Hd as _ <-.
      reflexivity.
    + exfalso. apply Hc. unfold dispatch in Hd. rewrite Hen in Hd.
      injection Hd as _ <-. reflexivity.
  - intros Harm Ht.
    destruct (tick_expire st Hall Hinv Harm Ht) as (st' & out & H1 & H2 & _).
    eauto.
Qed.

(** ** What holds in every state of a session *)

Lemma handler_mirrored (e : Event) (st st' : State) (out : list Effect) :
  mirrored st -> enabled st e = true -> handler e st = Ok st' out ->
  mirrored st'.
Proof.
  intros Hm Hen Hh.
  assert (Hstart : forall i, startTracking i st = Ok st' out -> mirrored st').
  { intros i Hs. apply startTracking_inv in Hs.
    destruct Hs as [(_ & -> & _)|(p & _ & -> & _)]; exact Hm. }
  assert (Hnav : forall d, handler (navigateEvent d) st = Ok st' out ->
                           mirrored st').
  { intros d Hn. apply navigate_inv in Hn.
    destruct Hn as (t & p & _ & -> & _). exact Hm. }
  destruct e; cbn [enabled handler] in Hen, Hh;
    try (apply (Hnav backward); exact Hh);
    try (apply (Hnav forward); exact Hh);
    try (eapply Hstart; exact Hh);
    try match type of Hh with
        | context [onRow] =>
            unfold onRow in Hh; destruct (nth_error (projects st) index)
        end;
    try (unfold pure in Hh);
    injection Hh as <- <-;
    try exact Hm;
    try (apply addProject_mirrored; exact Hm);
    try (apply saveEdit_mirrored; exact Hm).
  - (* ClickFullscreen *)
    unfold toggleFullscreen. destruct (negb (fullscreenElement st));
      reflexivity.
  - (* ClickReturn *)
    rewrite returnToPlanning_eq. cbn [fst].
    assert (Hpm : mirrored (planning st)) by exact Hm.
    destruct (leaveFullscreen_mirrored _ Hpm) as (Hf & Hfe & _).
    unfold mirrored. rewrite Hf, Hfe. reflexivity.
  - (* FullscreenLeft *)
    reflexivity.
Qed.

(** every state of a session has its index in range, the effect at rest
    and [isFullscreen] in step with the document *)
Lemma reachable_invariants (st : State) :
  reachable st -> indexInRange st /\ rested st /\ mirrored st.
Proof.
  induction 1 as [|st e st' out _ (Hi & Hr & Hm) Hd].
  - split; [exact initial_indexInRange|]. split; reflexivity.
  - split; [exact (dispatch_indexInRange e _ _ _ Hi Hd)|].
    apply dispatch_inv in Hd.
    destruct Hd as [(_ & -> & _)|(Hen & st1 & out1 & out2 & Hh & Hs & _)];
      [auto|].
    split; [exact (settle_Ok_rested _ _ _ Hs)|].
    apply (settle_mirrored st1 st' out2); [|exact Hs].
    exact (handler_mirrored e _ _ _ Hm Hen Hh).
Qed.

(** ** A whole run *)

Lemma andThen_assoc (o : Outcome) (f g : State -> Outcome) :
  (o >>= f) >>= g = o >>= (fun s => f s >>= g).
Proof.
  destruct o as [s out| |]; cbn; [|reflexivity|reflexivity].
  destruct (f s) as [s1 out1| |]; cbn; [|reflexivity|reflexivity].
  destruct (g s1) as [s2 out2| |]; [|reflexivity|reflexivity].
  rewrite app_assoc. reflexivity.
Qed.

Lemma andThen_ret (o : Outcome) : o >>= (fun s => Ok s []) = o.
Proof.
  destruct o as [s out| |]; cbn; [|reflexivity|reflexivity].
  rewrite app_nil_r. reflexivity.
Qed.

Lemma andThen_silent (st : State) (k : State -> Outcome) :
  Ok st [] >>= k = k st.
Proof. cbn. destruct (k st); reflexivity. Qed.

Lemma ticks_add (a b : nat) (st : State) :
  ticks (a + b) st = ticks a st >>= ticks b.
Proof.
  revert st. induction a as [|a IH]; intro st.
  - cbn [Nat.add ticks]. rewrite andThen_silent. reflexivity.
  - cbn [Nat.add ticks]. rewrite andThen_assoc.
    destruct (tick st) as [s out| |]; [|reflexivity|reflexivity].
    cbn [andThen]. rewrite IH. reflexivity.
Qed.

Lemma setTimeLeft_same (st : State) : setTimeLeft (timeLeft st) st = st.
Proof. destruct st; reflexivity. Qed.

(** ticks that stay within the current project only count down *)
Lemma ticks_within (n : nat) :
  forall st t,
    isRunning st = true -> isPaused st = false -> timeLeft st = Int t ->
    Z.of_nat n < t <= 2 ^ 53 ->
    ticks n st = Ok (setTimeLeft (Int (t - Z.of_nat n)) st) [].
Proof.
  induction n as [|n IH]; intros st t Hr Hp Ht Hn.
  - cbn [ticks]. rewrite Z.sub_0_r, <- Ht, setTimeLeft_same. reflexivity.
  - cbn [ticks]. rewrite (tick_decrement st t Hr Hp Ht) by lia.
    rewrite andThen_silent.
    rewrite (IH (setTimeLeft (Int (t - 1)) st) (t - 1) Hr Hp eq_refl) by lia.
    f_equal. change (setTimeLeft ?a (setTimeLeft ?b st)) with (setTimeLeft a st).
    f_equal. f_equal. lia.
Qed.

(** the ticks of one project: all but the last count down, and the last is
    the tick with one second left *)
Lemma ticks_project (st : State) (t : Z) :
  isRunning st = true -> isPaused st = false -> timeLeft st = Int t ->
  0 < t <= 2 ^ 53 ->
  ticks (Z.to_nat t) st = tick (setTimeLeft (Int 1) st).
Proof.
  intros Hr Hp Ht Hpos.
  replace (Z.to_nat t) with (Z.to_nat (t - 1) + 1)%nat by lia.
  rewrite ticks_add, (ticks_within _ st t Hr Hp Ht) by lia.
  rewrite andThen_silent. cbn [ticks]. rewrite andThen_ret.
  f_equal. f_equal. f_equal. lia.
Qed.

(** a state that a tick leaves as it is stays as it is *)
Lemma ticks_fixed (st : State) :
  tick st = Ok st [] -> forall n, ticks n st = Ok st [].
Proof.
  intros H n. induction n as [|n IH]; [reflexivity|].
  cbn [ticks]. rewrite H, andThen_silent. exact IH.
Qed.

Lemma totalFrom_step (k : nat) (ps : list Project) (p : Project) :
  nth_error ps k = Some p ->
  totalFrom k ps = seconds (duration p) + totalFrom (S k) ps.
Proof.
  unfold totalFrom. revert k.
  induction ps as [|q ps IH]; intros [|k] Hn; cbn in Hn; try discriminate.
  - injection Hn as ->. reflexivity.
  - cbn [skipn]. exact (IH k Hn).
Qed.

Lemma totalFrom_end (k : nat) (ps : list Project) :
  (List.length ps <= k)%nat -> totalFrom k ps = 0.
Proof.
  intro H. unfold totalFrom. rewrite skipn_all2 by exact H. reflexivity.
Qed.

Lemma totalFrom_nonneg (ps : list Project) :
  Forall positiveDuration ps -> forall k, 0 <= totalFrom k ps.
Proof.
  intros Hall k. unfold totalFrom.
  assert (Hs : Forall positiveDuration (skipn k ps)).
  { revert k. induction Hall as [|p l Hp Hl IHl]; intros [|k]; cbn;
      auto using Forall_nil, Forall_cons. }
  induction Hs as [|p l (d & Hd & Hpos) _ IH]; cbn; [lia|].
  rewrite Hd. cbn. lia.
Qed.

Lemma countable_positive (p : Project) :
  countableDuration p -> positiveDuration p.
Proof. intros (d & Hd & Hpos). exists d. split; [exact Hd|lia]. Qed.

Lemma allCountable_allPositive (st : State) : allCountable st -> allPositive st.
Proof.
  unfold allCountable, allPositive. apply Forall_impl. exact countable_positive.
Qed.

Lemma allCountable_at (st : State) (i : Z) (p : Project) :
  allCountable st -> projectAt (projects st) i = Some p -> countableDuration p.
Proof.
  intros Hall Hp. apply projectAt_inv in Hp. destruct Hp as [_ Hn].
  apply nth_error_In in Hn.
  exact (proj1 (Forall_forall _ _) Hall p Hn).
Qed.

(** From a project with [m] projects after it and [t] seconds left, the run
    ends after [t] plus the later durations ticks, and not before; every
    project gives one alarm, and the last thing that happens is the alarm
    of the last project, the reset of the background, and the exit from
    fullscreen. *)
Lemma countdown (m : nat) :
  forall st k t,
    allCountable st ->
    isRunning st = true -> isPaused st = false ->
    currentProject st = Z.of_nat k ->
    (k + S m = List.length (projects st))%nat ->
    timeLeft st = Int t -> 0 < t <= 2 ^ 53 ->
    (exists st2 before after,
       ticks (Z.to_nat (t + totalFrom (S k) (projects st))) st
       = Ok st2 (before ++ PlayAlarm :: SetBackgroundColor White :: after) /\
       isRunning st2 = false /\
       currentProject st2 = -1 /\
       backgroundColor st2 = White /\
       count isAlarm before = m /\
       count isRunComplete before = 0%nat /\
       count isAlarm after = 0%nat /\
       count isRunComplete after = 0%nat /\
       count isProjectChanged after = 0%nat /\
       (mirrored st ->
        after = (if isFullscreen st then [ExitFullscreen] else []) /\
        isFullscreen st2 = false /\ fullscreenElement st2 = false)) /\
    (forall n,
       (n < Z.to_nat (t + totalFrom (S k) (projects st)))%nat ->
       exists st' out', ticks n st = Ok st' out' /\ phase st' = Running).
Proof.
  induction m as [|m IH]; intros st k t Hall Hr Hp Hcur Hlen Ht Hpos.
  - (* the last project *)
    rewrite totalFrom_end by lia. rewrite Z.add_0_r. split.
    + rewrite (ticks_project st t Hr Hp Ht Hpos).
      rewrite (tick_complete (setTimeLeft (Int 1) st) Hr Hp eq_refl)
        by (cbn [projects currentProject setTimeLeft]; lia).
      match goal with |- context [leaveFullscreen ?s] =>
        destruct (leaveFullscreen_fields s)
          as (_ & Hc & Hidle & _ & _ & Hbg & _);
        destruct (leaveFullscreen_silent s) as (Hsa & Hsc & Hsp);
        pose proof (leaveFullscreen_mirrored s) as Hlm
      end.
      eexists. exists []. eexists. split; [reflexivity|].
      split; [exact Hidle|]. split; [exact Hc|]. split; [exact Hbg|].
      split; [reflexivity|]. split; [reflexivity|].
      split; [exact Hsa|]. split; [exact Hsc|]. split; [exact Hsp|].
      intro Hm. destruct (Hlm Hm) as (Hf & Hfe & Hout).
      split; [exact Hout|]. split; [exact Hf|exact Hfe].
    + intros n Hn. rewrite (ticks_within n st t Hr Hp Ht) by lia.
      do 2 eexists. split; [reflexivity|].
      apply phase_Running. split; [exact Hr|exact Hp].
  - (* a project that has a successor *)
    destruct (projectAt_Some (projects st) (currentProject st + 1))
      as [p Hnext]; [lia|].
    pose proof (allCountable_at _ _ _ Hall Hnext) as Hppos.
    destruct Hppos as (d & Hd & Hdpos).
    pose proof (projectAt_inv _ _ _ Hnext) as [_ Hnth].
    replace (Z.to_nat (currentProject st + 1)) with (S k) in Hnth by lia.
    rewrite (totalFrom_step (S k) _ p Hnth), Hd. cbn [seconds].
    pose proof (totalFrom_nonneg _ (allCountable_allPositive _ Hall) (S (S k)))
      as Hrest.
    set (rest := totalFrom (S (S k)) (projects st)) in *.
    set (st1 := setDraws (S (draws st))
                  (setBackgroundColor (Hsl (draws st))
                     (setTimeLeft (duration p)
                        (setCurrentProject (currentProject st + 1)
                           (setTimeLeft (Int 1) st))))).
    assert (Hstep : ticks (Z.to_nat t) st
                    = Ok st1 [PlayAlarm; SetBackgroundColor (Hsl (draws st))]).
    { rewrite (ticks_project st t Hr Hp Ht Hpos).
      apply (tick_advance (setTimeLeft (Int 1) st) p Hr Hp eq_refl).
      - cbn [projects currentProject setTimeLeft]. lia.
      - exact Hnext.
      - exists d. split; [exact Hd|lia]. }
    destruct (IH st1 (S k) d Hall Hr Hp)
      as [(st2 & before & after & H2 & Hidle & Hc & Hbg & Ha & Hw & Haa & Haw
           & Hap & Hfs) Hbefore];
      [subst st1; cbn [currentProject setDraws setBackgroundColor setTimeLeft
                       setCurrentProject]; lia
      |subst st1; cbn [projects setDraws setBackgroundColor setTimeLeft
                       setCurrentProject]; lia
      |subst st1; cbn [timeLeft setDraws setBackgroundColor setTimeLeft
                       setCurrentProject]; exact Hd
      |exact Hdpos|].
    change (projects st1) with (projects st) in H2, Hbefore.
    fold rest in H2, Hbefore.
    split.
    + replace (Z.to_nat (t + (d + rest)))
        with (Z.to_nat t + Z.to_nat (d + rest))%nat by lia.
      rewrite ticks_add, Hstep. cbn [andThen]. rewrite H2.
      exists st2, ([PlayAlarm; SetBackgroundColor (Hsl (draws st))] ++ before),
        after.
      split; [rewrite <- app_assoc; reflexivity|].
      split; [exact Hidle|]. split; [exact Hc|]. split; [exact Hbg|].
      split; [rewrite count_app, Ha; reflexivity|].
      split; [rewrite count_app, Hw; reflexivity|].
      split; [exact Haa|]. split; [exact Haw|]. split; [exact Hap|].
      intro Hm. exact (Hfs Hm).
    + intros n Hn.
      destruct (Nat.lt_ge_cases n (Z.to_nat t)) as [Hin|Hover].
      * rewrite (ticks_within n st t Hr Hp Ht) by lia.
        do 2 eexists. split; [reflexivity|].
        apply phase_Running. split; [exact Hr|exact Hp].
      * replace n with (Z.to_nat t + (n - Z.to_nat t))%nat by lia.
        rewrite ticks_add, Hstep. cbn [andThen].
        destruct (Hbefore (n - Z.to_nat t)%nat) as (st' & out' & Hn' & Hph);
          [lia|].
        rewrite Hn'. do 2 eexists. split; [reflexivity|exact Hph].
Qed.

(** C1, as stated, fails: a positive duration is not enough.  A project of
    10^17 minutes, typed into the form, has a duration of 6 * 10^18
    seconds.  Doubles are 1024 apart there, so [prev - 1] is [prev] again:
    the run starts, and no number of ticks changes the state, plays the
    alarm or reaches Idle. *)
Lemma run_stalls_on_long_duration :
  let st := add "Eon" "100000000000000000" "k3x9q2m1z" initial in
  let total := totalFrom 0 (projects st) in
  projects st = [mkProject "k3x9q2m1z" "Eon" (Int 6000000000000000000)] /\
  allPositive st /\
  total = 6000000000000000000 /\
  pred1 (Int 6000000000000000000) = Int 6000000000000000000 /\
  exists st1,
    start 0 st = Ok st1 [SetBackgroundColor (Hsl 0)] /\
    timeLeft st1 = Int 6000000000000000000 /\
    (forall n, ticks n st1 = Ok st1 []) /\
    ticks (Z.to_nat total) st1 = Ok st1 [] /\
    phase st1 = Running /\ phase st1 <> Idle.
Proof.
  cbv zeta.
  assert (Hps : projects (add "Eon" "100000000000000000" "k3x9q2m1z" initial)
                = [mkProject "k3x9q2m1z" "Eon" (Int 6000000000000000000)])
    by (vm_compute; reflexivity).
  rewrite Hps.
  split; [reflexivity|].
  split.
  { unfold allPositive. rewrite Hps. repeat constructor.
    exists 6000000000000000000. split; reflexivity. }
  split; [reflexivity|].
  assert (Hpred : pred1 (Int 6000000000000000000) = Int 6000000000000000000)
    by (vm_compute; reflexivity).
  split; [exact Hpred|].
  eexists. split; [vm_compute; reflexivity|].
  split; [reflexivity|].
  assert (Hfix : forall n,
            ticks n
              (mkState
                 [mkProject "k3x9q2m1z" "Eon" (Int 6000000000000000000)]
                 0 true false (Int 6000000000000000000) (Hsl 0) "" "" None
                 false false 1)
            = Ok (mkState
                    [mkProject "k3x9q2m1z" "Eon" (Int 6000000000000000000)]
                    0 true false (Int 6000000000000000000) (Hsl 0) "" "" None
                    false false 1) []).
  { apply ticks_fixed.
    rewrite tick_step; [|reflexivity|].
    - cbn [timeLeft]. rewrite Hpred. reflexivity.
    - cbn [timeLeft]. rewrite Hpred. reflexivity. }
  split; [exact Hfix|]. split; [apply Hfix|].
  split; [reflexivity|discriminate].
Qed.

(** C1, amended: on a list of N >= 1 projects whose durations are positive
    and at most 2^53 seconds, [start] at an index below N followed by as
    many ticks as the durations from that index on add up to ends in Idle,
    with [currentProject] cleared and the background white; the run is
    still Running after any smaller number of ticks; the alarm has played
    once per project from the start index to the end, and the background
    has been reset once.  That reset comes last, right after the last
    alarm, followed by nothing but the exit from fullscreen: when
    [isFullscreen] mirrors the document, the exit is requested exactly if
    the page was in fullscreen, and the document ends out of it. *)
Theorem run_to_completion (st : State) (startIndex : nat) :
  allCountable st ->
  (startIndex < List.length (projects st))%nat ->
  exists st1 out1 st2 out2,
    start (Z.of_nat startIndex) st = Ok st1 out1 /\
    ticks (Z.to_nat (totalFrom startIndex (projects st))) st1 = Ok st2 out2 /\
    phase st2 = Idle /\
    currentProject st2 = -1 /\
    backgroundColor st2 = White /\
    count isAlarm (out1 ++ out2)
    = (List.length (projects st) - startIndex)%nat /\
    count isRunComplete (out1 ++ out2) = 1%nat /\
    (exists before after,
       out1 ++ out2
       = before ++ PlayAlarm :: SetBackgroundColor White :: after /\
       count isAlarm after = 0%nat /\
       count isRunComplete after = 0%nat /\
       count isProjectChanged after = 0%nat /\
       (mirrored st ->
        after = (if isFullscreen st then [ExitFullscreen] else []) /\
        isFullscreen st2 = false /\ fullscreenElement st2 = false)) /\
    (forall n,
       (n < Z.to_nat (totalFrom startIndex (projects st)))%nat ->
       exists st' out', ticks n st1 = Ok st' out' /\ phase st' = Running).
Proof.
  intros Hall Hlt.
  destruct (projectAt_Some (projects st) (Z.of_nat startIndex)) as [p Hp];
    [lia|].
  pose proof (startTracking_found st _ p Hp) as Hs.
  destruct (allCountable_at _ _ _ Hall Hp) as (d & Hd & Hdpos).
  pose proof (projectAt_inv _ _ _ Hp) as [_ Hnth].
  rewrite Nat2Z.id in Hnth.
  set (st1 := setDraws (S (draws st))
                (setBackgroundColor (Hsl (draws st))
                   (setTimeLeft (duration p)
                      (setCurrentProject (Z.of_nat startIndex)
                         (setIsPaused false (setIsRunning true st)))))) in *.
  assert (Hrest1 : rested st1).
  { apply (rested_loaded st1 p); [exists d; split; [exact Hd|lia]|reflexivity]. }
  destruct (countdown (List.length (projects st) - startIndex - 1)
              st1 startIndex d Hall eq_refl eq_refl eq_refl)
    as [(st2 & before & after & H2 & Hidle & Hc & Hbg & Ha & Hw & Haa & Haw
         & Hap & Hfs) Hbefore];
    [cbn [projects st1 setDraws setBackgroundColor setTimeLeft
          setCurrentProject setIsPaused setIsRunning]; lia
    |exact Hd|exact Hdpos|].
  change (projects st1) with (projects st) in H2, Hbefore.
  rewrite (totalFrom_step startIndex _ p Hnth), Hd. cbn [seconds].
  exists st1, [SetBackgroundColor (Hsl (draws st))], st2,
    (before ++ PlayAlarm :: SetBackgroundColor White :: after).
  split; [unfold start; rewrite Hs; apply andThen_rested; exact Hrest1|].
  split; [exact H2|]. split; [apply phase_Idle; exact Hidle|].
  split; [exact Hc|]. split; [exact Hbg|].
  split.
  { rewrite !count_app, Ha.
    change (count isAlarm (PlayAlarm :: SetBackgroundColor White :: after))
      with (S (count isAlarm after)).
    rewrite Haa. cbn. lia. }
  split.
  { rewrite !count_app, Hw.
    change (count isRunComplete
              (PlayAlarm :: SetBackgroundColor White :: after))
      with (S (count isRunComplete after)).
    rewrite Haw. reflexivity. }
  split; [|exact Hbefore].
  exists ([SetBackgroundColor (Hsl (draws st))] ++ before), after.
  split; [rewrite <- app_assoc; reflexivity|].
  split; [exact Haa|]. split; [exact Haw|]. split; [exact Hap|].
  intro Hm. exact (Hfs Hm).
Qed.

Lemma reachable_run (es : list Event) :
  forall st st' out,
    reachable st -> run es st = Ok st' out -> reachable st'.
Proof.
  induction es as [|e es IH]; intros st st' out Hreach; cbn [run].
  - intro H. injection H as <- _. exact Hreach.
  - intro H. apply andThen_Ok_inv in H.
    destruct H as (s1 & o1 & o2 & Hd & Hk & _).
    exact (IH s1 st' o2 (reachable_step st e s1 o1 Hreach Hd) Hk).
Defined.

(** the render after every event of a session succeeds *)
Lemma reachable_viewRenders (st : State) :
  reachable st -> viewRenders st = true.
Proof.
  intro Hreach. destruct (reachable_invariants st Hreach) as (Hinv & _).
  unfold viewRenders. destruct (isRunning st) eqn:Hr; [|reflexivity].
  destruct (projectAt_Some (projects st) _ (Hinv Hr)) as [p ->].
  reflexivity.
Qed.

(** C5: with every duration positive, in every state of a session (a run
    active or not), either navigation button ends normally without the alarm;
    and whenever any event at all plays the alarm, that event is the
    interval firing with one second left -- [timeLeft] reaching zero --
    which plays it exactly once. *)
Theorem alarm_only_on_expiry (st : State) :
  reachable st -> allPositive st ->
  (forall d,
     exists st' out,
       dispatch (navigateEvent d) st = Ok st' out /\
       count isAlarm out = 0%nat) /\
  (forall e st' out,
     dispatch e st = Ok st' out -> count isAlarm out <> 0%nat ->
     e = IntervalFired /\ timerArmed st = true /\ timeLeft st = Int 1) /\
  (timerArmed st = true -> timeLeft st = Int 1 ->
   exists st' out, tick st = Ok st' out /\ count isAlarm out = 1%nat).
Proof.
  intros Hreach Hall.
  destruct (reachable_invariants st Hreach) as (Hinv & Hrest & _).
  exact (alarm_sources st Hall Hinv Hrest).
Qed.

(** ** The sample session *)

Lemma planned_reachable : reachable planned.
Proof.
  apply (reachable_run planningSession initial planned [] reachable_initial).
  reflexivity.
Defined.

Lemma started_reachable : reachable started.
Proof.
  apply (reachable_step planned ClickStart started
           [SetBackgroundColor (Hsl 0)] planned_reachable).
  reflexivity.
Defined.

Lemma planned_allPositive : allPositive planned.
Proof.
  repeat constructor; [exists 60|exists 120]; split; reflexivity.
Defined.

Lemma planned_allCountable : allCountable planned.
Proof.
  repeat constructor; [exists 60|exists 120]; repeat split; discriminate.
Defined.

Lemma run_to_completion_witness :
  allCountable planned /\
  (0 < List.length (projects planned))%nat /\
  exists st1 out1 st2 out2,
    start 0 planned = Ok st1 out1 /\
    ticks 180 st1 = Ok st2 out2 /\
    phase st2 = Idle /\
    currentProject st2 = -1 /\
    backgroundColor st2 = White /\
    count isAlarm (out1 ++ out2) = 2%nat /\
    count isRunComplete (out1 ++ out2) = 1%nat.
Proof.
  assert (Hlt : (0 < List.length (projects planned))%nat)
    by (cbn; apply Nat.lt_0_succ).
  split; [exact planned_allCountable|]. split; [exact Hlt|].
  destruct (run_to_completion planned 0 planned_allCountable Hlt)
    as (st1 & out1 & st2 & out2 & H1 & H2 & H3 & H4 & H5 & H6 & H7 & _).
  exists st1, out1, st2, out2. repeat split; assumption.
Defined.

Lemma currentProject_in_range_witness :
  reachable started /\ phase started <> Idle /\
  0 <= currentProject started < Z.of_nat (List.length (projects started)).
Proof.
  assert (Hactive : phase started <> Idle) by discriminate.
  split; [exact started_reachable|]. split; [exact Hactive|].
  exact (proj1 currentProject_in_range started started_reachable Hactive).
Defined.


Lemma alarm_only_on_expiry_witness :
  reachable started /\ allPositive started /\
  exists st' out,
    dispatch ClickNext started = Ok st' out /\ count isAlarm out = 0%nat.
Proof.
  split; [exact started_reachable|]. split; [exact planned_allPositive|].
  exact (proj1 (alarm_only_on_expiry started started_reachable
                  planned_allPositive) forward).
Defined.

Lemma togglePause_flips_witness :
  rested started /\
  dispatch ClickPause started = Ok (setIsPaused true started) [] /\
  phase (setIsPaused true started) = Paused.
Proof.
  assert (Hrest : rested started) by reflexivity.
  split; [exact Hrest|]. exact (togglePause_flips started Hrest).
Defined.

Lemma paused_ticks_hold_witness :
  phase started = Running /\ rested started /\
  exists st1,
    dispatch ClickPause started = Ok st1 [] /\
    phase st1 = Paused /\
    timeLeft st1 = timeLeft started /\
    ticks 7 st1 = Ok st1 [] /\
    dispatch ClickPause st1 = Ok started [].
Proof.
  split; [reflexivity|]. split; [reflexivity|].
  exact (paused_ticks_hold started 7 eq_refl eq_refl).
Defined.

Lemma add_checks_presence_only_witness :
  projects (add "" "10" "h2j7d4s9a" planned) = projects planned /\
  projects (add "Notes" "25" "h2j7d4s9a" planned)
  = projects planned ++ [mkProject "h2j7d4s9a" "Notes" (Int 1500)].
Proof.
  destruct (add_checks_presence_only planned "" "10" "h2j7d4s9a" "N" "otes"
              25) as (_ & Hempty & _ & Hadd).
  split; [exact Hempty|exact (Hadd eq_refl)].
Defined.

Lemma edit_round_trip_witness :
  falsy "Final review" || falsy "3" = false /\
  nth_error (projects planned) 1
  = Some (mkProject "w8r5t0b4c" "Review" (Int 120)) /\
  nth_error (projects (edit "w8r5t0b4c" "Final review" "3" planned)) 1
  = Some (mkProject "w8r5t0b4c" "Final review" (Int 180)) /\
  nth_error (projects (edit "w8r5t0b4c" "Final review" "3" planned)) 0
  = nth_error (projects planned) 0 /\
  projects (edit "zzzzzzzzz" "Final review" "3" planned) = projects planned /\
  projects (edit "w8r5t0b4c" "" "3" planned) = projects planned.
Proof.
  destruct (edit_round_trip planned "w8r5t0b4c" "Final review" "3")
    as (Hvalid & _ & _ & _).
  destruct (Hvalid eq_refl) as (_ & Hhit & Hmiss & _).
  destruct (edit_round_trip planned "zzzzzzzzz" "Final review" "3")
    as (_ & _ & Habsent & _).
  destruct (edit_round_trip planned "w8r5t0b4c" "" "3")
    as (_ & _ & _ & Hcheck).
  split; [reflexivity|]. split; [reflexivity|].
  split; [exact (Hhit 1%nat _ eq_refl eq_refl)|].
  split; [exact (Hmiss 0%nat _ eq_refl ltac:(discriminate))|].
  split; [apply Habsent; cbn; intros [H|[H|[]]]; discriminate H|].
  exact (Hcheck eq_refl).
Defined.

Lemma exit_returns_to_idle_witness :
  isRunning started = true /\ mirrored started /\
  exists st' out,
    exit started = Ok st' out /\ phase st' = Idle /\
    count isAlarm out = 0%nat.
Proof.
  split; [reflexivity|]. split; [reflexivity|].
  destruct (exit_returns_to_idle started eq_refl eq_refl)
    as (st' & out & He & Hp & _ & _ & _ & _ & _ & _ & _ & Ha & _).
  exists st', out. repeat split; assumption.
Defined.

Lemma startTracking_guard_witness :
  startTracking 3 initial = Ok initial [] /\
  (exists p, projectAt (projects planned) 1 = Some p /\
             exists st' out, startTracking 1 planned = Ok st' out /\
                             timeLeft st' = duration p) /\
  projectAt (projects planned) 2 = None /\
  startTracking 2 planned = TypeError /\
  startTracking (-1) planned = TypeError.
Proof.
  split; [exact (proj1 (startTracking_guard initial 3) eq_refl)|].
  split.
  - destruct (proj1 (proj2 (startTracking_guard planned 1)))
      as (p & Hp & Hs); [split; [discriminate|reflexivity]|].
    exists p. split; [exact Hp|]. do 2 eexists. split; [exact Hs|reflexivity].
  - destruct (proj2 (proj2 (startTracking_guard planned 2)))
      as [Hnone Herr]; [discriminate|right; discriminate|].
    split; [exact Hnone|]. split; [exact Herr|].
    apply (proj2 (proj2 (startTracking_guard planned (-1))));
      [discriminate|left; reflexivity].
Defined.

(** ** The scenarios of the specification *)

Example scenario_draft_review_first :
  exists st,
    start 0 draftReview >>= ticks 60
    = Ok st [SetBackgroundColor (Hsl 0); PlayAlarm;
             SetBackgroundColor (Hsl 1)] /\
    phase st = Running /\ currentProject st = 1 /\ timeLeft st = Int 30.
Proof. eexists. split; [vm_compute; reflexivity|]. repeat split. Qed.

Example scenario_draft_review_whole :
  exists st,
    start 0 draftReview >>= ticks 90
    = Ok st [SetBackgroundColor (Hsl 0); PlayAlarm;
             SetBackgroundColor (Hsl 1); PlayAlarm;
             SetBackgroundColor White] /\
    phase st = Idle.
Proof. eexists. split; [vm_compute; reflexivity|]. reflexivity. Qed.

Example scenario_solo :
  exists st,
    start 0 solo >>= ticks 5
    = Ok st [SetBackgroundColor (Hsl 0); PlayAlarm;
             SetBackgroundColor White] /\
    phase st = Idle.
Proof. eexists. split; [vm_compute; reflexivity|]. reflexivity. Qed.

Example scenario_empty_name :
  projects (add "" "10" "k3x9q2m1z" initial) = [].
Proof. reflexivity. Qed.

(** * Beyond the claims: the rest of the registry *)

Lemma filter_other_ids (i : string) (ps : list Project) :
  ~ In i (map id ps) ->
  filter (fun project => negb (sameId project i)) ps = ps.
Proof.
  induction ps as [|p ps IH]; intro Hnot; [reflexivity|].
  cbn [filter map In] in *.
  destruct (sameId p i) eqn:E.
  - apply sameId_true in E. tauto.
  - cbn [negb]. rewrite IH by tauto. reflexivity.
Qed.

Lemma deleteProject_projects (i : string) (st : State) :
  projects (deleteProject i st)
  = filter (fun project => negb (sameId project i)) (projects st).
Proof. reflexivity. Qed.

Lemma filter_keeps_NoDup (i : string) (ps : list Project) :
  NoDup (map id ps) ->
  NoDup (map id (filter (fun project => negb (sameId project i)) ps)).
Proof.
  induction ps as [|p ps IH]; intro Hnd; [exact Hnd|].
  cbn [map filter] in *. inversion Hnd as [|x l Hnot Hrest]; subst.
  destruct (negb (sameId p i)); [|exact (IH Hrest)].
  cbn [map]. constructor; [|exact (IH Hrest)].
  intro Hin. apply Hnot. apply in_map_iff in Hin.
  destruct Hin as (q & Hq & Hf). apply filter_In in Hf.
  apply in_map_iff. exists q. tauto.
Qed.

(** X1: with unique ids, deleting the id of the project in row [k] takes
    out that row and nothing else, the rows before and after keeping their
    order; deleting an id that no project has changes nothing. *)
Theorem deleteProject_removes_row (st : State) (k : nat) (p : Project)
  (absent : string) :
  NoDup (map id (projects st)) ->
  nth_error (projects st) k = Some p ->
  ~ In absent (map id (projects st)) ->
  projects (deleteProject (id p) st)
  = firstn k (projects st) ++ skipn (S k) (projects st) /\
  List.length (projects (deleteProject (id p) st))
  = pred (List.length (projects st)) /\
  deleteProject absent st = st.
Proof.
  intros Hnd Hk Habs. rewrite deleteProject_projects.
  assert (Hrow : filter (fun project => negb (sameId project (id p)))
                   (projects st)
                 = firstn k (projects st) ++ skipn (S k) (projects st)).
  { clear Habs. revert k Hk Hnd.
    induction (projects st) as [|q ps IH]; intros [|k] Hk Hnd;
      cbn in Hk; try discriminate;
      inversion Hnd as [|x l Hnot Hrest]; subst.
    - injection Hk as ->. cbn [filter firstn skipn app].
      replace (sameId p (id p)) with true
        by (symmetry; apply sameId_true; reflexivity).
      cbn [negb]. apply filter_other_ids. exact Hnot.
    - cbn [filter firstn skipn app].
      destruct (sameId q (id p)) eqn:E.
      + apply sameId_true in E. exfalso. apply Hnot. rewrite E.
        apply in_map. eapply nth_error_In. exact Hk.
      + cbn [negb]. f_equal. exact (IH k Hk Hrest). }
  split; [exact Hrow|]. split.
  - rewrite Hrow, length_app, length_firstn, length_skipn.
    assert (k < List.length (projects st))%nat
      by (apply nth_error_Some; congruence).
    lia.
  - unfold deleteProject. rewrite filter_other_ids by exact Habs.
    destruct st; reflexivity.
Qed.

(** X2: whatever the ids, after [deleteProject(id)] no project carries the
    id and the list holds exactly the projects with another id; deleting the
    same id again changes nothing, and two deletions commute. *)
Theorem deleteProject_clears_id (st : State) (i j : string) :
  ~ In i (map id (projects (deleteProject i st))) /\
  (forall p, In p (projects (deleteProject i st))
             <-> In p (projects st) /\ id p <> i) /\
  deleteProject i (deleteProject i st) = deleteProject i st /\
  deleteProject i (deleteProject j st) = deleteProject j (deleteProject i st).
Proof.
  assert (Hmem : forall p, In p (projects (deleteProject i st))
                           <-> In p (projects st) /\ id p <> i).
  { intro p. rewrite deleteProject_projects, filter_In.
    rewrite negb_true_iff, sameId_false. tauto. }
  assert (Hgone : ~ In i (map id (projects (deleteProject i st)))).
  { intro Hin. apply in_map_iff in Hin. destruct Hin as (p & Hid & Hp).
    apply Hmem in Hp. tauto. }
  split; [exact Hgone|]. split; [exact Hmem|]. split.
  - unfold deleteProject at 1.
    rewrite filter_other_ids by exact Hgone.
    destruct (deleteProject i st); reflexivity.
  - clear Hmem Hgone.
    assert (Hcomm : forall ps,
      filter (fun project => negb (sameId project i))
        (filter (fun project => negb (sameId project j)) ps)
      = filter (fun project => negb (sameId project j))
          (filter (fun project => negb (sameId project i)) ps)).
    { induction ps as [|p ps IH]; [reflexivity|]. cbn [filter].
      destruct (sameId p j) eqn:Ej, (sameId p i) eqn:Ei; cbn [negb filter];
        rewrite ?Ej, ?Ei; cbn [negb]; rewrite IH; reflexivity. }
    unfold deleteProject, setProjects. cbn. rewrite Hcomm. reflexivity.
Qed.

(** X3: the generated id is never compared with the ids in use.  When it is
    fresh, adding a project and deleting that id gives back the list as it
    was; when it collides, the same deletion also takes the older projects
    with that id away. *)
Theorem add_then_delete (st : State) (c d : ascii)
  (nameRest minutesRest randomId : string) :
  let st' := add (String c nameRest) (String d minutesRest) randomId st in
  (~ In randomId (map id (projects st)) ->
   projects (deleteProject randomId st') = projects st) /\
  (In randomId (map id (projects st)) ->
   (List.length (projects (deleteProject randomId st'))
    < List.length (projects st))%nat).
Proof.
  cbv zeta.
  assert (Hadd : projects (add (String c nameRest) (String d minutesRest)
                             randomId st)
                 = projects st ++
                   [mkProject randomId (String c nameRest)
                      (times60 (parseInt (String d minutesRest)))])
    by reflexivity.
  rewrite deleteProject_projects, Hadd, filter_app. cbn [filter].
  replace (sameId (mkProject randomId (String c nameRest)
                     (times60 (parseInt (String d minutesRest)))) randomId)
    with true by (symmetry; apply sameId_true; reflexivity).
  cbn [negb]. rewrite app_nil_r. split.
  - intro Hfresh. apply filter_other_ids. exact Hfresh.
  - intro Hin. apply in_map_iff in Hin. destruct Hin as (p & Hid & Hp).
    clear Hadd. induction (projects st) as [|q ps IH]; [destruct Hp|].
    cbn [filter List.length].
    pose proof (filter_length_le
                  (fun project => negb (sameId project randomId)) ps) as Hle.
    destruct Hp as [->|Hp].
    + replace (sameId p randomId) with true
        by (symmetry; apply sameId_true; exact Hid).
      cbn [negb]. lia.
    + specialize (IH Hp).
      destruct (negb (sameId q randomId)); cbn [List.length]; lia.
Qed.

(** the text [startEditing] puts in the duration input reads back *)
Lemma minutesText_reads_back (rendering : string) (d : number) :
  readsBack d ->
  times60 (parseInt (minutesText rendering d)) = d /\
  falsy (minutesText rendering d) = false.
Proof.
  destruct d as [z| |s]; cbn [readsBack minutesText];
    [|split; reflexivity|intros []].
  intros [Hz Hsmall]. rewrite pow53 in Hsmall.
  pose proof (Z.div_mod z 60 ltac:(lia)) as Hdm.
  apply Z.eqb_eq in Hz as Hb. rewrite Hb.
  replace (Z.abs (z / 60) <=? 2 ^ 53) with true
    by (symmetry; apply Z.leb_le; rewrite pow53; lia).
  cbn [andb]. rewrite falsy_decimal.
  rewrite (proj2 (times60_parseInt_decimal (z / 60)))
    by (rewrite pow53; lia).
  split; [|reflexivity]. f_equal. lia.
Qed.

Lemma startEditing_form (rendering : string) (p : Project) (st : State) :
  newProjectName (startEditing rendering p st) = name p /\
  newProjectDuration (startEditing rendering p st)
  = minutesText rendering (duration p) /\
  editingProject (startEditing rendering p st) = Some (id p) /\
  projects (startEditing rendering p st) = projects st.
Proof. repeat split. Qed.

(** X4: opening a project for editing and saving it untouched leaves the
    list as it was, when ids are unique and the duration is NaN or a whole
    number of minutes below 2^53 seconds: [String(duration / 60)] read by
    [parseInt] and multiplied by 60 is the duration again. *)
Theorem edit_untouched (st : State) (p : Project) (rendering : string) :
  NoDup (map id (projects st)) ->
  In p (projects st) ->
  readsBack (duration p) ->
  projects (saveEdit (id p) (startEditing rendering p st)) = projects st.
Proof.
  intros Hnd Hin Hwhole.
  destruct (minutesText_reads_back rendering (duration p) Hwhole)
    as [Hback _].
  unfold saveEdit.
  destruct (startEditing_form rendering p st) as (-> & -> & _ & Hps).
  destruct (falsy (name p) || falsy (minutesText rendering (duration p)));
    [exact Hps|].
  cbn [projects setNewProjectDuration setNewProjectName setEditingProject
       setProjects]. rewrite Hps, Hback.
  rewrite <- (map_id (projects st)) at 2. apply map_ext_in.
  intros q Hq. destruct (sameId q (id p)) eqn:E; [|reflexivity].
  apply sameId_true in E.
  apply In_nth_error in Hin. destruct Hin as [kp Hkp].
  apply In_nth_error in Hq. destruct Hq as [kq Hkq].
  assert (kq = kp) by exact (nth_error_id_unique _ _ _ _ _ Hnd Hkq Hkp E).
  subst kq. assert (q = p) by congruence. subst q.
  destruct p; reflexivity.
Qed.

(** X5: the add form and the row being edited share their two inputs.
    With a project open for editing (its name not empty, its duration NaN
    or a whole number of minutes below 2^53 seconds), the Add button
    appends a copy of it under the new id and empties the inputs; the row
    stays in edit mode and its Save button now does nothing. *)
Theorem add_while_editing (st : State) (p : Project)
  (rendering randomId : string) :
  falsy (name p) = false ->
  readsBack (duration p) ->
  let st1 := startEditing rendering p st in
  let st2 := addProject randomId st1 in
  projects st2 = projects st ++ [mkProject randomId (name p) (duration p)] /\
  editingProject st2 = Some (id p) /\
  saveEdit (id p) st2 = st2.
Proof.
  intros Hname Hwhole. cbv zeta.
  destruct (minutesText_reads_back rendering (duration p) Hwhole)
    as [Hback Htext].
  unfold addProject.
  destruct (startEditing_form rendering p st) as (-> & -> & _ & _).
  rewrite Hname, Htext. cbn [orb].
  rewrite Hback. repeat split.
Qed.

(** X6: unique ids stay unique under editing and deleting, and under
    adding as long as the generated id is not in use. *)
Theorem ids_stay_unique (st : State) (i nameText minutesTyped randomId : string) :
  NoDup (map id (projects st)) ->
  NoDup (map id (projects (edit i nameText minutesTyped st))) /\
  NoDup (map id (projects (deleteProject i st))) /\
  (~ In randomId (map id (projects st)) ->
   NoDup (map id (projects (add nameText minutesTyped randomId st)))).
Proof.
  intro Hnd. split; [|split].
  - unfold edit. rewrite saveEdit_ids. exact Hnd.
  - rewrite deleteProject_projects. apply filter_keeps_NoDup. exact Hnd.
  - intro Hfresh. unfold add. rewrite addProject_projects.
    cbn [newProjectName newProjectDuration projects setNewProjectDuration
         setNewProjectName].
    destruct (falsy nameText || falsy minutesTyped); [exact Hnd|].
    rewrite map_app. cbn [map id].
    apply NoDup_app; [exact Hnd|repeat constructor; intros []|].
    intros x Hx [<-|[]]. exact (Hfresh Hx).
Qed.

(** * Beyond the claims: the display *)

(** a one-digit numeral padded with a zero reads as the same number *)
Lemma parseInt_padded_digit (c : ascii) (n : Z) :
  parseInt (String c EmptyString) = Int n ->
  parseInt (String "0" (String c EmptyString)) = Int n.
Proof.
  destruct c as [[] [] [] [] [] [] [] []]; vm_compute; intro H;
    first [discriminate H | exact H].
Qed.

Lemma parseInt_padStart (n : Z) :
  Z.abs n < 2 ^ 53 -> parseInt (padStart 2 "0" (decimal n)) = Int n.
Proof.
  intro Hsmall.
  pose proof (parseInt_decimal_small n Hsmall) as Hn.
  pose proof (falsy_decimal n) as Hne.
  unfold padStart. destruct (decimal n) as [|c [|c' rest]].
  - discriminate Hne.
  - cbn. apply parseInt_padded_digit. exact Hn.
  - cbn [String.length Nat.sub repeatChar String.append]. exact Hn.
Qed.

Lemma padStart_length (s : string) :
  (2 <= String.length (padStart 2 "0" s))%nat.
Proof.
  unfold padStart. destruct s as [|c [|c' rest]]; cbn; lia.
Qed.

Lemma seconds_two_chars (r : Z) :
  0 <= r < 60 -> String.length (padStart 2 "0" (decimal r)) = 2%nat.
Proof.
  intro Hr. rewrite <- (Z2Nat.id r) by lia.
  assert (Hn : (Z.to_nat r < 60)%nat) by lia.
  generalize dependent (Z.to_nat r). intro n.
  do 60 (destruct n as [|n]; [reflexivity|]). lia.
Qed.

(** X7: for a time of [s] seconds, [0 <= s < 2^53], [formatTime] gives
    minutes, a colon, seconds: the seconds in exactly two characters, the
    minutes in at least two, and the two fields read as numbers give back
    [s].  [NaN] is shown as NaN on both sides, an infinity as Infinity
    minutes and NaN seconds. *)
Theorem formatTime_fields (large : string) (s : Z) :
  0 <= s < 2 ^ 53 ->
  exists mins secs : string,
    formatTime large (Int s) = String.append mins (String ":" secs) /\
    String.length secs = 2%nat /\
    (2 <= String.length mins)%nat /\
    parseInt mins = Int (s / 60) /\
    parseInt secs = Int (s mod 60) /\
    60 * (s / 60) + s mod 60 = s /\
    formatTime large NaN = "NaN:NaN" /\
    formatTime large (Infinity false) = "Infinity:NaN".
Proof.
  intro Hs. rewrite pow53 in Hs.
  exists (padStart 2 "0" (decimal (s / 60))),
         (padStart 2 "0" (decimal (s mod 60))).
  pose proof (Z.mod_pos_bound s 60 ltac:(lia)) as Hmod.
  pose proof (Z.div_mod s 60 ltac:(lia)) as Hdm.
  split.
  { unfold formatTime. cbn [minutesField secondsField].
    replace (Z.abs s <? 2 ^ 53) with true
      by (symmetry; apply Z.ltb_lt; rewrite pow53; lia).
    rewrite Z.rem_mod_nonneg by lia. reflexivity. }
  split; [apply seconds_two_chars; exact Hmod|].
  split; [apply padStart_length|].
  split; [apply parseInt_padStart; rewrite pow53; lia|].
  split; [apply parseInt_padStart; rewrite pow53; lia|].
  split; [lia|]. split; reflexivity.
Qed.

(** * Beyond the claims: the timer effect on its own *)

(** everything one run of the effect does when it changes the state *)
Lemma timerEffect_step (s s' : State) (o : list Effect) :
  timerEffect s = Some (Ok s' o) ->
  isRunning s = true /\ timeLeft s = Int 0 /\
  isPaused s' = isPaused s /\ projects s' = projects s /\
  count isAlarm o = 1%nat /\
  (isRunning s' = false \/
   (isRunning s' = true /\ currentProject s' = currentProject s + 1 /\
    exists p, projectAt (projects s) (currentProject s + 1) = Some p /\
              timeLeft s' = duration p)).
Proof.
  intro He. apply timerEffect_inv in He.
  destruct He as (Hr & Ht & [[_ Hadv]|[_ Heq]]).
  - destruct (projectAt (projects s) (currentProject s + 1)) as [p|] eqn:Hp;
      [|discriminate].
    injection Hadv as -> ->. repeat split; try assumption.
    right. repeat split; [exact Hr|]. exists p. split; reflexivity.
  - injection Heq as -> ->.
    match goal with |- context [leaveFullscreen ?x] =>
      destruct (leaveFullscreen_fields x) as (Hps & _ & Hrun & Hpa & _);
      destruct (leaveFullscreen_silent x) as (Hsa & _)
    end.
    split; [exact Hr|]. split; [exact Ht|].
    split; [rewrite Hpa; reflexivity|]. split; [rewrite Hps; reflexivity|].
    split.
    + change (count isAlarm (PlayAlarm :: SetBackgroundColor White :: ?l))
        with (S (count isAlarm l)). rewrite Hsa. reflexivity.
    + left. rewrite Hrun. reflexivity.
Qed.

Lemma settleFuel_alarms (fuel : nat) :
  forall st st' out,
    settleFuel fuel st = Ok st' out -> (count isAlarm out <= fuel)%nat.
Proof.
  induction fuel as [|fuel IH]; intros st st' out; cbn [settleFuel];
    destruct (timerEffect st) as [[s1 o1| |]|] eqn:He; try discriminate.
  - intro H. injection H as _ <-. cbn. lia.
  - intro H. apply andThen_Ok_inv in H.
    destruct H as (s & o & o2 & Heq & Hk & ->). injection Heq as <- <-.
    destruct (timerEffect_step _ _ _ He) as (_ & _ & _ & _ & Hone & _).
    rewrite count_app, Hone. specialize (IH _ _ _ Hk). lia.
  - intro H. injection H as _ <-. cbn. lia.
Qed.

(** X8: the re-runs of the timer effect end.  From any state the effect
    rests, or stops on a TypeError, within one more run than there are
    projects; from a state with its index in range it rests, leaves the
    list alone and has played at most that many alarms. *)
Theorem effect_comes_to_rest (st : State) :
  settle st <> Pending /\
  (indexInRange st ->
   exists st' out,
     settle st = Ok st' out /\ rested st' /\ indexInRange st' /\
     projects st' = projects st /\ isPaused st' = isPaused st /\
     (count isAlarm out <= S (List.length (projects st)))%nat).
Proof.
  split; [apply settle_not_pending|].
  intro Hinv. destruct (settle_total st Hinv) as (st' & out & Hs).
  exists st', out. split; [exact Hs|].
  split; [exact (settle_Ok_rested _ _ _ Hs)|].
  split; [exact (settle_indexInRange _ _ _ Hinv Hs)|].
  split; [exact (settle_projects _ _ _ Hs)|].
  split; [|exact (settleFuel_alarms _ _ _ _ Hs)].
  apply (settleFuel_invariant (fun s => isPaused s = isPaused st)
           (fun s s' o Hp He =>
              eq_trans (proj1 (proj2 (proj2 (timerEffect_step s s' o He)))) Hp)
           _ st st' out eq_refl Hs).
Qed.

(** a run standing at zero is moved on by the effect, paused or not *)
Lemma settle_zero (st : State) :
  indexInRange st -> isRunning st = true -> timeLeft st = Int 0 ->
  exists st' out,
    settle st = Ok st' out /\ (1 <= count isAlarm out)%nat /\
    rested st' /\ isPaused st' = isPaused st /\
    (isRunning st' = false \/ currentProject st < currentProject st').
Proof.
  intros Hinv Hr Ht.
  destruct (settle_total st Hinv) as (st' & out & Hs).
  exists st', out. split; [exact Hs|].
  pose proof (settle_Ok_rested _ _ _ Hs) as Hrest.
  unfold settle in Hs. cbn [settleFuel] in Hs.
  destruct (timerEffect st) as [[s1 o1| |]|] eqn:He; try discriminate.
  - apply andThen_Ok_inv in Hs.
    destruct Hs as (s & o & o2 & Heq & Hk & ->). injection Heq as <- <-.
    destruct (timerEffect_step _ _ _ He) as (_ & _ & Hpa & _ & Hone & Hmove).
    split; [rewrite count_app, Hone; lia|]. split; [exact Hrest|].
    apply (settleFuel_invariant
             (fun x => isPaused x = isPaused st /\
                       (isRunning x = false \/
                        currentProject st < currentProject x))) in Hk.
    + exact Hk.
    + intros x x' ox [Hxp Hx] Hex.
      destruct (timerEffect_step _ _ _ Hex)
        as (Hxr & _ & Hxpa & _ & _ & Hxmove).
      split; [congruence|].
      destruct Hxmove as [Hidle|(_ & Hcur & _)]; [left; exact Hidle|].
      right. destruct Hx as [Hx|Hx]; [congruence|lia].
    + split; [exact Hpa|].
      destruct Hmove as [Hidle|(_ & Hcur & _)]; [left; exact Hidle|].
      right. lia.
  - exfalso. assert (Hnot : rested st) by exact He.
    apply rested_iff in Hnot. rewrite Hr, Ht in Hnot. discriminate Hnot.
Qed.

(** X9: a project of zero seconds is passed over at once.  Starting on it
    plays the alarm within the same event and leaves the run on a later
    project, or over. *)
Theorem start_on_zero_moves_on (st : State) (i : Z) (p : Project) :
  projectAt (projects st) i = Some p ->
  duration p = Int 0 ->
  exists st' out,
    start i st = Ok st' out /\
    (1 <= count isAlarm out)%nat /\
    (phase st' = Idle \/ i < currentProject st').
Proof.
  intros Hp Hd. unfold start. rewrite (startTracking_found st i p Hp).
  match goal with |- context [Ok ?s ?o >>= settle] => set (s1 := s) end.
  destruct (settle_zero s1) as (st' & out & Hs & Ha & _ & _ & Hmove).
  - intros _. exact (proj1 (projectAt_inv _ _ _ Hp)).
  - reflexivity.
  - exact Hd.
  - exists st', ([SetBackgroundColor (Hsl (draws st))] ++ out).
    cbn [andThen]. rewrite Hs. split; [reflexivity|].
    split; [rewrite count_app; lia|].
    destruct Hmove as [Hidle|Hcur];
      [left; apply phase_Idle; exact Hidle|right; exact Hcur].
Qed.

(** X10: the zero branch of the effect does not look at [isPaused].
    Navigating onto a project of zero seconds plays the alarm and moves the
    run on even while it is paused; the run, if it goes on, is still paused. *)
Theorem navigate_onto_zero_moves_on (st : State) (d : Direction)
  (p : Project) :
  let target := match d with
                | forward => currentProject st + 1
                | backward => currentProject st - 1
                end in
  isRunning st = true ->
  projectAt (projects st) target = Some p ->
  duration p = Int 0 ->
  exists st' out,
    dispatch (navigateEvent d) st = Ok st' out /\
    (1 <= count isAlarm out)%nat /\
    isPaused st' = isPaused st /\
    (phase st' = Idle \/ target < currentProject st').
Proof.
  cbv zeta. intros Hr Hp Hd.
  pose proof (projectAt_inv _ _ _ Hp) as [Hin _].
  destruct (navigate_step d st Hr Hin) as (q & Hq & Hen & Hh).
  assert (q = p) by congruence. subst q.
  unfold dispatch. rewrite Hen, Hh.
  match goal with |- context [Ok ?s ?o >>= settle] => set (s1 := s) end.
  destruct (settle_zero s1) as (st' & out & Hs & Ha & _ & Hpa & Hmove).
  - intros _. exact Hin.
  - exact Hr.
  - exact Hd.
  - exists st', ([SetBackgroundColor (Hsl (draws st))] ++ out).
    cbn [andThen]. rewrite Hs. split; [reflexivity|].
    split; [rewrite count_app; lia|]. split; [exact Hpa|].
    destruct Hmove as [Hidle|Hcur];
      [left; apply phase_Idle; exact Hidle|right; exact Hcur].
Qed.

(** X11: a project whose duration is negative or NaN holds the run for
    good.  A run started on it is Running with that duration as
    [timeLeft], no interval is installed, and no number of ticks changes
    anything. *)
Theorem start_on_unusable_duration_stalls (st : State) (i : Z)
  (p : Project) (n : nat) :
  projectAt (projects st) i = Some p ->
  gt0 (duration p) = false -> eq0 (duration p) = false ->
  exists st1,
    start i st = Ok st1 [SetBackgroundColor (Hsl (draws st))] /\
    phase st1 = Running /\ currentProject st1 = i /\
    timeLeft st1 = duration p /\
    timerArmed st1 = false /\
    ticks n st1 = Ok st1 [].
Proof.
  intros Hp Hgt Hz. unfold start. rewrite (startTracking_found st i p Hp).
  match goal with |- context [Ok ?s ?o >>= settle] => set (s1 := s) end.
  assert (Harm : timerArmed s1 = false)
    by (unfold timerArmed; cbn; exact Hgt).
  exists s1. split.
  - apply andThen_rested. apply timerEffect_nonzero. exact Hz.
  - repeat split; [exact Harm|]. apply ticks_unarmed. exact Harm.
Qed.

(** X20: above 2^53 seconds the interval's callback does not count: for a
    time left [t] that is a double above 2^53, [prev - 1] is again a
    double, positive and at most [t], and never [t - 1]. *)
Theorem interval_inexact_above_2_53 (st : State) (t : Z) :
  timeLeft st = Int t -> 2 ^ 53 < t -> double t = Int t ->
  exists t',
    timeLeft (intervalCallback st) = Int t' /\
    t' <> t - 1 /\ 0 < t' <= t.
Proof.
  intros Ht Hbig Hdbl.
  destruct (double_pred t ltac:(rewrite pow53 in Hbig; lia) Hdbl)
    as (t' & Ht' & Hb).
  exists t'. unfold intervalCallback. cbn [timeLeft setTimeLeft].
  rewrite Ht. cbn [pred1]. split; [exact Ht'|].
  destruct (double_even t t) as [k Hk]; [lia|exact Hdbl|].
  destruct (double_even (t - 1) t') as [k' Hk']; [lia|exact Ht'|].
  destruct (double_large (t - 1) t' ltac:(lia) Ht') as (Hl & _).
  rewrite pow53 in *. lia.
Qed.

(** * Beyond the claims: what a session keeps *)

Lemma double_isDouble (w : Z) : isDouble (double w).
Proof.
  destruct (double w) as [z| |sg] eqn:E; [|exact I|exact I].
  exact (double_fixed _ _ E).
Qed.

Lemma parseInt_isDouble (s : string) : isDouble (parseInt s).
Proof.
  unfold parseInt.
  repeat match goal with
         | |- context [let '(_, _) := ?x in _] => destruct x as [? ?]
         end.
  match goal with
  | |- context [parseDigits ?R ?S2 None] => destruct (parseDigits R S2 None)
  end; [apply double_isDouble|exact I].
Qed.

Lemma pred1_isDouble (x : number) : isDouble (pred1 x).
Proof.
  destruct x as [z| |s]; cbn [pred1]; try exact I. apply double_isDouble.
Qed.

Lemma times60_whole (x : number) : isDouble x -> wholeMinutes (times60 x).
Proof.
  destruct x as [m| |s]; cbn [isDouble times60]; [|intros _; exact I..].
  intro Hm. destruct (double (m * 60)) as [z| |sg] eqn:E; [|exact I|exact I].
  exists m. split; [exact Hm|exact E].
Qed.

Lemma wholeMinutes_isDouble (d : number) : wholeMinutes d -> isDouble d.
Proof.
  destruct d as [z| |s]; cbn [wholeMinutes isDouble]; [|trivial..].
  intros (m & _ & Hz). exact (double_fixed _ _ Hz).
Qed.

(** below 2^53 such a duration is a whole number of minutes *)
Lemma wholeMinutes_exact (z : Z) :
  wholeMinutes (Int z) -> Z.abs z < 2 ^ 53 -> z mod 60 = 0.
Proof.
  intros (m & _ & Hz) Hsmall.
  rewrite (double_Int_inv _ _ Hz Hsmall). apply Z.mod_mul. lia.
Qed.

Lemma handler_projects_running (e : Event) (st st1 : State)
  (o1 : list Effect) :
  isRunning st = true -> enabled st e = true -> handler e st = Ok st1 o1 ->
  projects st1 = projects st.
Proof.
  intros Hr Hen Hh.
  destruct e; cbn [enabled handler] in Hen, Hh; rewrite ?Hr in Hen;
    try discriminate Hen.
  - unfold pure, toggleFullscreen in Hh.
    destruct (negb (fullscreenElement st)); injection Hh as <- _; reflexivity.
  - injection Hh as <- _. reflexivity.
  - unfold pure in Hh. rewrite returnToPlanning_eq in Hh.
    injection Hh as <- _.
    destruct (leaveFullscreen_fields (planning st)) as (H & _).
    rewrite H. reflexivity.
  - apply (navigate_inv backward) in Hh.
    destruct Hh as (t & p & _ & -> & _). reflexivity.
  - apply (navigate_inv forward) in Hh.
    destruct Hh as (t & p & _ & -> & _). reflexivity.
  - injection Hh as <- _. reflexivity.
  - injection Hh as <- _. reflexivity.
Qed.

(** X12: while a run is active the list of projects cannot change: the
    controls that add, edit and delete are not rendered, and neither the
    countdown's handlers nor the effect write the list. *)
Theorem registry_frozen_during_run (st st' : State) (e : Event)
  (out : list Effect) :
  isRunning st = true -> dispatch e st = Ok st' out ->
  projects st' = projects st /\
  (forall randomId, enabled st (ClickAdd randomId) = false) /\
  (forall k text, enabled st (ClickEdit k text) = false) /\
  (forall k, enabled st (ClickSave k) = false /\
             enabled st (ClickDelete k) = false).
Proof.
  intros Hr Hd. split.
  - apply dispatch_inv in Hd.
    destruct Hd as [(_ & -> & _)|(Hen & st1 & o1 & o2 & Hh & Hs & _)];
      [reflexivity|].
    rewrite (settle_projects _ _ _ Hs).
    exact (handler_projects_running e st st1 o1 Hr Hen Hh).
  - cbn [enabled]. rewrite Hr. repeat split.
Qed.

Lemma handler_wholeMinutes (e : Event) (st st1 : State) (o1 : list Effect) :
  Forall (fun p => wholeMinutes (duration p)) (projects st) ->
  handler e st = Ok st1 o1 ->
  Forall (fun p => wholeMinutes (duration p)) (projects st1).
Proof.
  intros Hall Hh.
  assert (Hstart : forall i, startTracking i st = Ok st1 o1 ->
            Forall (fun p => wholeMinutes (duration p)) (projects st1)).
  { intros i Hs. apply startTracking_inv in Hs.
    destruct Hs as [(_ & -> & _)|(p & _ & -> & _)]; exact Hall. }
  assert (Hnav : forall d, handler (navigateEvent d) st = Ok st1 o1 ->
            Forall (fun p => wholeMinutes (duration p)) (projects st1)).
  { intros d Hn. apply navigate_inv in Hn.
    destruct Hn as (t & p & _ & -> & _). exact Hall. }
  destruct e; cbn [handler] in Hh;
    try (apply (Hnav backward); exact Hh);
    try (apply (Hnav forward); exact Hh);
    try (eapply Hstart; exact Hh);
    try match type of Hh with
        | context [onRow] =>
            unfold onRow in Hh; destruct (nth_error (projects st) index)
        end;
    try (unfold pure in Hh);
    injection Hh as <- _;
    try exact Hall.
  - (* ClickAdd *)
    rewrite addProject_projects.
    destruct (falsy (newProjectName st) || falsy (newProjectDuration st));
      [exact Hall|].
    apply Forall_app. split; [exact Hall|].
    constructor; [apply times60_whole, parseInt_isDouble|constructor].
  - (* ClickDelete *)
    cbn [projects deleteProject setProjects]. apply Forall_forall.
    intros q Hq. apply filter_In in Hq.
    exact (proj1 (Forall_forall _ _) Hall q (proj1 Hq)).
  - (* ClickSave *)
    unfold saveEdit.
    destruct (falsy (newProjectName st) || falsy (newProjectDuration st));
      [exact Hall|].
    cbn [projects setNewProjectDuration setNewProjectName setEditingProject
         setProjects].
    apply Forall_forall. intros q Hq. apply in_map_iff in Hq.
    destruct Hq as (q0 & <- & Hq0).
    destruct (sameId q0 _); [apply times60_whole, parseInt_isDouble|].
    exact (proj1 (Forall_forall _ _) Hall q0 Hq0).
  - (* ClickFullscreen *)
    unfold toggleFullscreen. destruct (negb (fullscreenElement st)); exact Hall.
  - (* ClickReturn *)
    rewrite returnToPlanning_eq. cbn [fst].
    destruct (leaveFullscreen_fields (planning st)) as (H & _).
    rewrite H. exact Hall.
Qed.

Lemma reachable_wholeMinutes (st : State) :
  reachable st -> Forall (fun q => wholeMinutes (duration q)) (projects st).
Proof.
  induction 1 as [|st e st' out _ IH Hd]; [constructor|].
  apply dispatch_inv in Hd.
  destruct Hd as [(_ & -> & _)|(_ & st1 & o1 & o2 & Hh & Hs & _)];
    [exact IH|].
  rewrite (settle_projects _ _ _ Hs).
  exact (handler_wholeMinutes e st st1 o1 IH Hh).
Qed.

(** X13: every duration in the list of a session is NaN, an infinity, or
    the double nearest to 60 times an integer that is itself a double: the
    list only ever receives [parseInt(..) * 60].  Below 2^53 seconds no
    rounding takes place and the duration is a whole number of minutes. *)
Theorem durations_are_whole_minutes (st : State) (p : Project) :
  reachable st -> In p (projects st) ->
  duration p = NaN \/
  (exists negative, duration p = Infinity negative) \/
  (exists minutes z,
     duration p = Int z /\
     double minutes = Int minutes /\
     double (minutes * 60) = Int z /\
     (Z.abs z < 2 ^ 53 -> z = minutes * 60)).
Proof.
  intros Hreach Hin.
  pose proof (proj1 (Forall_forall _ _) (reachable_wholeMinutes st Hreach)
                p Hin) as Hw.
  cbv beta in Hw.
  destruct (duration p) as [z| |sg];
    [right; right|left; reflexivity|right; left; exists sg; reflexivity].
  destruct Hw as (m & Hm & Hz). exists m, z.
  split; [reflexivity|]. split; [exact Hm|]. split; [exact Hz|].
  intro Hsmall. exact (double_Int_inv _ _ Hz Hsmall).
Qed.

(** every handler leaves a double in [timeLeft] *)
Lemma handler_isDouble (e : Event) (st st1 : State) (o1 : list Effect) :
  Forall (fun p => wholeMinutes (duration p)) (projects st) ->
  isDouble (timeLeft st) ->
  handler e st = Ok st1 o1 -> isDouble (timeLeft st1).
Proof.
  intros Hall Hd Hh.
  assert (Hat : forall i p, projectAt (projects st) i = Some p ->
                            isDouble (duration p)).
  { intros i p Hp. apply wholeMinutes_isDouble.
    apply projectAt_inv in Hp. destruct Hp as [_ Hn].
    apply nth_error_In in Hn.
    exact (proj1 (Forall_forall _ _) Hall p Hn). }
  assert (Hstart : forall i, startTracking i st = Ok st1 o1 ->
                             isDouble (timeLeft st1)).
  { intros i Hs. apply startTracking_inv in Hs.
    destruct Hs as [(_ & -> & _)|(p & Hp & -> & _)]; [exact Hd|].
    exact (Hat i p Hp). }
  assert (Hnav : forall d, handler (navigateEvent d) st = Ok st1 o1 ->
                           isDouble (timeLeft st1)).
  { intros d Hn. apply navigate_inv in Hn.
    destruct Hn as (t & p & Hp & -> & _). exact (Hat t p Hp). }
  destruct e; cbn [handler] in Hh;
    try (apply (Hnav backward); exact Hh);
    try (apply (Hnav forward); exact Hh);
    try (eapply Hstart; exact Hh);
    try match type of Hh with
        | context [onRow] =>
            unfold onRow in Hh; destruct (nth_error (projects st) index)
        end;
    try (unfold pure in Hh);
    injection Hh as <- _;
    try exact Hd.
  - (* ClickAdd *)
    unfold addProject.
    destruct (falsy (newProjectName st) || falsy (newProjectDuration st));
      exact Hd.
  - (* ClickSave *)
    unfold saveEdit.
    destruct (falsy (newProjectName st) || falsy (newProjectDuration st));
      exact Hd.
  - (* ClickFullscreen *)
    unfold toggleFullscreen. destruct (negb (fullscreenElement st)); exact Hd.
  - (* ClickReturn *)
    rewrite returnToPlanning_eq. cbn [fst].
    destruct (leaveFullscreen_fields (planning st)) as (_ & _ & _ & _ & H & _).
    rewrite H. exact Hd.
  - (* IntervalFired *)
    apply pred1_isDouble.
Qed.

(** every duration and [timeLeft] are doubles in every state of a session *)
Lemma reachable_isDouble (st : State) :
  reachable st ->
  Forall (fun q => wholeMinutes (duration q)) (projects st) /\
  isDouble (timeLeft st).
Proof.
  intro Hreach. split; [exact (reachable_wholeMinutes st Hreach)|].
  induction Hreach as [|st e st' out Hreach IH Hd]; [reflexivity|].
  pose proof (reachable_wholeMinutes st Hreach) as Hall.
  apply dispatch_inv in Hd.
  destruct Hd as [(_ & -> & _)|(_ & st1 & o1 & o2 & Hh & Hs & _)];
    [exact IH|].
  pose proof (handler_isDouble e st st1 o1 Hall IH Hh) as H1.
  pose proof (handler_wholeMinutes e st st1 o1 Hall Hh) as Hall1.
  refine (proj2 (settleFuel_invariant
            (fun s => Forall (fun q => wholeMinutes (duration q)) (projects s)
                      /\ isDouble (timeLeft s))
            _ _ st1 st' o2 (conj Hall1 H1) Hs)).
  intros s s' o [Hps Ht] He.
  apply timerEffect_inv in He.
  destruct He as (_ & _ & [[_ Hadv]|[_ Hend]]).
  - destruct (projectAt (projects s) (currentProject s + 1)) as [q|] eqn:Hq;
      [|discriminate].
    injection Hadv as -> _. split; [exact Hps|].
    apply wholeMinutes_isDouble.
    apply projectAt_inv in Hq. destruct Hq as [_ Hn].
    apply nth_error_In in Hn.
    exact (proj1 (Forall_forall _ _) Hps q Hn).
  - injection Hend as -> _.
    match goal with |- context [leaveFullscreen ?x] =>
      destruct (leaveFullscreen_fields x) as (Hl & _ & _ & _ & H & _)
    end.
    rewrite Hl, H. split; [exact Hps|exact Ht].
Qed.

(** the countdown handlers keep [timeLeft] within the current duration,
    except that the interval's callback may reach zero *)
Lemma handler_within (e : Event) (st st1 : State) (o1 : list Effect) :
  withinDuration st -> isDouble (timeLeft st) ->
  enabled st e = true -> handler e st = Ok st1 o1 ->
  isRunning st1 = true ->
  timeLeft st1 = Int 0 \/
  exists p,
    projectAt (projects st1) (currentProject st1) = Some p /\
    (timeLeft st1 = duration p \/
     exists t d, timeLeft st1 = Int t /\ duration p = Int d /\ 0 < t < d).
Proof.
  intros Hw Hdbl Hen Hh.
  assert (Hstart : forall i, startTracking i st = Ok st1 o1 ->
            isRunning st1 = true ->
            timeLeft st1 = Int 0 \/
            exists p,
              projectAt (projects st1) (currentProject st1) = Some p /\
              (timeLeft st1 = duration p \/
               exists t d, timeLeft st1 = Int t /\ duration p = Int d /\
                           0 < t < d)).
  { intros i Hs Hr1. apply startTracking_inv in Hs.
    destruct Hs as [(_ & -> & _)|(p & Hp & -> & _)];
      [right; exact (Hw Hr1)|].
    right. exists p. split; [exact Hp|left; reflexivity]. }
  assert (Hidle : isRunning st = false -> isRunning st = true ->
            timeLeft st1 = Int 0 \/
            exists p,
              projectAt (projects st1) (currentProject st1) = Some p /\
              (timeLeft st1 = duration p \/
               exists t d, timeLeft st1 = Int t /\ duration p = Int d /\
                           0 < t < d)) by congruence.
  assert (Hplanning : negb (isRunning st) = true -> isRunning st = false)
    by (destruct (isRunning st); [discriminate|reflexivity]).
  destruct e; cbn [enabled handler] in Hen, Hh;
    try (eapply Hstart; exact Hh);
    try match type of Hh with
        | context [onRow] =>
            unfold onRow in Hh; destruct (nth_error (projects st) index)
        end;
    try (unfold pure in Hh).
  all: try (assert (Hn : negb (isRunning st) = true)
              by (first [exact Hen
                        |apply andb_prop in Hen; exact (proj1 Hen)]);
            injection Hh as <- _;
            rewrite ?addProject_isRunning, ?saveEdit_isRunning;
            cbn [isRunning setNewProjectName setNewProjectDuration
                 setEditingProject setProjects startEditing deleteProject];
            intro Hr1; rewrite (Hplanning Hn) in Hr1; discriminate Hr1).
  - (* ClickFullscreen *)
    unfold toggleFullscreen in Hh.
    destruct (negb (fullscreenElement st)); injection Hh as <- _;
      intro Hr1; right; exact (Hw Hr1).
  - (* ClickPause *)
    injection Hh as <- _. intro Hr1. right. exact (Hw Hr1).
  - (* ClickReturn *)
    rewrite returnToPlanning_eq in Hh. injection Hh as <- _.
    destruct (leaveFullscreen_fields (planning st)) as (_ & _ & H & _).
    rewrite H. discriminate.
  - (* ClickPrev *)
    apply (navigate_inv backward) in Hh.
    destruct Hh as (t & p & Hp & -> & _). intros _. right. exists p.
    split; [exact Hp|left; reflexivity].
  - (* ClickNext *)
    apply (navigate_inv forward) in Hh.
    destruct Hh as (t & p & Hp & -> & _). intros _. right. exists p.
    split; [exact Hp|left; reflexivity].
  - (* IntervalFired *)
    injection Hh as <- _. intro Hr1.
    destruct (timerArmed_inv st Hen) as (Hr & _ & Hgt).
    destruct (Hw Hr) as (p & Hp & Hrel).
    unfold intervalCallback.
    cbn [timeLeft projects currentProject setTimeLeft].
    destruct (timeLeft st) as [t| |sg] eqn:Ht; cbn [gt0] in Hgt;
      [|discriminate|].
    + apply Z.ltb_lt in Hgt. cbn [isDouble] in Hdbl.
      destruct (double_pred t Hgt Hdbl) as (t' & Ht' & Hb).
      cbn [pred1]. rewrite Ht'.
      destruct (Z.eq_dec t' 0) as [->|Hnz]; [left; reflexivity|].
      right. exists p. split; [exact Hp|].
      destruct Hrel as [Heq|(t0 & d & Ht0 & Hd & Hlt)].
      * destruct (Z.eq_dec t' t) as [->|Hne]; [left; exact Heq|].
        right. exists t', t. rewrite <- Heq. repeat split; lia.
      * injection Ht0 as <-. right. exists t', d.
        repeat split; [exact Hd|lia|lia].
    + right. exists p. split; [exact Hp|].
      destruct Hrel as [Heq|(t0 & d & Ht0 & _)]; [|discriminate Ht0].
      left. exact Heq.
  - (* FullscreenLeft *)
    injection Hh as <- _. intro Hr1. right. exact (Hw Hr1).
Qed.

Lemma reachable_withinDuration (st : State) :
  reachable st -> withinDuration st.
Proof.
  induction 1 as [|st e st' out Hreach IH Hd]; [discriminate|].
  pose proof (proj2 (reachable_isDouble st Hreach)) as Hdbl.
  apply dispatch_inv in Hd.
  destruct Hd as [(_ & -> & _)|(Hen & st1 & o1 & o2 & Hh & Hs & _)];
    [exact IH|].
  pose proof (settle_Ok_rested _ _ _ Hs) as Hrest.
  pose proof (handler_within e st st1 o1 IH Hdbl Hen Hh) as H1.
  assert (Hfin : isRunning st' = true ->
            timeLeft st' = Int 0 \/
            exists p,
              projectAt (projects st') (currentProject st') = Some p /\
              (timeLeft st' = duration p \/
               exists t d, timeLeft st' = Int t /\ duration p = Int d /\
                           0 < t < d)).
  { refine (settleFuel_invariant
              (fun s => isRunning s = true ->
                 timeLeft s = Int 0 \/
                 exists p,
                   projectAt (projects s) (currentProject s) = Some p /\
                   (timeLeft s = duration p \/
                    exists t d, timeLeft s = Int t /\ duration p = Int d /\
                                0 < t < d))
              _ _ st1 st' o2 H1 Hs).
    intros s s' o _ He Hr'.
    destruct (timerEffect_step _ _ _ He)
      as (_ & _ & _ & Hps & _ & [Hidle|(_ & Hcur & p & Hp & Ht)]);
      [congruence|].
    right. exists p. rewrite Hps, Hcur. split; [exact Hp|left; exact Ht]. }
  intro Hr. destruct (Hfin Hr) as [Hzero|Hin]; [|exact Hin].
  pose proof (rested_running_nonzero st' Hrest Hr) as Hnz.
  rewrite Hzero in Hnz. discriminate Hnz.
Qed.

(** X14: in every state of a session with a run active, [currentProject]
    names a project, [timeLeft] is not zero, and it is either that
    project's duration or a positive number of seconds below it: the
    display never shows more than the project's time and never rests on
    00:00. *)
Theorem timeLeft_within_duration (st : State) :
  reachable st -> isRunning st = true ->
  exists p,
    projectAt (projects st) (currentProject st) = Some p /\
    timeLeft st <> Int 0 /\
    (timeLeft st = duration p \/
     exists t d, timeLeft st = Int t /\ duration p = Int d /\ 0 < t < d).
Proof.
  intros Hreach Hr.
  destruct (reachable_withinDuration st Hreach Hr) as (p & Hp & Hrel).
  destruct (reachable_invariants st Hreach) as (_ & Hrest & _).
  exists p. split; [exact Hp|]. split; [|exact Hrel].
  intro Hzero. pose proof (rested_running_nonzero st Hrest Hr) as Hnz.
  rewrite Hzero in Hnz. discriminate Hnz.
Qed.

(** a navigation inside the list, when no project has a zero duration *)
Lemma dispatch_navigate (d : Direction) (st : State) :
  let target := match d with
                | forward => currentProject st + 1
                | backward => currentProject st - 1
                end in
  allPositive st -> isRunning st = true ->
  0 <= target < Z.of_nat (List.length (projects st)) ->
  exists p,
    projectAt (projects st) target = Some p /\
    dispatch (navigateEvent d) st
    = Ok (setDraws (S (draws st))
            (setBackgroundColor (Hsl (draws st))
               (setTimeLeft (duration p) (setCurrentProject target st))))
         [SetBackgroundColor (Hsl (draws st))].
Proof.
  cbv zeta. intros Hall Hr Hin.
  destruct (navigate_step d st Hr Hin) as (p & Hp & Hen & Hh).
  exists p. split; [exact Hp|].
  unfold dispatch. rewrite Hen, Hh. apply andThen_rested.
  apply (rested_loaded _ p); [|reflexivity].
  exact (allPositive_at _ _ _ Hall Hp).
Qed.

(** X15: stepping to the next project and back does not resume the
    countdown where it was: the run is on the same project again, in the
    same phase, with the project's full duration as [timeLeft]; two colour
    changes and no alarm have happened. *)
Theorem navigate_there_and_back (st : State) (p : Project) :
  allPositive st -> isRunning st = true ->
  projectAt (projects st) (currentProject st) = Some p ->
  currentProject st + 1 < Z.of_nat (List.length (projects st)) ->
  exists st2 out,
    run [ClickNext; ClickPrev] st = Ok st2 out /\
    currentProject st2 = currentProject st /\
    timeLeft st2 = duration p /\
    phase st2 = phase st /\
    projects st2 = projects st /\
    count isAlarm out = 0%nat /\
    count isProjectChanged out = 2%nat.
Proof.
  intros Hall Hr Hp Hnext.
  pose proof (projectAt_inv _ _ _ Hp) as [Hcur _].
  destruct (dispatch_navigate forward st Hall Hr) as (q & Hq & Hfwd);
    [lia|].
  cbn [run navigateEvent] in *. rewrite Hfwd. cbn [andThen].
  match goal with |- context [dispatch ClickPrev ?s] => set (s1 := s) end.
  destruct (dispatch_navigate backward s1 Hall Hr) as (p' & Hp' & Hback).
  { cbn [currentProject projects s1 setDraws setBackgroundColor setTimeLeft
         setCurrentProject]. lia. }
  cbn [navigateEvent currentProject projects s1 setDraws setBackgroundColor
       setTimeLeft setCurrentProject] in Hp', Hback.
  replace (currentProject st + 1 - 1) with (currentProject st) in Hp', Hback
    by lia.
  assert (p' = p) by congruence. subst p'.
  fold s1 in Hback. rewrite Hback.
  do 2 eexists. split; [cbn [andThen]; reflexivity|].
  repeat split.
Qed.

(** X16: the bound checks of the two navigation buttons are exactly the
    cases in which their handlers can read the neighbouring project.  In a
    run with its index in range, the handler of a rendered button ends
    normally, and where the button is not rendered the handler would end
    in a TypeError. *)
Theorem navigation_guards_exact (st : State) (d : Direction) :
  isRunning st = true -> indexInRange st ->
  (enabled st (navigateEvent d) = true ->
   exists st' out, handler (navigateEvent d) st = Ok st' out) /\
  (enabled st (navigateEvent d) = false ->
   handler (navigateEvent d) st = TypeError).
Proof.
  intros Hr Hinv. specialize (Hinv Hr). split.
  - intro Hen. apply (handler_total (navigateEvent d) st); [|exact Hen].
    intros _. exact Hinv.
  - destruct d; cbn [navigateEvent enabled handler]; rewrite Hr;
      cbn [andb]; intro Hen; apply Z.ltb_ge in Hen;
      unfold navigateForward, navigateBack;
      rewrite projectAt_None by lia; reflexivity.
Qed.

(** * Instances of the properties above *)

Lemma planned_ids_unique : NoDup (map id (projects planned)).
Proof.
  repeat constructor; cbn; [intros [H|[]]; discriminate H|intros []].
Defined.

Lemma deleteProject_removes_row_witness :
  NoDup (map id (projects planned)) /\
  projects (deleteProject "w8r5t0b4c" planned)
  = [mkProject "k3x9q2m1z" "Draft" (Int 60)] /\
  deleteProject "zzzzzzzzz" planned = planned.
Proof.
  assert (Habs : ~ In "zzzzzzzzz" (map id (projects planned)))
    by (cbn; intros [H|[H|[]]]; discriminate H).
  destruct (deleteProject_removes_row planned 1
              (mkProject "w8r5t0b4c" "Review" (Int 120)) "zzzzzzzzz"
              planned_ids_unique eq_refl Habs) as (Hrow & _ & Hnone).
  split; [exact planned_ids_unique|]. split; [exact Hrow|exact Hnone].
Defined.

Lemma add_then_delete_witness :
  projects (deleteProject "h2j7d4s9a"
              (add "Notes" "5" "h2j7d4s9a" planned)) = projects planned /\
  (List.length (projects (deleteProject "k3x9q2m1z"
                            (add "Notes" "5" "k3x9q2m1z" planned)))
   < List.length (projects planned))%nat.
Proof.
  split.
  - apply (proj1 (add_then_delete planned "N" "5" "otes" "" "h2j7d4s9a")).
    cbn. intros [H|[H|[]]]; discriminate H.
  - apply (proj2 (add_then_delete planned "N" "5" "otes" "" "k3x9q2m1z")).
    cbn. left. reflexivity.
Defined.

Lemma edit_untouched_witness :
  readsBack (Int 120) /\
  projects (saveEdit "w8r5t0b4c"
              (startEditing "?"
                 (mkProject "w8r5t0b4c" "Review" (Int 120)) planned))
  = projects planned.
Proof.
  assert (Hw : readsBack (Int 120)) by (split; reflexivity).
  split; [exact Hw|].
  apply (edit_untouched planned (mkProject "w8r5t0b4c" "Review" (Int 120))
           "?" planned_ids_unique).
  - cbn. right. left. reflexivity.
  - exact Hw.
Defined.

Lemma add_while_editing_witness :
  let st1 := startEditing "?" (mkProject "w8r5t0b4c" "Review" (Int 120))
               planned in
  let st2 := addProject "h2j7d4s9a" st1 in
  projects st2
  = projects planned ++ [mkProject "h2j7d4s9a" "Review" (Int 120)] /\
  editingProject st2 = Some "w8r5t0b4c" /\
  saveEdit "w8r5t0b4c" st2 = st2.
Proof.
  exact (add_while_editing planned
           (mkProject "w8r5t0b4c" "Review" (Int 120)) "?" "h2j7d4s9a"
           eq_refl (conj eq_refl eq_refl)).
Defined.

Lemma ids_stay_unique_witness :
  NoDup (map id (projects (edit "w8r5t0b4c" "Final" "3" planned))) /\
  NoDup (map id (projects (deleteProject "w8r5t0b4c" planned))) /\
  NoDup (map id (projects (add "Notes" "5" "h2j7d4s9a" planned))).
Proof.
  destruct (ids_stay_unique planned "w8r5t0b4c" "Final" "3" "h2j7d4s9a"
              planned_ids_unique) as (He & _ & Ha).
  destruct (ids_stay_unique planned "w8r5t0b4c" "Notes" "5" "h2j7d4s9a"
              planned_ids_unique) as (_ & Hd & Ha').
  split; [exact He|]. split; [exact Hd|].
  apply Ha'. cbn. intros [H|[H|[]]]; discriminate H.
Defined.

Lemma formatTime_fields_witness :
  0 <= 125 < 2 ^ 53 /\
  exists mins secs : string,
    formatTime "?" (Int 125) = String.append mins (String ":" secs) /\
    String.length secs = 2%nat /\
    parseInt mins = Int 2 /\ parseInt secs = Int 5.
Proof.
  assert (H : 0 <= 125 < 2 ^ 53) by (split; [discriminate|reflexivity]).
  split; [exact H|].
  destruct (formatTime_fields "?" 125 H)
    as (mins & secs & Hf & Hl & _ & Hm & Hs & _).
  exists mins, secs. repeat split; assumption.
Defined.

Lemma effect_comes_to_rest_witness :
  indexInRange (setTimeLeft (Int 0) started) /\
  exists st' out,
    settle (setTimeLeft (Int 0) started) = Ok st' out /\ rested st' /\
    (count isAlarm out <= 3)%nat.
Proof.
  assert (Hinv : indexInRange (setTimeLeft (Int 0) started))
    by (intros _; split; [discriminate|reflexivity]).
  split; [exact Hinv|].
  destruct (proj2 (effect_comes_to_rest (setTimeLeft (Int 0) started)) Hinv)
    as (st' & out & Hs & Hr & _ & _ & _ & Hc).
  exists st', out. repeat split; assumption.
Defined.

Lemma start_on_zero_moves_on_witness :
  projectAt (projects oddities) 2
  = Some (mkProject "h2j7d4s9a" "Nothing" (Int 0)) /\
  exists st' out,
    start 2 oddities = Ok st' out /\
    (1 <= count isAlarm out)%nat /\
    (phase st' = Idle \/ 2 < currentProject st').
Proof.
  split; [reflexivity|].
  exact (start_on_zero_moves_on oddities 2
           (mkProject "h2j7d4s9a" "Nothing" (Int 0)) eq_refl eq_refl).
Defined.

Lemma navigate_onto_zero_moves_on_witness :
  isRunning pausedOnLast = true /\ isPaused pausedOnLast = true /\
  exists st' out,
    dispatch ClickPrev pausedOnLast = Ok st' out /\
    (1 <= count isAlarm out)%nat /\
    isPaused st' = true /\
    (phase st' = Idle \/ 2 < currentProject st').
Proof.
  split; [reflexivity|]. split; [reflexivity|].
  exact (navigate_onto_zero_moves_on pausedOnLast backward
           (mkProject "h2j7d4s9a" "Nothing" (Int 0))
           eq_refl eq_refl eq_refl).
Defined.

Lemma start_on_unusable_duration_stalls_witness :
  gt0 (Int (-300)) = false /\ eq0 (Int (-300)) = false /\
  exists st1,
    start 0 oddities = Ok st1 [SetBackgroundColor (Hsl 0)] /\
    phase st1 = Running /\ timeLeft st1 = Int (-300) /\
    ticks 1000 st1 = Ok st1 [].
Proof.
  split; [reflexivity|]. split; [reflexivity|].
  destruct (start_on_unusable_duration_stalls oddities 0
              (mkProject "k3x9q2m1z" "Late" (Int (-300))) 1000
              eq_refl eq_refl eq_refl)
    as (st1 & Hs & Hp & _ & Ht & _ & Hticks).
  exists st1. repeat split; assumption.
Defined.

Lemma interval_inexact_above_2_53_witness :
  2 ^ 53 < 9007199254740994 /\
  double 9007199254740994 = Int 9007199254740994 /\
  exists t',
    timeLeft (intervalCallback (setTimeLeft (Int 9007199254740994) started))
    = Int t' /\
    t' <> 9007199254740993.
Proof.
  assert (Hbig : 2 ^ 53 < 9007199254740994) by reflexivity.
  assert (Hdbl : double 9007199254740994 = Int 9007199254740994)
    by (vm_compute; reflexivity).
  split; [exact Hbig|]. split; [exact Hdbl|].
  destruct (interval_inexact_above_2_53
              (setTimeLeft (Int 9007199254740994) started)
              9007199254740994 eq_refl Hbig Hdbl) as (t' & Ht' & Hne & _).
  exists t'. split; [exact Ht'|exact Hne].
Defined.

Lemma registry_frozen_during_run_witness :
  isRunning started = true /\
  dispatch ClickPause started = Ok (setIsPaused true started) [] /\
  projects (setIsPaused true started) = projects started /\
  enabled started (ClickDelete 0) = false.
Proof.
  assert (Hd : dispatch ClickPause started = Ok (setIsPaused true started) [])
    by reflexivity.
  destruct (registry_frozen_during_run started (setIsPaused true started)
              ClickPause [] eq_refl Hd) as (Hps & _ & _ & Hrows).
  split; [reflexivity|]. split; [exact Hd|]. split; [exact Hps|].
  exact (proj2 (Hrows 0%nat)).
Defined.

Lemma durations_are_whole_minutes_witness :
  reachable started /\
  In (mkProject "w8r5t0b4c" "Review" (Int 120)) (projects started) /\
  (Int 120 = NaN \/
   (exists negative, Int 120 = Infinity negative) \/
   (exists minutes z,
      Int 120 = Int z /\
      double minutes = Int minutes /\
      double (minutes * 60) = Int z /\
      (Z.abs z < 2 ^ 53 -> z = minutes * 60))).
Proof.
  assert (Hin : In (mkProject "w8r5t0b4c" "Review" (Int 120))
                  (projects started)) by (right; left; reflexivity).
  split; [exact started_reachable|]. split; [exact Hin|].
  exact (durations_are_whole_minutes started
           (mkProject "w8r5t0b4c" "Review" (Int 120))
           started_reachable Hin).
Defined.

Lemma timeLeft_within_duration_witness :
  reachable started /\ isRunning started = true /\
  exists p,
    projectAt (projects started) (currentProject started) = Some p /\
    timeLeft started <> Int 0.
Proof.
  split; [exact started_reachable|]. split; [reflexivity|].
  destruct (timeLeft_within_duration started started_reachable eq_refl)
    as (p & Hp & Hnz & _).
  exists p. split; assumption.
Defined.

Lemma navigate_there_and_back_witness :
  allPositive started /\ isRunning started = true /\
  exists st2 out,
    run [ClickNext; ClickPrev] (setTimeLeft (Int 17) started) = Ok st2 out /\
    currentProject st2 = 0 /\ timeLeft st2 = Int 60 /\
    count isAlarm out = 0%nat.
Proof.
  split; [exact planned_allPositive|]. split; [reflexivity|].
  destruct (navigate_there_and_back (setTimeLeft (Int 17) started)
              (mkProject "k3x9q2m1z" "Draft" (Int 60))
              planned_allPositive eq_refl eq_refl eq_refl)
    as (st2 & out & Hrun & Hc & Ht & _ & _ & Ha & _).
  exists st2, out. repeat split; assumption.
Defined.

Lemma navigation_guards_exact_witness :
  isRunning started = true /\ indexInRange started /\
  enabled started ClickPrev = false /\
  navigateBack started = TypeError /\
  exists st' out, navigateForward started = Ok st' out.
Proof.
  assert (Hinv : indexInRange started)
    by (intros _; split; [discriminate|reflexivity]).
  split; [reflexivity|]. split; [exact Hinv|]. split; [reflexivity|].
  split.
  - exact (proj2 (navigation_guards_exact started backward eq_refl Hinv)
             eq_refl).
  - exact (proj1 (navigation_guards_exact started forward eq_refl Hinv)
             eq_refl).
Defined.

(** X17: going in and out of fullscreen, by the button or by the browser,
    leaves the countdown alone: the phase, the current project, the time
    left, the list and the colour are as before, and neither the alarm nor
    a colour change happens. *)
Theorem fullscreen_leaves_countdown (st : State) (e : Event) :
  rested st ->
  e = ClickFullscreen \/ e = FullscreenLeft ->
  exists st' out,
    dispatch e st = Ok st' out /\
    phase st' = phase st /\
    currentProject st' = currentProject st /\
    timeLeft st' = timeLeft st /\
    projects st' = projects st /\
    backgroundColor st' = backgroundColor st /\
    count isAlarm out = 0%nat /\
    count isProjectChanged out = 0%nat /\
    count isRunComplete out = 0%nat.
Proof.
  intros Hrest [ -> | -> ]; unfold dispatch; cbn [enabled handler].
  - destruct (isRunning st) eqn:Hr;
      [|exists st, []; rewrite ?Hr; repeat split].
    unfold pure, toggleFullscreen.
    destruct (negb (fullscreenElement st)); cbn [fst snd];
      rewrite andThen_rested
        by (apply (rested_fields st); [reflexivity|reflexivity|exact Hrest]);
      do 2 eexists; (split; [reflexivity|]); repeat split.
  - destruct (fullscreenElement st);
      [|exists st, []; repeat split].
    rewrite andThen_rested
      by (apply (rested_fields st); [reflexivity|reflexivity|exact Hrest]).
    do 2 eexists. split; [reflexivity|]. repeat split.
Qed.

Lemma fullscreen_leaves_countdown_witness :
  rested started /\
  exists st' out,
    dispatch ClickFullscreen started = Ok st' out /\
    timeLeft st' = Int 60 /\ phase st' = Running /\
    count isAlarm out = 0%nat.
Proof.
  assert (Hrest : rested started) by reflexivity.
  split; [exact Hrest|].
  destruct (fullscreen_leaves_countdown started ClickFullscreen Hrest
              (or_introl eq_refl))
    as (st' & out & Hd & Hp & _ & Ht & _ & _ & Ha & _).
  exists st', out. repeat split; assumption.
Defined.
